(** * FPL mini-league statistics: a shallow embedding of [fpl_api_statistics.py]

    The four reporting routines of the script are modelled as total Rocq
    functions over an explicit, read-only view of the upstream API.  Python
    exceptions are values of [PyExn]; local variables that survive from one
    loop iteration to the next ([captain], [start_value], [end_value]) are
    threaded explicitly, because nothing in the script resets them. *)

From Stdlib Require Import ZArith List String Ascii Bool Lia Sorted.
Import ListNotations.
Open Scope string_scope.
Open Scope Z_scope.

Set Implicit Arguments.

(** ** Exceptions and the error monad *)

Inductive PyExn : Type :=
| KeyError
| IndexError
| TypeError
| ValueError
| OverflowError
| UnboundLocalError (name : string).

Inductive result (A : Type) : Type :=
| Ok (a : A)
| Raise (e : PyExn).

Arguments Ok {A} a.
Arguments Raise {A} e.

Definition bind {A B} (c : result A) (k : A -> result B) : result B :=
  match c with
  | Ok a => k a
  | Raise e => Raise e
  end.

Declare Scope py_scope.
Delimit Scope py_scope with py.
Notation "x <- c ;; k" := (bind c (fun x => k))
  (at level 61, c at next level, right associativity) : py_scope.
Notation "' pat <- c ;; k" := (bind c (fun x => match x with pat => k end))
  (at level 61, pat pattern, c at next level, right associativity) : py_scope.
Open Scope py_scope.

(** [for x in xs: body], with the loop's variables as the state [S]. *)
Fixpoint for_each {S X} (body : S -> X -> result S) (xs : list X) (s : S)
  : result S :=
  match xs with
  | [] => Ok s
  | x :: xs' => s' <- body s x ;; for_each body xs' s'
  end.

(** Reading a local variable that may never have been assigned. *)
Definition read_local {A} (name : string) (v : option A) : result A :=
  match v with
  | Some a => Ok a
  | None => Raise (UnboundLocalError name)
  end.

(** [x in range(a, b)] for an integer [x]. *)
Definition in_range (x a b : Z) : bool := (a <=? x) && (x <? b).

(** [range(a, b)] as the list it iterates over. *)
Definition py_range (a b : Z) : list Z :=
  map (fun i => a + Z.of_nat i) (seq 0 (Z.to_nat (b - a))).

(** ** Insertion-ordered dictionaries

    [d[k] = v] replaces the value in place when [k] is present and appends
    otherwise; iteration follows insertion order. *)

Section Dict.
Variables K V : Type.
Variable eqb : K -> K -> bool.

Definition dict := list (K * V).

Fixpoint dict_set (k : K) (v : V) (d : dict) : dict :=
  match d with
  | [] => [(k, v)]
  | (k', v') :: d' =>
      if eqb k k' then (k, v) :: d' else (k', v') :: dict_set k v d'
  end.

Fixpoint dict_get (k : K) (d : dict) : option V :=
  match d with
  | [] => None
  | (k', v') :: d' => if eqb k k' then Some v' else dict_get k d'
  end.

(** [d[k]] *)
Definition dict_item (k : K) (d : dict) : result V :=
  match dict_get k d with
  | Some v => Ok v
  | None => Raise KeyError
  end.
End Dict.

Arguments dict_set {K V} eqb k v d.
Arguments dict_get {K V} eqb k d.
Arguments dict_item {K V} eqb k d.

(** ** Floating point

    The script divides squad values by [10.0], parses the upstream
    expected-goals strings with [float], adds them up and rounds to two
    decimals.  None of the properties below depends on any law of binary64
    arithmetic, so the operations are an interface without axioms. *)

Class PyFloat : Type := {
  float : Type;
  float_zero : float;                       (* 0.0 *)
  float_add : float -> float -> float;
  float_sub : float -> float -> float;
  truediv_10 : Z -> option float;           (* n / 10.0, None: OverflowError *)
  float_of_str : string -> option float;    (* float(s), None: ValueError *)
  round_2 : float -> float                  (* round(x, 2) *)
}.

(** ** Upstream data *)

Module Standing.
Record t := { entry : Z; player_name : string; entry_name : string }.
End Standing.

Module Element.
Record t := { id : Z; first_name : string; second_name : string;
              element_type : Z }.
End Element.

(** One entry of [res['current']] in a manager's season history. *)
Module History.
Record t := { event : Z; points : Z; value : Z; total_points : Z }.
End History.

Module Pick.
Record t := { element : Z; multiplier : Z; is_captain : bool }.
End Pick.

Module EntryHistory.
Record t := { points_on_bench : Z; event_transfers : Z }.
End EntryHistory.

Module Picks.
Record t := { picks : list Pick.t; entry_history : EntryHistory.t }.
End Picks.

(** One entry of a player's [history] list. *)
Module Fixture.
Record t := { round : Z; total_points : Z; goals_scored : Z; assists : Z;
              expected_goals : string; expected_assists : string }.
End Fixture.

(** The read-only API: every [requests.get(...).json()] of the script. *)
Record Api : Type := {
  bootstrap_elements : list Element.t;
  league_standings : list Standing.t;
  manager_history : Z -> list History.t;
  manager_picks : Z -> Z -> Picks.t;
  element_summary : Z -> list Fixture.t
}.

(** ** [update_player_collection] *)

Inductive Position : Type := goalkeeper | defender | midfielder | forward.

Record Player : Type := {
  p_first_name : string; p_second_name : string; position : Position
}.

Definition el_type_conversion (t : Z) : result Position :=
  if t =? 1 then Ok goalkeeper
  else if t =? 2 then Ok defender
  else if t =? 3 then Ok midfielder
  else if t =? 4 then Ok forward
  else Raise KeyError.

Definition update_player_collection (api : Api) : result (dict Z Player) :=
  for_each
    (fun player_collection el =>
       pos <- el_type_conversion (Element.element_type el) ;;
       Ok (dict_set Z.eqb (Element.id el)
             {| p_first_name := Element.first_name el;
                p_second_name := Element.second_name el;
                position := pos |} player_collection))
    (bootstrap_elements api) [].

(** ** [fetch_manager_information] *)

Record Manager : Type := { name : string; team : string }.

Definition fetch_manager_information (api : Api) : dict Z Manager :=
  fold_left
    (fun tango_managers manager =>
       dict_set Z.eqb (Standing.entry manager)
         {| name := Standing.player_name manager;
            team := Standing.entry_name manager |} tango_managers)
    (league_standings api) [].

(** [for manager_id in tango_managers: ...; scores[key] = report].  [L] holds
    the function's local variables that an iteration can read before it
    assigns them, so that they carry over from the previous manager. *)
Definition manager_loop {L R} (key : Manager -> string)
    (body : L -> Z -> result (L * R)) (tango_managers : dict Z Manager)
    (locals : L) : result (L * dict string R) :=
  for_each
    (fun '(locals, scores) '(manager_id, manager) =>
       '(locals', report) <- body locals manager_id ;;
       Ok (locals', dict_set String.eqb (key manager) report scores))
    tango_managers (locals, []).

(** [xs[i]]: negative indices count from the end, anything outside the list
    raises [IndexError]. *)
Definition py_index {A} (xs : list A) (i : Z) : result A :=
  let j := if i <? 0 then i + Z.of_nat (List.length xs) else i in
  if j <? 0 then Raise IndexError
  else match nth_error xs (Z.to_nat j) with
       | Some x => Ok x
       | None => Raise IndexError
       end.

(** ** [fetch_coach_of_the_month_and_team_value] *)

Module Coach.
Record t {F : PyFloat} := {
  points : Z; end_team_value : float; team_value_delta : float
}.

(** [start_value] and [end_value] are assigned inside the history loop only;
    nothing resets them between managers. *)
Record locals {F : PyFloat} := {
  start_value : option float; end_value : option float
}.
End Coach.

Section CoachOfTheMonth.
Context {F : PyFloat}.
Variable api : Api.
Variables start_gw end_gw : Z.

Definition value_over_10 (v : Z) : result float :=
  match truediv_10 v with
  | Some x => Ok x
  | None => Raise OverflowError
  end.

(** Body of [for gameweek in res['current']]. *)
Definition coach_gameweek (st : Z * Coach.locals) (gameweek : History.t)
  : result (Z * Coach.locals) :=
  let '(total_points, loc) := st in
  if in_range (History.event gameweek) start_gw (end_gw + 1) then
    let total_points := total_points + History.points gameweek in
    loc <- (if History.event gameweek =? start_gw then
              x <- value_over_10 (History.value gameweek) ;;
              Ok {| Coach.start_value := Some x;
                    Coach.end_value := Coach.end_value loc |}
            else Ok loc) ;;
    loc <- (if History.event gameweek =? end_gw then
              x <- value_over_10 (History.value gameweek) ;;
              Ok {| Coach.start_value := Coach.start_value loc;
                    Coach.end_value := Some x |}
            else Ok loc) ;;
    Ok (total_points, loc)
  else Ok st.

(** Body of [for manager_id in tango_managers]. *)
Definition coach_manager (loc : Coach.locals) (manager_id : Z)
  : result (Coach.locals * Coach.t) :=
  let res := manager_history api manager_id in
  '(total_points, loc) <- for_each coach_gameweek res (0, loc) ;;
  end_value <- read_local "end_value" (Coach.end_value loc) ;;
  start_value <- read_local "start_value" (Coach.start_value loc) ;;
  Ok (loc, {| Coach.points := total_points;
              Coach.end_team_value := end_value;
              Coach.team_value_delta := float_sub end_value start_value |}).

Definition fetch_coach_of_the_month_and_team_value
  : result (dict string Coach.t) :=
  let tango_managers := fetch_manager_information api in
  '(_, scores) <- manager_loop name coach_manager tango_managers
                    {| Coach.start_value := None; Coach.end_value := None |} ;;
  Ok scores.
End CoachOfTheMonth.

(** ** [fetch_captain_bench_transfer] *)

Module Captain.
Record t := {
  points_on_bench_month : Z;
  points_on_bench_total : Z;
  number_of_transfers_month : Z;
  number_of_transfers_total : Z;
  captain_points_month : Z;
  captain_points_total : Z
}.

Definition init : t := Build_t 0 0 0 0 0 0.
End Captain.

Section CaptainBenchTransfer.
Variable api : Api.
Variables start_gw_month end_gw_month end_gw_total : Z.

(** [for pick in picks: if pick['is_captain']: captain = pick['element']],
    starting from whatever [captain] held before. *)
Definition find_captain (picks : list Pick.t) (captain : option Z)
  : option Z :=
  fold_left
    (fun captain pick =>
       if Pick.is_captain pick then Some (Pick.element pick) else captain)
    picks captain.

(** Body of [for captain_fixture in captain_history]. *)
Definition captain_fixture_step (sc : Captain.t) (captain_fixture : Fixture.t)
  : Captain.t :=
  let tp := Fixture.total_points captain_fixture in
  let total := Captain.captain_points_total sc + tp in
  let month :=
    if in_range (Fixture.round captain_fixture)
         start_gw_month (end_gw_month + 1)
    then Captain.captain_points_month sc + tp
    else Captain.captain_points_month sc in
  {| Captain.points_on_bench_month := Captain.points_on_bench_month sc;
     Captain.points_on_bench_total := Captain.points_on_bench_total sc;
     Captain.number_of_transfers_month := Captain.number_of_transfers_month sc;
     Captain.number_of_transfers_total := Captain.number_of_transfers_total sc;
     Captain.captain_points_month := month;
     Captain.captain_points_total := total |}.

(** The bench and transfer updates after the captain loop. *)
Definition entry_step (gw : Z) (sc : Captain.t) (entry : EntryHistory.t)
  : Captain.t :=
  let bench := EntryHistory.points_on_bench entry in
  let transfers := EntryHistory.event_transfers entry in
  let in_month := in_range gw start_gw_month (end_gw_month + 1) in
  {| Captain.points_on_bench_month :=
       if in_month then Captain.points_on_bench_month sc + bench
       else Captain.points_on_bench_month sc;
     Captain.points_on_bench_total := Captain.points_on_bench_total sc + bench;
     Captain.number_of_transfers_month :=
       if in_month then Captain.number_of_transfers_month sc + transfers
       else Captain.number_of_transfers_month sc;
     Captain.number_of_transfers_total :=
       Captain.number_of_transfers_total sc + transfers;
     Captain.captain_points_month := Captain.captain_points_month sc;
     Captain.captain_points_total := Captain.captain_points_total sc |}.

(** Body of [for gw in range(1, end_gw_total+1)]. *)
Definition captain_gameweek (manager_id : Z) (st : option Z * Captain.t)
    (gw : Z) : result (option Z * Captain.t) :=
  let '(captain, sc) := st in
  let res := manager_picks api manager_id gw in
  let picks := Picks.picks res in
  let captain := find_captain picks captain in
  c <- read_local "captain" captain ;;
  let captain_history := element_summary api c in
  let sc := fold_left captain_fixture_step captain_history sc in
  let entry := Picks.entry_history res in
  Ok (captain, entry_step gw sc entry).

(** Body of [for manager_id in tango_managers]; [captain] is the value the
    variable holds on entry. *)
Definition captain_manager (captain : option Z) (manager_id : Z)
  : result (option Z * Captain.t) :=
  for_each (captain_gameweek manager_id)
    (py_range 1 (end_gw_total + 1)) (captain, Captain.init).

Definition fetch_captain_bench_transfer : result (dict string Captain.t) :=
  let tango_managers := fetch_manager_information api in
  '(_, scores) <- manager_loop team captain_manager tango_managers None ;;
  Ok scores.
End CaptainBenchTransfer.

(** ** [position_bench_goals_assists_xg_xa] *)

(** A [{'total': _, 'month': _}] pair. *)
Record Acc (A : Type) : Type := { total : A; month : A }.

Definition on_total {A} (f : A -> A) (a : Acc A) : Acc A :=
  {| total := f (total a); month := month a |}.

Definition on_month {A} (f : A -> A) (a : Acc A) : Acc A :=
  {| total := total a; month := f (month a) |}.

Module Positional.
Record t {F : PyFloat} := {
  goalkeeper : Acc Z;
  defender : Acc Z;
  midfielder : Acc Z;
  forward : Acc Z;
  bench : Acc Z;
  goals : Acc Z;
  assists : Acc Z;
  expected_goals : Acc float;
  expected_assists : Acc float
}.

Arguments Build_t {F} _ _ _ _ _ _ _ _ _.

Definition init {F : PyFloat} : t :=
  let z := {| total := 0; month := 0 |} in
  let f := {| total := float_zero; month := float_zero |} in
  Build_t z z z z z z z f f.
End Positional.

Section PositionalAccess.
Context {F : PyFloat}.

(** [scores[team][position]] *)
Definition at_position (p : Position) (sc : Positional.t) : Acc Z :=
  match p with
  | goalkeeper => Positional.goalkeeper sc
  | defender => Positional.defender sc
  | midfielder => Positional.midfielder sc
  | forward => Positional.forward sc
  end.

Definition upd_position (p : Position) (f : Acc Z -> Acc Z)
    (sc : Positional.t) : Positional.t :=
  let '(Positional.Build_t gk df md fw b g a xg xa) := sc in
  match p with
  | goalkeeper => Positional.Build_t (f gk) df md fw b g a xg xa
  | defender => Positional.Build_t gk (f df) md fw b g a xg xa
  | midfielder => Positional.Build_t gk df (f md) fw b g a xg xa
  | forward => Positional.Build_t gk df md (f fw) b g a xg xa
  end.

Definition upd_bench (f : Acc Z -> Acc Z) (sc : Positional.t)
  : Positional.t :=
  let '(Positional.Build_t gk df md fw b g a xg xa) := sc in
  Positional.Build_t gk df md fw (f b) g a xg xa.

Definition upd_goals (f : Acc Z -> Acc Z) (sc : Positional.t)
  : Positional.t :=
  let '(Positional.Build_t gk df md fw b g a xg xa) := sc in
  Positional.Build_t gk df md fw b (f g) a xg xa.

Definition upd_assists (f : Acc Z -> Acc Z) (sc : Positional.t)
  : Positional.t :=
  let '(Positional.Build_t gk df md fw b g a xg xa) := sc in
  Positional.Build_t gk df md fw b g (f a) xg xa.

Definition upd_expected_goals (f : Acc float -> Acc float)
    (sc : Positional.t) : Positional.t :=
  let '(Positional.Build_t gk df md fw b g a xg xa) := sc in
  Positional.Build_t gk df md fw b g a (f xg) xa.

Definition upd_expected_assists (f : Acc float -> Acc float)
    (sc : Positional.t) : Positional.t :=
  let '(Positional.Build_t gk df md fw b g a xg xa) := sc in
  Positional.Build_t gk df md fw b g a xg (f xa).

(** [float(s)] *)
Definition py_float (s : string) : result float :=
  match float_of_str s with
  | Some x => Ok x
  | None => Raise ValueError
  end.
End PositionalAccess.

Section PositionBenchGoals.
Context {F : PyFloat}.
Variable api : Api.
Variables start_gw_month end_gw_month end_gw_total : Z.
Variables captain_points_included bench_included : bool.

(** [if multiplier == 2: multiplier = 1 if not captain_points_included
    else multiplier] *)
Definition captain_multiplier (multiplier : Z) : Z :=
  if multiplier =? 2
  then (if negb captain_points_included then 1 else multiplier)
  else multiplier.

(** The four stat updates guarded by [if not multiplier == 0], on the
    [total] or on the [month] side. *)
Definition add_stats (side : forall A, (A -> A) -> Acc A -> Acc A)
    (player_history_gw : Fixture.t) (sc : Positional.t)
  : result Positional.t :=
  let sc := upd_goals
              (side Z (fun x => x + Fixture.goals_scored player_history_gw))
              sc in
  let sc := upd_assists
              (side Z (fun x => x + Fixture.assists player_history_gw)) sc in
  xg <- py_float (Fixture.expected_goals player_history_gw) ;;
  let sc := upd_expected_goals (side float (fun x => float_add x xg)) sc in
  xa <- py_float (Fixture.expected_assists player_history_gw) ;;
  Ok (upd_expected_assists (side float (fun x => float_add x xa)) sc).

(** The [if multiplier == 0] block: bench accumulators and the multiplier
    used afterwards. *)
Definition bench_step (gw : Z) (player_history_gw : Fixture.t)
    (multiplier : Z) (sc : Positional.t) : Positional.t * Z :=
  if multiplier =? 0 then
    let tp := Fixture.total_points player_history_gw in
    let sc := upd_bench (on_total (fun x => x + tp)) sc in
    let sc := if in_range gw start_gw_month (end_gw_month + 1)
              then upd_bench (on_month (fun x => x + tp)) sc else sc in
    (sc, if bench_included then 1 else multiplier)
  else (sc, multiplier).

(** Body of [for pick in picks]. *)
Definition process_pick (player_collection : dict Z Player) (gw : Z)
    (sc : Positional.t) (pick : Pick.t) : result Positional.t :=
  player <- dict_item Z.eqb (Pick.element pick) player_collection ;;
  let position := position player in
  let multiplier := captain_multiplier (Pick.multiplier pick) in
  let player_history := element_summary api (Pick.element pick) in
  player_history_gw <- py_index player_history (gw - 1) ;;
  let '(sc, multiplier) := bench_step gw player_history_gw multiplier sc in
  let tp := Fixture.total_points player_history_gw in
  let sc := upd_position position
              (on_total (fun x => x + tp * multiplier)) sc in
  sc <- (if negb (multiplier =? 0)
         then add_stats (@on_total) player_history_gw sc else Ok sc) ;;
  if in_range gw start_gw_month (end_gw_month + 1) then
    let sc := upd_position position
                (on_month (fun x => x + tp * multiplier)) sc in
    if negb (multiplier =? 0)
    then add_stats (@on_month) player_history_gw sc else Ok sc
  else Ok sc.

(** Body of [for gw in range(1, end_gw_total+1)]. *)
Definition position_gameweek (player_collection : dict Z Player)
    (manager_id : Z) (sc : Positional.t) (gw : Z) : result Positional.t :=
  let res := manager_picks api manager_id gw in
  for_each (process_pick player_collection gw) (Picks.picks res) sc.

(** The four [round(..., 2)] assignments that close a manager's iteration. *)
Definition round_expected (sc : Positional.t) : Positional.t :=
  let round_acc (a : Acc float) :=
    {| total := round_2 (total a); month := round_2 (month a) |} in
  upd_expected_assists round_acc (upd_expected_goals round_acc sc).

(** The gameweek loop of one manager, before the final rounding. *)
Definition position_gameweeks (player_collection : dict Z Player)
    (manager_id : Z) : result Positional.t :=
  for_each (position_gameweek player_collection manager_id)
    (py_range 1 (end_gw_total + 1)) Positional.init.

(** Body of [for manager_id in tango_managers]. *)
Definition position_manager (player_collection : dict Z Player)
    (_ : unit) (manager_id : Z) : result (unit * Positional.t) :=
  sc <- position_gameweeks player_collection manager_id ;;
  Ok (tt, round_expected sc).

Definition position_bench_goals_assists_xg_xa
  : result (dict string Positional.t) :=
  let tango_managers := fetch_manager_information api in
  player_collection <- update_player_collection api ;;
  '(_, scores) <- manager_loop team (position_manager player_collection)
                    tango_managers tt ;;
  Ok scores.
End PositionBenchGoals.

(** ** [least_and_most_points] *)

Module MinMax.
(** [None] is Python's [None]. *)
Record t := {
  min_points_total : option Z;
  max_points_total : option Z;
  min_points_month : option Z;
  max_points_month : option Z
}.

Definition init : t := Build_t None None None None.
End MinMax.

(** [x < y] and [x > y] where [y] may still be [None]. *)
Definition py_lt (x : Z) (y : option Z) : result bool :=
  match y with
  | Some y => Ok (x <? y)
  | None => Raise TypeError
  end.

Definition py_gt (x : Z) (y : option Z) : result bool :=
  match y with
  | Some y => Ok (x >? y)
  | None => Raise TypeError
  end.

Section LeastAndMost.
Variable api : Api.
Variables start_gw_month end_gw_month : Z.

(** Body of [for gw in manager_history['current']]. *)
Definition least_most_gameweek (ms : MinMax.t) (gw : History.t)
  : result MinMax.t :=
  let tp := History.total_points gw in
  let ms := if History.event gw =? 1
            then {| MinMax.min_points_total := Some tp;
                    MinMax.max_points_total := Some tp;
                    MinMax.min_points_month := MinMax.min_points_month ms;
                    MinMax.max_points_month := MinMax.max_points_month ms |}
            else ms in
  let ms := if History.event gw =? start_gw_month
            then {| MinMax.min_points_total := MinMax.min_points_total ms;
                    MinMax.max_points_total := MinMax.max_points_total ms;
                    MinMax.min_points_month := Some tp;
                    MinMax.max_points_month := Some tp |}
            else ms in
  if History.event gw >? 1 then
    lt <- py_lt tp (MinMax.min_points_total ms) ;;
    let ms := if lt
              then {| MinMax.min_points_total := Some tp;
                      MinMax.max_points_total := MinMax.max_points_total ms;
                      MinMax.min_points_month := MinMax.min_points_month ms;
                      MinMax.max_points_month := MinMax.max_points_month ms |}
              else ms in
    gt <- py_gt tp (MinMax.max_points_total ms) ;;
    let ms := if gt
              then {| MinMax.min_points_total := MinMax.min_points_total ms;
                      MinMax.max_points_total := Some tp;
                      MinMax.min_points_month := MinMax.min_points_month ms;
                      MinMax.max_points_month := MinMax.max_points_month ms |}
              else ms in
    if in_range (History.event gw) start_gw_month (end_gw_month + 1) then
      lt <- py_lt tp (MinMax.min_points_month ms) ;;
      let ms := if lt
                then {| MinMax.min_points_total := MinMax.min_points_total ms;
                        MinMax.max_points_total := MinMax.max_points_total ms;
                        MinMax.min_points_month := Some tp;
                        MinMax.max_points_month := MinMax.max_points_month ms |}
                else ms in
      gt <- py_gt tp (MinMax.max_points_month ms) ;;
      Ok (if gt
          then {| MinMax.min_points_total := MinMax.min_points_total ms;
                  MinMax.max_points_total := MinMax.max_points_total ms;
                  MinMax.min_points_month := MinMax.min_points_month ms;
                  MinMax.max_points_month := Some tp |}
          else ms)
    else Ok ms
  else Ok ms.

(** The history loop of one manager. *)
Definition least_most_history (history : list History.t)
  : result MinMax.t :=
  for_each least_most_gameweek history MinMax.init.

(** Body of [for manager_id in tango_managers]. *)
Definition least_most_manager (_ : unit) (manager_id : Z)
  : result (unit * MinMax.t) :=
  let manager_history := manager_history api manager_id in
  manager_scores <- least_most_history manager_history ;;
  Ok (tt, manager_scores).

Definition least_and_most_points : result (dict string MinMax.t) :=
  let tango_managers := fetch_manager_information api in
  '(_, scores) <- manager_loop team least_most_manager tango_managers tt ;;
  Ok scores.
End LeastAndMost.

(** ** The script's entry point

    [__main__] builds the player collection and the roster once (dropping
    both), then calls the four reports with the gameweek window fixed to 1
    and writes each result to [<key>.json].  Nothing catches an exception:
    the first one ends the run, with the files written so far left behind.
    A run is modelled by the documents it wrote, in order, and the exception
    that ended it, if any. *)

Inductive Report {F : PyFloat} : Type :=
| CoachReport (scores : dict string Coach.t)
| CaptainReport (scores : dict string Captain.t)
| PositionalReport (scores : dict string Positional.t)
| MinMaxReport (scores : dict string MinMax.t).

Section Main.
Context {F : PyFloat}.
Variable api : Api.

Definition gw_start_of_month : Z := 1.
Definition gw_end_of_month : Z := 1.
Definition gw_end_total : Z := 1.

(** The [functions] dictionary, each entry with its call already formed. *)
Definition functions : list (string * result Report) :=
  [ ("coach_of_the_month_and_team_value",
     stats <- fetch_coach_of_the_month_and_team_value api
                gw_start_of_month gw_end_of_month ;;
     Ok (CoachReport stats));
    ("captain_points_bench_points_num_of_transfers",
     stats <- fetch_captain_bench_transfer api
                gw_start_of_month gw_end_of_month gw_end_total ;;
     Ok (CaptainReport stats));
    ("position_points_bench_points_goals_assists_xg_xa",
     stats <- position_bench_goals_assists_xg_xa api
                gw_start_of_month gw_end_of_month gw_end_total true false ;;
     Ok (PositionalReport stats));
    ("least_and_most_points",
     stats <- least_and_most_points api gw_start_of_month gw_end_of_month ;;
     Ok (MinMaxReport stats)) ].

(** [for func_key in functions:] call the function with its arguments, then
    [json.dump(stats, f)]. *)
Fixpoint run_functions (fs : list (string * result Report))
    (written : list (string * Report))
  : list (string * Report) * option PyExn :=
  match fs with
  | [] => (written, None)
  | (func_key, call) :: fs' =>
      match call with
      | Ok stats =>
          run_functions fs'
            (written ++ [((func_key ++ ".json")%string, stats)])%list
      | Raise e => (written, Some e)
      end
  end.

Definition main : list (string * Report) * option PyExn :=
  match update_player_collection api with
  | Raise e => ([], Some e)
  | Ok _ =>
      let _ := fetch_manager_information api in
      run_functions functions []
  end.
End Main.

(** ** An executable instance of the float interface

    Exact decimal arithmetic in hundredths: enough to run the reports on
    sample data whose values have at most two decimals. *)

Definition digit_of (c : ascii) : option Z :=
  let n := nat_of_ascii c in
  if ((48 <=? n) && (n <=? 57))%nat then Some (Z.of_nat (n - 48)) else None.

Definition centi_frac (s : string) : option Z :=
  match s with
  | EmptyString => Some 0
  | String a EmptyString =>
      match digit_of a with Some x => Some (10 * x) | None => None end
  | String a (String b EmptyString) =>
      match digit_of a, digit_of b with
      | Some x, Some y => Some (10 * x + y)
      | _, _ => None
      end
  | _ => None
  end.

Fixpoint centi_int (s : string) (acc : Z) : option Z :=
  match s with
  | EmptyString => Some (100 * acc)
  | String c s' =>
      if Ascii.eqb c "."%char then
        match centi_frac s' with
        | Some f => Some (100 * acc + f)
        | None => None
        end
      else
        match digit_of c with
        | Some d => centi_int s' (10 * acc + d)
        | None => None
        end
  end.

Definition centi_of_str (s : string) : option Z :=
  match s with
  | EmptyString => None
  | _ => centi_int s 0
  end.

Definition Centi : PyFloat :=
  {| float := Z;
     float_zero := 0;
     float_add := Z.add;
     float_sub := Z.sub;
     truediv_10 := fun v => Some (10 * v);
     float_of_str := centi_of_str;
     round_2 := fun x => x |}.

(** * Vocabulary of the properties *)

Unset Implicit Arguments.

Definition sum_Z (xs : list Z) : Z := fold_right Z.add 0 xs.

(** [lo <= x <= hi], the inclusive gameweek window. *)
Definition in_window (lo hi x : Z) : bool := (lo <=? x) && (x <=? hi).

(** [mapM] in the error monad. *)
Fixpoint traverse {A B} (f : A -> result B) (xs : list A) : result (list B) :=
  match xs with
  | [] => Ok []
  | x :: xs' => y <- f x ;; ys <- traverse f xs' ;; Ok (y :: ys)
  end.

(** *** Season/month report *)

Definition window_points (start_gw end_gw : Z) (history : list History.t)
  : Z :=
  sum_Z (map History.points
           (filter (fun h => in_window start_gw end_gw (History.event h))
              history)).

(** *** Captain report *)

(** The picks flagged [is_captain], in list order. *)
Definition flagged (picks : list Pick.t) : list Pick.t :=
  filter Pick.is_captain picks.

(** The gameweek's own captain: the element of the last flagged pick. *)
Definition captain_of (picks : list Pick.t) : option Z :=
  match rev (flagged picks) with
  | [] => None
  | p :: _ => Some (Pick.element p)
  end.

(** Sum of [total_points] over a fixture history. *)
Definition fixture_points (history : list Fixture.t) : Z :=
  sum_Z (map Fixture.total_points history).

(** A total/month pair is the sum of tagged contributions, the month side
    keeping the contributions whose tag lies in the window. *)
Definition window_sums {A} (lo hi : Z) (tag amount : A -> Z)
    (contributions : list A) (acc_total acc_month : Z) : Prop :=
  acc_total = sum_Z (map amount contributions) /\
  acc_month
  = sum_Z (map amount
             (filter (fun c => in_window lo hi (tag c)) contributions)).

(** The same for a float accumulator: additions from [0.0] in iteration
    order, then the closing [round(_, 2)]. *)
Definition float_sum {F : PyFloat} (xs : list float) : float :=
  fold_left float_add xs float_zero.

Definition window_float_sums {F : PyFloat} {A} (lo hi : Z) (tag : A -> Z)
    (amount : A -> float) (contributions : list A) (acc : Acc float) : Prop :=
  total acc = round_2 (float_sum (map amount contributions)) /\
  month acc
  = round_2 (float_sum
               (map amount
                  (filter (fun c => in_window lo hi (tag c)) contributions))).

(** *** Positional report *)

Definition position_eqb (p q : Position) : bool :=
  match p, q with
  | goalkeeper, goalkeeper | defender, defender
  | midfielder, midfielder | forward, forward => true
  | _, _ => false
  end.

(** What one pick of one gameweek resolves to: its position, its fixture
    record at index [gw-1] and, when it counts towards the statistics, the
    parsed expected goals and assists. *)
Record Row {F : PyFloat} : Type := {
  row_gw : Z;
  row_pick : Pick.t;
  row_position : Position;
  row_fixture : Fixture.t;
  row_xg : float;
  row_xa : float
}.

Section Rows.
Context {F : PyFloat}.
Variable api : Api.
Variables start_gw_month end_gw_month : Z.
Variables captain_points_included bench_included : bool.
Variable player_collection : dict Z Player.

(** The multiplier after the captain rule. *)
Definition effective_multiplier (pick : Pick.t) : Z :=
  captain_multiplier captain_points_included (Pick.multiplier pick).

(** The multiplier after the bench rule as well. *)
Definition final_multiplier (pick : Pick.t) : Z :=
  let m := effective_multiplier pick in
  if m =? 0 then (if bench_included then 1 else 0) else m.

Definition benched (row : Row) : bool :=
  effective_multiplier (row_pick row) =? 0.

Definition counted (row : Row) : bool :=
  negb (final_multiplier (row_pick row) =? 0).

Definition row_total_points (row : Row) : Z :=
  Fixture.total_points (row_fixture row).

Definition row_points (row : Row) : Z :=
  row_total_points row * final_multiplier (row_pick row).

Definition row_goals (row : Row) : Z :=
  Fixture.goals_scored (row_fixture row).

Definition row_assists (row : Row) : Z :=
  Fixture.assists (row_fixture row).

Definition at_row_position (p : Position) (row : Row) : bool :=
  position_eqb (row_position row) p.

(** The lookups of [process_pick], in the order the loop body makes them. *)
Definition resolve_pick (gw : Z) (pick : Pick.t) : result Row :=
  player <- dict_item Z.eqb (Pick.element pick) player_collection ;;
  fixture <- py_index (element_summary api (Pick.element pick)) (gw - 1) ;;
  if final_multiplier pick =? 0 then
    Ok {| row_gw := gw; row_pick := pick; row_position := position player;
          row_fixture := fixture;
          row_xg := float_zero; row_xa := float_zero |}
  else
    xg <- py_float (Fixture.expected_goals fixture) ;;
    xa <- py_float (Fixture.expected_assists fixture) ;;
    Ok {| row_gw := gw; row_pick := pick; row_position := position player;
          row_fixture := fixture; row_xg := xg; row_xa := xa |}.

Definition gameweek_rows (manager_id gw : Z) : result (list Row) :=
  traverse (resolve_pick gw) (Picks.picks (manager_picks api manager_id gw)).

(** Every pick of every gameweek in [gws], in iteration order. *)
Definition manager_rows (manager_id : Z) (gws : list Z)
  : result (list Row) :=
  rowss <- traverse (gameweek_rows manager_id) gws ;;
  Ok (List.concat rowss).

(** The accumulator updates one resolved pick causes. *)
Definition add_in_window (gw x : Z) (a : Acc Z) : Acc Z :=
  {| total := total a + x;
     month := if in_window start_gw_month end_gw_month gw
              then month a + x else month a |}.

Definition float_add_in_window (gw : Z) (x : float) (a : Acc float)
  : Acc float :=
  {| total := float_add (total a) x;
     month := if in_window start_gw_month end_gw_month gw
              then float_add (month a) x else month a |}.

Definition apply_row (sc : Positional.t) (row : Row) : Positional.t :=
  let gw := row_gw row in
  let sc := if benched row
            then upd_bench (add_in_window gw (row_total_points row)) sc
            else sc in
  let sc := upd_position (row_position row)
              (add_in_window gw (row_points row)) sc in
  if counted row then
    upd_expected_assists (float_add_in_window gw (row_xa row))
      (upd_expected_goals (float_add_in_window gw (row_xg row))
         (upd_assists (add_in_window gw (row_assists row))
            (upd_goals (add_in_window gw (row_goals row)) sc)))
  else sc.

(** An accumulator after the contributions [amount] of [rows]. *)
Definition acc_plus (amount : Row -> Z) (rows : list Row) (a : Acc Z)
  : Acc Z :=
  {| total := total a + sum_Z (map amount rows);
     month :=
       month a
       + sum_Z (map amount
                  (filter (fun r => in_window start_gw_month end_gw_month
                                      (row_gw r)) rows)) |}.

Definition float_acc_plus (amount : Row -> float) (rows : list Row)
    (a : Acc float) : Acc float :=
  {| total := fold_left float_add (map amount rows) (total a);
     month :=
       fold_left float_add
         (map amount
            (filter (fun r => in_window start_gw_month end_gw_month
                                (row_gw r)) rows))
         (month a) |}.

(** Sum of the four positional [total] accumulators plus [bench.total]. *)
Definition positional_plus_bench (sc : Positional.t) : Z :=
  total (Positional.goalkeeper sc) + total (Positional.defender sc)
  + total (Positional.midfielder sc) + total (Positional.forward sc)
  + total (Positional.bench sc).
End Rows.

(** *** Min/max report *)

(** History entries in strictly increasing event order, as upstream lists
    them. *)
Definition increasing_events (history : list History.t) : Prop :=
  StronglySorted Z.lt (map History.event history).

Definition has_event (ev : Z) (history : list History.t) : Prop :=
  exists h, In h history /\ History.event h = ev.

(** The bounds as section 4.6 words them: initialise from the entry with
    event 1 and from the entry with event [start_gw_month], then fold min and
    max over the entries with event > 1, the month bounds only over those in
    the window. *)
Definition min_max_two_phase (start_gw_month end_gw_month : Z)
    (history : list History.t) : option MinMax.t :=
  match find (fun h => History.event h =? 1) history,
        find (fun h => History.event h =? start_gw_month) history with
  | Some first, Some month_first =>
      let later := filter (fun h => History.event h >? 1) history in
      let later_month :=
        filter (fun h => in_window start_gw_month end_gw_month
                           (History.event h)) later in
      let tps := map History.total_points in
      Some {| MinMax.min_points_total :=
                Some (fold_left Z.min (tps later) (History.total_points first));
              MinMax.max_points_total :=
                Some (fold_left Z.max (tps later) (History.total_points first));
              MinMax.min_points_month :=
                Some (fold_left Z.min (tps later_month)
                        (History.total_points month_first));
              MinMax.max_points_month :=
                Some (fold_left Z.max (tps later_month)
                        (History.total_points month_first)) |}
  | _, _ => None
  end.

(** Section 4.6 as worded: whenever the history has an entry with event 1
    and one with event [start_gw_month], the loop yields the two-phase
    bounds. *)
Definition min_max_as_claimed (start_gw_month end_gw_month : Z)
    (history : list History.t) : Prop :=
  has_event 1 history ->
  has_event start_gw_month history ->
  exists ms,
    min_max_two_phase start_gw_month end_gw_month history = Some ms /\
    least_most_history start_gw_month end_gw_month history = Ok ms.

(** The bounds after a prefix of the history, initialised or not. *)
Definition bounds_after (start_gw_month end_gw_month : Z)
    (seen : list History.t) : MinMax.t :=
  let later := filter (fun h => History.event h >? 1) seen in
  let later_month :=
    filter (fun h => in_window start_gw_month end_gw_month (History.event h))
      later in
  let tps := map History.total_points in
  let first := find (fun h => History.event h =? 1) seen in
  let month_first :=
    find (fun h => History.event h =? start_gw_month) seen in
  {| MinMax.min_points_total :=
       option_map (fun h => fold_left Z.min (tps later)
                              (History.total_points h)) first;
     MinMax.max_points_total :=
       option_map (fun h => fold_left Z.max (tps later)
                              (History.total_points h)) first;
     MinMax.min_points_month :=
       option_map (fun h => fold_left Z.min (tps later_month)
                              (History.total_points h)) month_first;
     MinMax.max_points_month :=
       option_map (fun h => fold_left Z.max (tps later_month)
                              (History.total_points h)) month_first |}.

(** *** Captain report: what a run adds to the accumulators *)

Section CaptainVocabulary.
Variable api : Api.
Variables start_gw_month end_gw_month : Z.

(** The fixtures summed for a run over [gws] whose captains are [cap]. *)
Definition captain_fixtures (cap : Z -> Z) (gws : list Z) : list Fixture.t :=
  flat_map (fun gw => element_summary api (cap gw)) gws.

Definition month_fixture_points (history : list Fixture.t) : Z :=
  fixture_points
    (filter (fun f => in_window start_gw_month end_gw_month (Fixture.round f))
       history).

Definition entries (manager_id : Z) (gws : list Z)
  : list (Z * EntryHistory.t) :=
  map (fun gw => (gw, Picks.entry_history (manager_picks api manager_id gw)))
    gws.

Definition bench_of (e : Z * EntryHistory.t) : Z :=
  EntryHistory.points_on_bench (snd e).

Definition transfers_of (e : Z * EntryHistory.t) : Z :=
  EntryHistory.event_transfers (snd e).

Definition month_entries (es : list (Z * EntryHistory.t))
  : list (Z * EntryHistory.t) :=
  filter (fun e => in_window start_gw_month end_gw_month (fst e)) es.

(** What a run over [gws] adds to the accumulators [sc]. *)
Definition captain_after (manager_id : Z) (cap : Z -> Z) (gws : list Z)
    (sc : Captain.t) : Captain.t :=
  let es := entries manager_id gws in
  let fs := captain_fixtures cap gws in
  {| Captain.points_on_bench_month :=
       Captain.points_on_bench_month sc
       + sum_Z (map bench_of (month_entries es));
     Captain.points_on_bench_total :=
       Captain.points_on_bench_total sc + sum_Z (map bench_of es);
     Captain.number_of_transfers_month :=
       Captain.number_of_transfers_month sc
       + sum_Z (map transfers_of (month_entries es));
     Captain.number_of_transfers_total :=
       Captain.number_of_transfers_total sc + sum_Z (map transfers_of es);
     Captain.captain_points_month :=
       Captain.captain_points_month sc + month_fixture_points fs;
     Captain.captain_points_total :=
       Captain.captain_points_total sc + fixture_points fs |}.
End CaptainVocabulary.

(** *** The captain a gameweek is computed with *)

Section HeldCaptains.
Variable api : Api.

(** The value of the variable [captain] after the pick loops of the
    gameweeks [gws] of one manager, entered with [captain]. *)
Definition held_after_gameweeks (manager_id : Z) (captain : option Z)
    (gws : list Z) : option Z :=
  fold_left
    (fun captain gw =>
       find_captain (Picks.picks (manager_picks api manager_id gw)) captain)
    gws captain.

(** The value of [captain] after the pick loop of each gameweek of [gws], in
    order: the one the gameweek's fixture loop is run with. *)
Fixpoint held_captains (manager_id : Z) (captain : option Z) (gws : list Z)
  : list (option Z) :=
  match gws with
  | [] => []
  | gw :: gws' =>
      let c := find_captain (Picks.picks (manager_picks api manager_id gw))
                 captain in
      c :: held_captains manager_id c gws'
  end.

(** The value of [captain] when the iteration of a manager starts, after the
    managers [earlier] in the roster: unassigned at first and never reset. *)
Definition held_on_entry (end_gw_total : Z) (earlier : list (Z * Manager))
  : option Z :=
  fold_left
    (fun captain im =>
       held_after_gameweeks (fst im) captain (py_range 1 (end_gw_total + 1)))
    earlier None.
End HeldCaptains.

(** *** Month/total pairs as window sums *)

(** The entry [r] stored under [team_name] in the captain report is a roster
    manager's, and its three month/total pairs are window sums: bench points
    and transfers over the gameweek entries, captain points over the
    fixtures of each gameweek's captain, by fixture round. *)
Definition captain_report_window_sums (api : Api)
    (start_gw_month end_gw_month end_gw_total : Z) (team_name : string)
    (r : Captain.t) : Prop :=
  exists manager_id manager,
    In (manager_id, manager) (fetch_manager_information api) /\
    team manager = team_name /\
    window_sums start_gw_month end_gw_month fst bench_of
      (entries api manager_id (py_range 1 (end_gw_total + 1)))
      (Captain.points_on_bench_total r) (Captain.points_on_bench_month r) /\
    window_sums start_gw_month end_gw_month fst transfers_of
      (entries api manager_id (py_range 1 (end_gw_total + 1)))
      (Captain.number_of_transfers_total r)
      (Captain.number_of_transfers_month r) /\
    forall cap : Z -> Z,
      (forall gw, 1 <= gw <= end_gw_total ->
         captain_of (Picks.picks (manager_picks api manager_id gw))
         = Some (cap gw)) ->
      window_sums start_gw_month end_gw_month
        Fixture.round Fixture.total_points
        (captain_fixtures api cap (py_range 1 (end_gw_total + 1)))
        (Captain.captain_points_total r) (Captain.captain_points_month r).

(** The same with the captain pair stated for every entry: the entry [r]
    stored under [team_name] is the last roster manager's of that team name,
    [captains] are the players the variable [captain] holds in the gameweeks
    [1..end_gw_total] -- flagged in the gameweek or carried over -- and the
    captain points are a window sum over their fixture histories, one copy
    per gameweek, by fixture round. *)
Definition captain_report_month_sums (api : Api)
    (start_gw_month end_gw_month end_gw_total : Z) (team_name : string)
    (r : Captain.t) : Prop :=
  exists earlier manager_id manager later captains,
    fetch_manager_information api
    = (earlier ++ (manager_id, manager) :: later)%list /\
    team manager = team_name /\
    Forall (fun im => team (snd im) <> team_name) later /\
    held_captains api manager_id (held_on_entry api end_gw_total earlier)
      (py_range 1 (end_gw_total + 1))
    = map Some captains /\
    window_sums start_gw_month end_gw_month fst bench_of
      (entries api manager_id (py_range 1 (end_gw_total + 1)))
      (Captain.points_on_bench_total r) (Captain.points_on_bench_month r) /\
    window_sums start_gw_month end_gw_month fst transfers_of
      (entries api manager_id (py_range 1 (end_gw_total + 1)))
      (Captain.number_of_transfers_total r)
      (Captain.number_of_transfers_month r) /\
    window_sums start_gw_month end_gw_month
      Fixture.round Fixture.total_points
      (flat_map (element_summary api) captains)
      (Captain.captain_points_total r) (Captain.captain_points_month r).

(** The entry [sc] stored under [team_name] in the positional report is a
    roster manager's, and every month/total pair in it is a window sum over
    that manager's resolved picks, by gameweek. *)
Definition positional_report_window_sums {F : PyFloat} (api : Api)
    (start_gw_month end_gw_month end_gw_total : Z)
    (captain_points_included bench_included : bool) (team_name : string)
    (sc : Positional.t) : Prop :=
  exists manager_id manager player_collection rows,
    In (manager_id, manager) (fetch_manager_information api) /\
    team manager = team_name /\
    update_player_collection api = Ok player_collection /\
    manager_rows api captain_points_included bench_included
      player_collection manager_id (py_range 1 (end_gw_total + 1))
    = Ok rows /\
    (forall p,
       window_sums start_gw_month end_gw_month row_gw
         (row_points captain_points_included bench_included)
         (filter (at_row_position p) rows)
         (total (at_position p sc)) (month (at_position p sc))) /\
    window_sums start_gw_month end_gw_month row_gw row_total_points
      (filter (benched captain_points_included) rows)
      (total (Positional.bench sc)) (month (Positional.bench sc)) /\
    window_sums start_gw_month end_gw_month row_gw row_goals
      (filter (counted captain_points_included bench_included) rows)
      (total (Positional.goals sc)) (month (Positional.goals sc)) /\
    window_sums start_gw_month end_gw_month row_gw row_assists
      (filter (counted captain_points_included bench_included) rows)
      (total (Positional.assists sc)) (month (Positional.assists sc)) /\
    window_float_sums start_gw_month end_gw_month row_gw row_xg
      (filter (counted captain_points_included bench_included) rows)
      (Positional.expected_goals sc) /\
    window_float_sums start_gw_month end_gw_month row_gw row_xa
      (filter (counted captain_points_included bench_included) rows)
      (Positional.expected_assists sc).

(** *** Bench cross-check of the positional report *)

(** A pick the manager benched: raw multiplier 0. *)
Definition raw_benched {F : PyFloat} (row : Row) : bool :=
  Pick.multiplier (row_pick row) =? 0.

Definition non_bench {F : PyFloat} (row : Row) : bool :=
  negb (raw_benched row).

(** The cross-check as section 8 words it, for an entry [sc] of the report
    computed with [bench_included = false]: positional totals plus
    [bench.total] equal the sum of points times multiplier over the non-bench
    picks. *)
Definition bench_cross_check_as_claimed {F : PyFloat} (api : Api)
    (end_gw_total : Z) (captain_points_included : bool)
    (team_name : string) (sc : Positional.t) : Prop :=
  exists manager_id manager player_collection rows,
    In (manager_id, manager) (fetch_manager_information api) /\
    team manager = team_name /\
    update_player_collection api = Ok player_collection /\
    manager_rows api captain_points_included false player_collection
      manager_id (py_range 1 (end_gw_total + 1)) = Ok rows /\
    positional_plus_bench sc
    = sum_Z (map (fun r => row_total_points r * Pick.multiplier (row_pick r))
               (filter non_bench rows)).

(** The cross-check with the non-bench picks counted by their effective
    multiplier and the points of the benched picks on top, for every manager
    of the roster against the entry [scores] holds under their team name. *)
Definition bench_cross_check_of_every_manager {F : PyFloat} (api : Api)
    (end_gw_total : Z) (captain_points_included : bool)
    (scores : dict string Positional.t) : Prop :=
  forall manager_id manager,
    In (manager_id, manager) (fetch_manager_information api) ->
    exists player_collection rows sc,
      update_player_collection api = Ok player_collection /\
      manager_rows api captain_points_included false player_collection
        manager_id (py_range 1 (end_gw_total + 1)) = Ok rows /\
      dict_get String.eqb (team manager) scores = Some sc /\
      positional_plus_bench sc
      = sum_Z (map (fun r => row_total_points r
                             * effective_multiplier captain_points_included
                                 (row_pick r))
                 (filter non_bench rows))
        + sum_Z (map row_total_points (filter raw_benched rows)).

(** *** Reports per manager *)

(** C2 as worded, for every manager of the roster: the report holds under
    the manager's name the window sum of the manager's own history. *)
Definition coach_points_as_claimed {F : PyFloat} (api : Api)
    (start_gw end_gw : Z) : Prop :=
  forall scores manager_id manager,
    fetch_coach_of_the_month_and_team_value api start_gw end_gw = Ok scores ->
    In (manager_id, manager) (fetch_manager_information api) ->
    exists r,
      dict_get String.eqb (name manager) scores = Some r /\
      Coach.points r
      = window_points start_gw end_gw (manager_history api manager_id).

(** C1 as worded, for every manager of the roster whose gameweeks
    [1..end_gw_total] each flag a captain [cap gw]: the report holds under
    their team name the sum of those captains' season totals. *)
Definition captain_total_as_claimed (api : Api)
    (start_gw_month end_gw_month end_gw_total : Z) : Prop :=
  forall scores manager_id manager (cap : Z -> Z),
    fetch_captain_bench_transfer api start_gw_month end_gw_month end_gw_total
    = Ok scores ->
    In (manager_id, manager) (fetch_manager_information api) ->
    (forall gw, 1 <= gw <= end_gw_total ->
       captain_of (Picks.picks (manager_picks api manager_id gw))
       = Some (cap gw)) ->
    exists r,
      dict_get String.eqb (team manager) scores = Some r /\
      Captain.captain_points_total r
      = sum_Z (map (fun gw => fixture_points (element_summary api (cap gw)))
                 (py_range 1 (end_gw_total + 1))).

(** *** Misaligned fixture histories *)

(** Index [gw-1] is out of range for the picked player's own history. *)
Definition misaligned (api : Api) (gw : Z) (pick : Pick.t) : Prop :=
  Z.of_nat (List.length (element_summary api (Pick.element pick))) <= gw - 1.

(** Some pick of some roster manager in gameweeks [1..end_gw_total] is
    misaligned. *)
Definition has_misaligned_pick (api : Api) (end_gw_total : Z) : Prop :=
  exists manager_id manager gw pick,
    In (manager_id, manager) (fetch_manager_information api) /\
    1 <= gw <= end_gw_total /\
    In pick (Picks.picks (manager_picks api manager_id gw)) /\
    misaligned api gw pick.

(** An error that a caller can tell apart from the generic index error. *)
Definition distinct_from_index_error {A} (r : result A) : Prop :=
  exists e, r = Raise e /\ e <> IndexError.

(** Section 7 as worded: a misaligned history is reported distinctly. *)
Definition misaligned_history_as_claimed {F : PyFloat} (api : Api)
    (start_gw_month end_gw_month end_gw_total : Z)
    (captain_points_included bench_included : bool) : Prop :=
  has_misaligned_pick api end_gw_total ->
  distinct_from_index_error
    (position_bench_goals_assists_xg_xa api start_gw_month end_gw_month
       end_gw_total captain_points_included bench_included).

(** *** Player collection and roster *)

(** The record [update_player_collection] stores for an element, when its
    type is one of the four known ones. *)
Definition player_of (el : Element.t) : option Player :=
  match el_type_conversion (Element.element_type el) with
  | Ok pos => Some {| p_first_name := Element.first_name el;
                      p_second_name := Element.second_name el;
                      position := pos |}
  | Raise _ => None
  end.

Definition known_type (el : Element.t) : Prop :=
  1 <= Element.element_type el <= 4.

(** The last element of the bootstrap list with a given id. *)
Definition last_element (id : Z) (elements : list Element.t)
  : option Element.t :=
  find (fun el => Element.id el =? id) (rev elements).

Definition manager_of (st : Standing.t) : Manager :=
  {| name := Standing.player_name st; team := Standing.entry_name st |}.

(** The last row of the standings with a given entry. *)
Definition last_standing (entry : Z) (standings : list Standing.t)
  : option Standing.t :=
  find (fun st => Standing.entry st =? entry) (rev standings).

(** The keys of a report are exactly the keys of the roster's managers,
    each once. *)
Definition keys_of_roster {R} (key : Manager -> string) (api : Api)
    (scores : dict string R) : Prop :=
  NoDup (map fst scores) /\
  forall k,
    dict_get String.eqb k scores <> None <->
    exists manager_id manager,
      In (manager_id, manager) (fetch_manager_information api) /\
      key manager = k.

(** *** Samples a report reads from a history *)

(** The last entry of a season history with a given event number. *)
Definition last_with_event (ev : Z) (history : list History.t)
  : option History.t :=
  find (fun h => History.event h =? ev) (rev history).


(** The picks of the first gameweek of the first manager of the roster. *)
Definition first_picks (api : Api) : option (list Pick.t) :=
  match fetch_manager_information api with
  | [] => None
  | (manager_id, _) :: _ => Some (Picks.picks (manager_picks api manager_id 1))
  end.

(** *** Squads without the captain's doubling *)

Definition demote (pick : Pick.t) : Pick.t :=
  if Pick.multiplier pick =? 2
  then {| Pick.element := Pick.element pick; Pick.multiplier := 1;
          Pick.is_captain := Pick.is_captain pick |}
  else pick.

(** The same upstream data with every multiplier 2 turned into 1. *)
Definition demote_captains (api : Api) : Api :=
  {| bootstrap_elements := bootstrap_elements api;
     league_standings := league_standings api;
     manager_history := manager_history api;
     manager_picks := fun manager_id gw =>
       {| Picks.picks :=
            map demote (Picks.picks (manager_picks api manager_id gw));
          Picks.entry_history :=
            Picks.entry_history (manager_picks api manager_id gw) |};
     element_summary := element_summary api |}.

(** *** Documents written by the entry point *)

Definition file_names : list string :=
  [ "coach_of_the_month_and_team_value.json";
    "captain_points_bench_points_num_of_transfers.json";
    "position_points_bench_points_goals_assists_xg_xa.json";
    "least_and_most_points.json" ].

(** * Sample data *)

Definition fixture (round total_points goals_scored assists : Z)
    (expected_goals expected_assists : string) : Fixture.t :=
  {| Fixture.round := round; Fixture.total_points := total_points;
     Fixture.goals_scored := goals_scored; Fixture.assists := assists;
     Fixture.expected_goals := expected_goals;
     Fixture.expected_assists := expected_assists |}.

Definition pick (element multiplier : Z) (is_captain : bool) : Pick.t :=
  {| Pick.element := element; Pick.multiplier := multiplier;
     Pick.is_captain := is_captain |}.

Definition squad (picks : list Pick.t) (points_on_bench event_transfers : Z)
  : Picks.t :=
  {| Picks.picks := picks;
     Picks.entry_history :=
       {| EntryHistory.points_on_bench := points_on_bench;
          EntryHistory.event_transfers := event_transfers |} |}.

Definition gameweek (event points value total_points : Z) : History.t :=
  {| History.event := event; History.points := points;
     History.value := value; History.total_points := total_points |}.

(** One manager (7, Alex of AlexFC) with three players: 1 a goalkeeper,
    2 a midfielder left on the bench, 3 a forward who is captain in every
    gameweek and whose two fixtures are worth 15 + 25 = 40 points. *)
Definition sample_api : Api :=
  {| bootstrap_elements :=
       [ {| Element.id := 1; Element.first_name := "Kim";
            Element.second_name := "Keeper"; Element.element_type := 1 |};
         {| Element.id := 2; Element.first_name := "Max";
            Element.second_name := "Mid"; Element.element_type := 3 |};
         {| Element.id := 3; Element.first_name := "Flo";
            Element.second_name := "Forward"; Element.element_type := 4 |} ];
     league_standings :=
       [ {| Standing.entry := 7; Standing.player_name := "Alex";
            Standing.entry_name := "AlexFC" |} ];
     manager_history := fun _ =>
       [ gameweek 1 10 1000 10; gameweek 2 25 1005 25; gameweek 3 5 1010 5 ];
     manager_picks := fun _ gw =>
       if gw =? 1
       then squad [pick 3 2 true; pick 1 1 false; pick 2 0 false] 3 1
       else squad [pick 3 2 true; pick 1 1 false; pick 2 0 false] 2 0;
     element_summary := fun element =>
       if element =? 3
       then [fixture 1 15 2 1 "1.50" "0.25"; fixture 2 25 3 0 "2.10" "0.40"]
       else if element =? 1
       then [fixture 1 6 0 0 "0.00" "0.00"; fixture 2 2 0 0 "0.00" "0.05"]
       else [fixture 1 3 0 1 "0.10" "0.30"; fixture 2 1 0 0 "0.20" "0.00"] |}.

(** The reports for [sample_api] with month window [2..2] and totals over
    gameweeks [1..2]; the positional one counts the captain double and
    leaves the bench out. *)
Definition sample_captain_report : Captain.t :=
  {| Captain.points_on_bench_month := 2;
     Captain.points_on_bench_total := 5;
     Captain.number_of_transfers_month := 0;
     Captain.number_of_transfers_total := 1;
     Captain.captain_points_month := 50;
     Captain.captain_points_total := 80 |}.

Definition centi (hundredths : Z) : @float Centi := hundredths.

Definition sample_positional_report : @Positional.t Centi :=
  {| Positional.goalkeeper := {| total := 8; month := 2 |};
     Positional.defender := {| total := 0; month := 0 |};
     Positional.midfielder := {| total := 0; month := 0 |};
     Positional.forward := {| total := 80; month := 50 |};
     Positional.bench := {| total := 4; month := 1 |};
     Positional.goals := {| total := 5; month := 3 |};
     Positional.assists := {| total := 1; month := 0 |};
     Positional.expected_goals := {| total := centi 360; month := centi 210 |};
     Positional.expected_assists := {| total := centi 70; month := centi 45 |} |}.

(** The positional report for [sample_api] over gameweek 1 alone. *)
Definition sample_positional_gw1 : @Positional.t Centi :=
  {| Positional.goalkeeper := {| total := 6; month := 6 |};
     Positional.defender := {| total := 0; month := 0 |};
     Positional.midfielder := {| total := 0; month := 0 |};
     Positional.forward := {| total := 30; month := 30 |};
     Positional.bench := {| total := 3; month := 3 |};
     Positional.goals := {| total := 2; month := 2 |};
     Positional.assists := {| total := 1; month := 1 |};
     Positional.expected_goals := {| total := centi 150; month := centi 150 |};
     Positional.expected_assists := {| total := centi 25; month := centi 25 |} |}.

(** The positional report for [sample_api] with month window [2..2] over
    gameweeks [1..2] when the captain counts once and the bench is
    included. *)
Definition sample_positional_with_bench : @Positional.t Centi :=
  {| Positional.goalkeeper := {| total := 8; month := 2 |};
     Positional.defender := {| total := 0; month := 0 |};
     Positional.midfielder := {| total := 4; month := 1 |};
     Positional.forward := {| total := 40; month := 25 |};
     Positional.bench := {| total := 4; month := 1 |};
     Positional.goals := {| total := 5; month := 3 |};
     Positional.assists := {| total := 2; month := 0 |};
     Positional.expected_goals := {| total := centi 390; month := centi 230 |};
     Positional.expected_assists :=
       {| total := centi 100; month := centi 45 |} |}.

(** The player collection built from [sample_api]. *)
Definition sample_players : dict Z Player :=
  [ (1, {| p_first_name := "Kim"; p_second_name := "Keeper";
           position := goalkeeper |});
    (2, {| p_first_name := "Max"; p_second_name := "Mid";
           position := midfielder |});
    (3, {| p_first_name := "Flo"; p_second_name := "Forward";
           position := forward |}) ].

(** A season history that lists gameweek 2 before gameweek 1. *)
Definition history_out_of_order : list History.t :=
  [ gameweek 2 25 1005 25; gameweek 1 10 1000 10 ].

(** The same league when nobody is flagged captain in gameweek 2. *)
Definition sample_no_captain_gw2 : Api :=
  {| bootstrap_elements := bootstrap_elements sample_api;
     league_standings := league_standings sample_api;
     manager_history := manager_history sample_api;
     manager_picks := fun _ gw =>
       if gw =? 1
       then squad [pick 3 2 true; pick 1 1 false; pick 2 0 false] 3 1
       else squad [pick 3 1 false; pick 1 1 false; pick 2 0 false] 2 0;
     element_summary := element_summary sample_api |}.

(** The same league with a second manager (8, Bo of BoFC) whose season
    history is empty. *)
Definition sample_two_managers : Api :=
  {| bootstrap_elements := bootstrap_elements sample_api;
     league_standings :=
       [ {| Standing.entry := 7; Standing.player_name := "Alex";
            Standing.entry_name := "AlexFC" |};
         {| Standing.entry := 8; Standing.player_name := "Bo";
            Standing.entry_name := "BoFC" |} ];
     manager_history := fun manager_id =>
       if manager_id =? 7 then manager_history sample_api 7 else [];
     manager_picks := manager_picks sample_api;
     element_summary := element_summary sample_api |}.

(** A league of two managers who share both the manager name and the team
    name: 7 as in [sample_api], and 8 who captains the goalkeeper (season
    total 6 + 2 = 8) and scores 2 and 3 points in gameweeks 1 and 2. *)
Definition sample_shared_names : Api :=
  {| bootstrap_elements := bootstrap_elements sample_api;
     league_standings :=
       [ {| Standing.entry := 7; Standing.player_name := "Alex";
            Standing.entry_name := "AlexFC" |};
         {| Standing.entry := 8; Standing.player_name := "Alex";
            Standing.entry_name := "AlexFC" |} ];
     manager_history := fun manager_id =>
       if manager_id =? 7 then manager_history sample_api 7
       else [ gameweek 1 2 900 2; gameweek 2 3 905 5 ];
     manager_picks := fun manager_id gw =>
       if manager_id =? 7 then manager_picks sample_api 7 gw
       else squad [pick 1 2 true; pick 3 1 false; pick 2 0 false] 0 0;
     element_summary := element_summary sample_api |}.

(** The reports for [sample_shared_names]: season/month over gameweeks
    [1..2], captain report with month window [2..2] over gameweeks [1..2].
    Both hold manager 8's numbers. *)
Definition shared_names_coach_report : @Coach.t Centi :=
  @Coach.Build_t Centi 5 (centi 9050) (centi 50).

Definition shared_names_captain_report : Captain.t :=
  {| Captain.points_on_bench_month := 0;
     Captain.points_on_bench_total := 0;
     Captain.number_of_transfers_month := 0;
     Captain.number_of_transfers_total := 0;
     Captain.captain_points_month := 4;
     Captain.captain_points_total := 16 |}.

(** The positional report for [sample_shared_names] over gameweek 1 alone,
    the captain counted double and the bench left out: manager 8's captain
    2 * 6, the forward 15 and the benched midfielder 3. *)
Definition shared_names_positional_gw1 : @Positional.t Centi :=
  {| Positional.goalkeeper := {| total := 12; month := 12 |};
     Positional.defender := {| total := 0; month := 0 |};
     Positional.midfielder := {| total := 0; month := 0 |};
     Positional.forward := {| total := 15; month := 15 |};
     Positional.bench := {| total := 3; month := 3 |};
     Positional.goals := {| total := 2; month := 2 |};
     Positional.assists := {| total := 1; month := 1 |};
     Positional.expected_goals := {| total := centi 150; month := centi 150 |};
     Positional.expected_assists := {| total := centi 25; month := centi 25 |} |}.

(** The same league when the bootstrap list holds a single element, of a
    type the script does not know. *)
Definition sample_unknown_type : Api :=
  {| bootstrap_elements :=
       [ {| Element.id := 1; Element.first_name := "Kim";
            Element.second_name := "Keeper"; Element.element_type := 5 |} ];
     league_standings := league_standings sample_api;
     manager_history := manager_history sample_api;
     manager_picks := manager_picks sample_api;
     element_summary := element_summary sample_api |}.

(** The same league when the manager's history starts at gameweek 2. *)
Definition sample_late_joiner : Api :=
  {| bootstrap_elements := bootstrap_elements sample_api;
     league_standings := league_standings sample_api;
     manager_history := fun _ =>
       [ gameweek 2 25 1005 25; gameweek 3 5 1010 5 ];
     manager_picks := manager_picks sample_api;
     element_summary := element_summary sample_api |}.

(** A squad in which two picks carry the captain flag. *)
Definition two_captains : list Pick.t :=
  [pick 3 2 true; pick 1 1 true; pick 2 0 false].

(** * Properties *)

(** ** Sums, loops and dictionaries *)

Lemma sum_Z_app xs ys : sum_Z (xs ++ ys) = sum_Z xs + sum_Z ys.
Proof.
  induction xs as [|x xs IH]; simpl; [reflexivity|]. rewrite IH. lia.
Qed.

Lemma in_range_window x lo hi : in_range x lo (hi + 1) = in_window lo hi x.
Proof.
  unfold in_range, in_window. f_equal.
  destruct (Z.ltb_spec x (hi + 1)), (Z.leb_spec x hi); try reflexivity; lia.
Qed.

Lemma py_range_In a b x : In x (py_range a b) <-> a <= x < b.
Proof.
  unfold py_range. rewrite in_map_iff. split.
  - intros (i & <- & Hi). apply in_seq in Hi. lia.
  - intros Hx. exists (Z.to_nat (x - a)). split; [lia|].
    apply in_seq. lia.
Qed.

Lemma for_each_app {S X} (body : S -> X -> result S) xs ys s :
  for_each body (xs ++ ys) s = (s' <- for_each body xs s ;; for_each body ys s').
Proof.
  revert s. induction xs as [|x xs IH]; intros s; simpl; [reflexivity|].
  destruct (body s x); simpl; [apply IH | reflexivity].
Qed.

Lemma bind_Ok {A B} (c : result A) (k : A -> result B) b :
  bind c k = Ok b -> exists a, c = Ok a /\ k a = Ok b.
Proof.
  destruct c; simpl; [eauto | discriminate].
Qed.

Ltac bind_inv H :=
  let a := fresh "a" in
  let Ha := fresh "Ha" in
  apply bind_Ok in H; destruct H as (a & Ha & H).

Lemma dict_get_set_eq {V} k (v : V) d :
  dict_get String.eqb k (dict_set String.eqb k v d) = Some v.
Proof.
  induction d as [|[k' v'] d IH]; simpl.
  - now rewrite String.eqb_refl.
  - destruct (String.eqb k k') eqn:E; simpl.
    + now rewrite String.eqb_refl.
    + now rewrite E.
Qed.

Lemma dict_get_set_neq {V} k k' (v : V) d :
  k <> k' ->
  dict_get String.eqb k (dict_set String.eqb k' v d)
  = dict_get String.eqb k d.
Proof.
  intros Hne. induction d as [|[k0 v0] d IH]; simpl.
  - destruct (String.eqb_spec k k'); [contradiction | reflexivity].
  - destruct (String.eqb_spec k' k0) as [->|Hk0]; simpl.
    + destruct (String.eqb_spec k k0); [contradiction | reflexivity].
    + destruct (String.eqb_spec k k0); [reflexivity | apply IH].
Qed.

(** Every entry of the mapping a manager loop returns is the report its body
    computed for some manager of the roster stored under that key, started
    from some value of the carried-over locals. *)
Lemma manager_loop_entry {L R} (key : Manager -> string)
    (body : L -> Z -> result (L * R)) ms l0 l scores k r :
  manager_loop key body ms l0 = Ok (l, scores) ->
  dict_get String.eqb k scores = Some r ->
  exists manager_id manager l_in l_out,
    In (manager_id, manager) ms /\ key manager = k /\
    body l_in manager_id = Ok (l_out, r).
Proof.
  unfold manager_loop. revert l scores r.
  induction ms as [|[mid m] ms IH] using rev_ind; intros l scores r Hrun Hget.
  - simpl in Hrun. inversion Hrun; subst. discriminate.
  - rewrite for_each_app in Hrun. bind_inv Hrun. destruct a as [l1 sc1].
    simpl in Hrun. bind_inv Hrun. inversion Hrun; subst; clear Hrun.
    bind_inv Ha0. destruct a as [l2 rep].
    inversion Ha0; subst; clear Ha0. rename Ha1 into Hbody.
    destruct (String.eqb_spec k (key m)) as [->|Hne].
    + rewrite dict_get_set_eq in Hget. inversion Hget; subst.
      exists mid, m, l1, l. split; [apply in_or_app; right; now left|].
      split; [reflexivity | exact Hbody].
    + rewrite dict_get_set_neq in Hget by assumption.
      destruct (IH _ _ _ Ha Hget) as (mid' & m' & li & lo & Hin & Hk & Hb).
      exists mid', m', li, lo. split; [apply in_or_app; now left|].
      split; assumption.
Qed.

(** The manager whose report a key holds is the last of the roster with
    that key; the body ran for them on the locals the managers before left. *)
Lemma manager_loop_entry_of_last {L R} (key : Manager -> string)
    (body : L -> Z -> result (L * R)) ms l0 l scores k r :
  manager_loop key body ms l0 = Ok (l, scores) ->
  dict_get String.eqb k scores = Some r ->
  exists earlier manager_id manager later l_in scores_in l_out,
    ms = (earlier ++ (manager_id, manager) :: later)%list /\
    key manager = k /\
    Forall (fun im => key (snd im) <> k) later /\
    manager_loop key body earlier l0 = Ok (l_in, scores_in) /\
    body l_in manager_id = Ok (l_out, r).
Proof.
  unfold manager_loop. revert l scores r.
  induction ms as [|[mid m] ms IH] using rev_ind; intros l scores r Hrun Hget.
  - simpl in Hrun. inversion Hrun; subst. discriminate.
  - rewrite for_each_app in Hrun. bind_inv Hrun. destruct a as [l1 sc1].
    simpl in Hrun. bind_inv Hrun. inversion Hrun; subst; clear Hrun.
    bind_inv Ha0. destruct a as [l2 rep].
    inversion Ha0; subst; clear Ha0. rename Ha1 into Hbody.
    destruct (String.eqb_spec k (key m)) as [->|Hne].
    + rewrite dict_get_set_eq in Hget. inversion Hget; subst.
      exists ms, mid, m, [], l1, sc1, l.
      split; [reflexivity|]. split; [reflexivity|].
      split; [constructor|]. split; [exact Ha | exact Hbody].
    + rewrite dict_get_set_neq in Hget by assumption.
      destruct (IH _ _ _ Ha Hget)
        as (pre & mid' & m' & post & li & sci & lo & Hms & Hk & Hpost & Hpre
            & Hb).
      exists pre, mid', m', (post ++ [(mid, m)])%list, li, sci, lo.
      split; [rewrite Hms, <- app_assoc; reflexivity|].
      split; [assumption|].
      split; [apply Forall_app; split; [assumption|]; constructor;
              [simpl; congruence | constructor]|].
      split; assumption.
Qed.

(** A manager whose key no later manager of the roster has finds under it
    the report their own iteration computed, on the locals the managers
    before left. *)
Lemma manager_loop_own_entry {L R} (key : Manager -> string)
    (body : L -> Z -> result (L * R)) earlier mid m later l0 l scores :
  manager_loop key body (earlier ++ (mid, m) :: later)%list l0
  = Ok (l, scores) ->
  Forall (fun im => key (snd im) <> key m) later ->
  exists l_in scores_in l_out r,
    manager_loop key body earlier l0 = Ok (l_in, scores_in) /\
    body l_in mid = Ok (l_out, r) /\
    dict_get String.eqb (key m) scores = Some r.
Proof.
  unfold manager_loop. rewrite for_each_app. intros Hrun Hpost.
  bind_inv Hrun. destruct a as [l1 sc1]. cbn [for_each] in Hrun.
  bind_inv Hrun. bind_inv Ha0. destruct a0 as [l2 r].
  inversion Ha0; subst; clear Ha0.
  exists l1, sc1, l2, r. split; [exact Ha|]. split; [exact Ha1|].
  assert (Hget : dict_get String.eqb (key m)
                   (dict_set String.eqb (key m) r sc1) = Some r)
    by apply dict_get_set_eq.
  revert Hrun Hget. generalize (dict_set String.eqb (key m) r sc1).
  generalize l2. clear Ha Ha1.
  induction later as [|[mid' m'] later IH]; intros l3 sc Hrun Hget.
  - simpl in Hrun. inversion Hrun; subst. exact Hget.
  - inversion Hpost as [|? ? Hne Hpost']; subst. simpl in Hne.
    cbn [for_each] in Hrun. bind_inv Hrun. bind_inv Ha.
    destruct a0 as [l4 r1]. inversion Ha; subst; clear Ha.
    apply (IH Hpost' _ _ Hrun).
    rewrite dict_get_set_neq by congruence. exact Hget.
Qed.

(** ** Season/month points: the [points] field *)

Section CoachFacts.
Context {F : PyFloat}.
Variables start_gw end_gw : Z.

Lemma coach_gameweek_points tp loc h tp' loc' :
  coach_gameweek start_gw end_gw (tp, loc) h = Ok (tp', loc') ->
  tp' = tp + window_points start_gw end_gw [h].
Proof.
  unfold coach_gameweek, window_points. simpl.
  rewrite in_range_window.
  destruct (in_window start_gw end_gw (History.event h)); simpl; intros H.
  - bind_inv H. bind_inv H. inversion H; subst. lia.
  - inversion H; subst. lia.
Qed.

Lemma coach_history_points history :
  forall tp loc tp' loc',
    for_each (coach_gameweek start_gw end_gw) history (tp, loc)
    = Ok (tp', loc') ->
    tp' = tp + window_points start_gw end_gw history.
Proof.
  induction history as [|h history IH]; intros tp loc tp' loc' H.
  - simpl in H. inversion H; subst. unfold window_points. simpl. lia.
  - simpl in H. bind_inv H. destruct a as [tp1 loc1].
    apply coach_gameweek_points in Ha. apply IH in H. subst.
    change (h :: history) with ([h] ++ history)%list.
    unfold window_points in *. rewrite filter_app, map_app, sum_Z_app. lia.
Qed.

Lemma coach_manager_points api loc manager_id loc' r :
  coach_manager api start_gw end_gw loc manager_id = Ok (loc', r) ->
  Coach.points r
  = window_points start_gw end_gw (manager_history api manager_id).
Proof.
  unfold coach_manager. intros H. bind_inv H. destruct a as [tp loc1].
  bind_inv H. bind_inv H. inversion H; subst; simpl.
  apply coach_history_points in Ha. lia.
Qed.
End CoachFacts.

(** C2 as worded fails on [sample_shared_names] over gameweeks [1..2]: both
    managers are called Alex, the report has the single entry [Alex] with
    manager 8's 5 points, and the 35 points of manager 7's window are
    reported nowhere. *)
Lemma coach_points_counterexample :
  fetch_coach_of_the_month_and_team_value (F := Centi) sample_shared_names 1 2
  = Ok [("Alex", shared_names_coach_report)] /\
  In (7, {| name := "Alex"; team := "AlexFC" |})
    (fetch_manager_information sample_shared_names) /\
  window_points 1 2 (manager_history sample_shared_names 7) = 35 /\
  Coach.points shared_names_coach_report = 5 /\
  ~ coach_points_as_claimed (F := Centi) sample_shared_names 1 2.
Proof.
  split; [reflexivity|]. split; [now left|].
  split; [reflexivity|]. split; [reflexivity|].
  intros Hclaim.
  destruct (Hclaim [("Alex", shared_names_coach_report)] 7
              {| name := "Alex"; team := "AlexFC" |} eq_refl
              (or_introl eq_refl)) as (r & Hget & Hpoints).
  simpl in Hget. inversion Hget; subst r; clear Hget.
  vm_compute in Hpoints. discriminate Hpoints.
Qed.

(** C2 (as amended).  Whenever the season/month report is produced for a
    range [start_gw <= end_gw], every manager of the roster whose name no
    later manager of the roster carries finds under that name an entry whose
    [points] field is the sum of [points] over exactly their own history
    entries whose event lies in [[start_gw, end_gw]]. *)
Theorem coach_points_is_window_sum (F : PyFloat) (api : Api)
    (start_gw end_gw : Z) (earlier later : list (Z * Manager))
    (manager_id : Z) (manager : Manager) (scores : dict string Coach.t) :
  start_gw <= end_gw ->
  fetch_manager_information api
  = (earlier ++ (manager_id, manager) :: later)%list ->
  Forall (fun im => name (snd im) <> name manager) later ->
  fetch_coach_of_the_month_and_team_value api start_gw end_gw = Ok scores ->
  exists r,
    dict_get String.eqb (name manager) scores = Some r /\
    Coach.points r
    = sum_Z (map History.points
               (filter (fun h => (start_gw <=? History.event h)
                                 && (History.event h <=? end_gw))
                  (manager_history api manager_id))).
Proof.
  intros _ Hroster Hlater Hrun.
  unfold fetch_coach_of_the_month_and_team_value in Hrun.
  rewrite Hroster in Hrun. bind_inv Hrun. destruct a as [l sc].
  inversion Hrun; subst.
  destruct (manager_loop_own_entry _ _ _ _ _ _ _ _ _ Ha Hlater)
    as (li & sci & lo & r & _ & Hbody & Hget).
  exists r. split; [exact Hget|].
  apply coach_manager_points in Hbody. exact Hbody.
Qed.

Lemma coach_points_is_window_sum_witness :
  exists r,
    dict_get String.eqb "Alex" [("Alex", shared_names_coach_report)] = Some r /\
    Coach.points r
    = sum_Z (map History.points
               (filter (fun h => (1 <=? History.event h)
                                 && (History.event h <=? 2))
                  (manager_history sample_shared_names 8))).
Proof.
  apply (coach_points_is_window_sum Centi sample_shared_names 1 2
           [(7, {| name := "Alex"; team := "AlexFC" |})] [] 8
           {| name := "Alex"; team := "AlexFC" |}
           [("Alex", shared_names_coach_report)]);
    [lia | reflexivity | constructor | reflexivity].
Defined.

(** ** Captain, bench and transfer report *)

Lemma sum_Z_flat_map {A} (f : A -> list Z) xs :
  sum_Z (flat_map f xs) = sum_Z (map (fun x => sum_Z (f x)) xs).
Proof.
  induction xs as [|x xs IH]; simpl; [reflexivity|].
  rewrite sum_Z_app, IH. reflexivity.
Qed.

Lemma flagged_app xs ys : flagged (xs ++ ys) = (flagged xs ++ flagged ys)%list.
Proof. apply filter_app. Qed.

(** The pick loop keeps the last flagged element and otherwise leaves
    [captain] as it found it. *)
Lemma find_captain_last picks captain :
  find_captain picks captain
  = match captain_of picks with
    | Some c => Some c
    | None => captain
    end.
Proof.
  induction picks as [|p picks IH] using rev_ind; [reflexivity|].
  unfold find_captain, captain_of in *.
  rewrite fold_left_app, flagged_app, rev_app_distr. simpl.
  unfold flagged at 1. simpl.
  destruct (Pick.is_captain p); simpl; [reflexivity | exact IH].
Qed.

Section CaptainFacts.
Variable api : Api.
Variables start_gw_month end_gw_month : Z.

Abbreviation in_month := (in_window start_gw_month end_gw_month).
Abbreviation month_points :=
  (month_fixture_points start_gw_month end_gw_month).
Abbreviation after := (captain_after api start_gw_month end_gw_month).

Lemma captain_fixture_fold history :
  forall sc,
    fold_left (captain_fixture_step start_gw_month end_gw_month) history sc
    = {| Captain.points_on_bench_month := Captain.points_on_bench_month sc;
         Captain.points_on_bench_total := Captain.points_on_bench_total sc;
         Captain.number_of_transfers_month :=
           Captain.number_of_transfers_month sc;
         Captain.number_of_transfers_total :=
           Captain.number_of_transfers_total sc;
         Captain.captain_points_month :=
           Captain.captain_points_month sc + month_points history;
         Captain.captain_points_total :=
           Captain.captain_points_total sc + fixture_points history |}.
Proof.
  unfold month_fixture_points, fixture_points.
  induction history as [|f history IH]; intros sc; simpl.
  - destruct sc; simpl. f_equal; lia.
  - rewrite IH. unfold captain_fixture_step at 1 2 3 4 5 6. simpl.
    rewrite in_range_window.
    destruct (in_month (Fixture.round f)); simpl; f_equal; lia.
Qed.

Lemma captain_gameweek_flagged manager_id captain sc gw c :
  captain_of (Picks.picks (manager_picks api manager_id gw)) = Some c ->
  captain_gameweek api start_gw_month end_gw_month manager_id (captain, sc) gw
  = Ok (Some c, after manager_id (fun _ => c) [gw] sc).
Proof.
  intros Hc. unfold captain_gameweek.
  rewrite find_captain_last, Hc. simpl. f_equal. f_equal.
  rewrite captain_fixture_fold.
  unfold entry_step, captain_after, captain_fixtures, entries, month_entries,
    bench_of, transfers_of.
  simpl. rewrite in_range_window, app_nil_r.
  destruct (in_month gw); simpl; f_equal; lia.
Qed.

Lemma captain_after_cons manager_id cap gw gws sc :
  after manager_id cap gws
    (after manager_id (fun _ => cap gw) [gw] sc)
  = after manager_id cap (gw :: gws) sc.
Proof.
  unfold captain_after, captain_fixtures, entries, month_entries,
    month_fixture_points, fixture_points.
  simpl. rewrite app_nil_r.
  rewrite !filter_app, !map_app, !sum_Z_app.
  destruct (in_month gw); simpl; f_equal; lia.
Qed.

(** With a flagged pick in every gameweek the loop never fails and adds
    exactly [captain_after]. *)
Lemma captain_gameweeks_flagged manager_id cap gws :
  (forall gw, In gw gws ->
     captain_of (Picks.picks (manager_picks api manager_id gw))
     = Some (cap gw)) ->
  forall captain sc,
  exists captain',
    for_each (captain_gameweek api start_gw_month end_gw_month manager_id)
      gws (captain, sc)
    = Ok (captain', after manager_id cap gws sc).
Proof.
  induction gws as [|gw gws IH]; intros Hcap captain sc.
  - exists captain. simpl. f_equal. f_equal.
    unfold captain_after, month_fixture_points, fixture_points. simpl.
    destruct sc; simpl; f_equal; lia.
  - cbn [for_each]. rewrite (captain_gameweek_flagged _ _ _ _ (cap gw))
      by (apply Hcap; now left).
    cbn [bind].
    destruct (IH (fun g Hg => Hcap g (or_intror Hg)) (Some (cap gw))
                (after manager_id (fun _ => cap gw) [gw] sc))
      as (c' & Hc').
    exists c'. rewrite Hc'. now rewrite captain_after_cons.
Qed.
End CaptainFacts.

Lemma fixture_points_flat_map {A} (f : A -> list Fixture.t) xs :
  fixture_points (flat_map f xs)
  = sum_Z (map (fun x => fixture_points (f x)) xs).
Proof.
  unfold fixture_points.
  induction xs as [|x xs IH]; simpl; [reflexivity|].
  rewrite map_app, sum_Z_app, IH. reflexivity.
Qed.

(** C1 as worded fails on [sample_shared_names] with two gameweeks: both
    teams are called AlexFC, manager 7 captains player 3 (season total 40)
    in both gameweeks, and the single entry [AlexFC] holds manager 8's 16
    instead of 80. *)
Lemma captain_total_counterexample :
  fetch_captain_bench_transfer sample_shared_names 2 2 2
  = Ok [("AlexFC", shared_names_captain_report)] /\
  In (7, {| name := "Alex"; team := "AlexFC" |})
    (fetch_manager_information sample_shared_names) /\
  (forall gw,
     captain_of (Picks.picks (manager_picks sample_shared_names 7 gw))
     = Some 3) /\
  sum_Z (map (fun gw => fixture_points (element_summary sample_shared_names 3))
           (py_range 1 (2 + 1))) = 80 /\
  Captain.captain_points_total shared_names_captain_report = 16 /\
  ~ captain_total_as_claimed sample_shared_names 2 2 2.
Proof.
  assert (Hcap : forall gw,
             captain_of (Picks.picks (manager_picks sample_shared_names 7 gw))
             = Some 3).
  { intros gw. simpl. destruct (gw =? 1); reflexivity. }
  split; [reflexivity|]. split; [now left|]. split; [exact Hcap|].
  split; [reflexivity|]. split; [reflexivity|].
  intros Hclaim.
  destruct (Hclaim [("AlexFC", shared_names_captain_report)] 7
              {| name := "Alex"; team := "AlexFC" |} (fun _ => 3) eq_refl
              (or_introl eq_refl) (fun gw _ => Hcap gw))
    as (r & Hget & Htotal).
  simpl in Hget. inversion Hget; subst r; clear Hget.
  vm_compute in Htotal. discriminate Htotal.
Qed.

(** C1 (as amended).  Whenever the captain report is produced with
    [end_gw_total >= 1], every manager of the roster whose team name no later
    manager of the roster carries finds under that team name an entry such
    that, if [cap gw] is their captain in every gameweek [1..end_gw_total],
    [captain_points_total] is the sum over those gameweeks of the sum of
    [total_points] over the whole fixture history of [cap gw]; a captain
    worth 40 over the season, kept for 2 gameweeks, yields 80. *)
Theorem captain_points_total_resums_history (api : Api)
    (start_gw_month end_gw_month end_gw_total : Z)
    (earlier later : list (Z * Manager)) (manager_id : Z)
    (manager : Manager) (scores : dict string Captain.t) :
  1 <= end_gw_total ->
  fetch_manager_information api
  = (earlier ++ (manager_id, manager) :: later)%list ->
  Forall (fun im => team (snd im) <> team manager) later ->
  fetch_captain_bench_transfer api start_gw_month end_gw_month end_gw_total
  = Ok scores ->
  exists r,
    dict_get String.eqb (team manager) scores = Some r /\
    forall cap : Z -> Z,
      (forall gw, 1 <= gw <= end_gw_total ->
         captain_of (Picks.picks (manager_picks api manager_id gw))
         = Some (cap gw)) ->
      Captain.captain_points_total r
      = sum_Z (map (fun gw => fixture_points (element_summary api (cap gw)))
                 (py_range 1 (end_gw_total + 1)))
      /\ (end_gw_total = 2 -> cap 2 = cap 1 ->
          fixture_points (element_summary api (cap 1)) = 40 ->
          Captain.captain_points_total r = 80).
Proof.
  intros _ Hroster Hlater Hrun. unfold fetch_captain_bench_transfer in Hrun.
  rewrite Hroster in Hrun. bind_inv Hrun. destruct a as [l sc].
  inversion Hrun; subst.
  destruct (manager_loop_own_entry _ _ _ _ _ _ _ _ _ Ha Hlater)
    as (li & sci & lo & r & _ & Hb & Hget).
  exists r. split; [exact Hget|].
  intros cap Hcap. unfold captain_manager in Hb.
  destruct (captain_gameweeks_flagged api start_gw_month end_gw_month
              manager_id cap (py_range 1 (end_gw_total + 1)))
    with (captain := li) (sc := Captain.init) as (c' & Hc').
  { intros gw Hgw. apply py_range_In in Hgw. apply Hcap. lia. }
  rewrite Hc' in Hb. inversion Hb; subst.
  assert (Htotal :
    Captain.captain_points_total
      (captain_after api start_gw_month end_gw_month manager_id cap
         (py_range 1 (end_gw_total + 1)) Captain.init)
    = sum_Z (map (fun gw => fixture_points (element_summary api (cap gw)))
               (py_range 1 (end_gw_total + 1)))).
  { unfold captain_after, captain_fixtures. simpl.
    now rewrite fixture_points_flat_map. }
  split; [exact Htotal|].
  intros -> Hsame H40. rewrite Htotal.
  change (py_range 1 (2 + 1)) with [1; 2]. simpl. rewrite Hsame, H40.
  reflexivity.
Qed.

Lemma captain_points_total_resums_history_witness :
  exists r,
    dict_get String.eqb "AlexFC" [("AlexFC", sample_captain_report)] = Some r /\
    Captain.captain_points_total r
    = sum_Z (map (fun gw => fixture_points (element_summary sample_api 3))
               (py_range 1 (2 + 1))) /\
    Captain.captain_points_total r = 80.
Proof.
  destruct (captain_points_total_resums_history sample_api 2 2 2 [] [] 7
              {| name := "Alex"; team := "AlexFC" |}
              [("AlexFC", sample_captain_report)])
    as (r & Hget & Hsum);
    [lia | reflexivity | constructor | reflexivity |].
  exists r. split; [exact Hget|].
  destruct (Hsum (fun _ => 3)) as [Htotal H80].
  { intros gw _. simpl. destruct (gw =? 1); reflexivity. }
  split; [exact Htotal|].
  apply H80; reflexivity.
Defined.

(** C10.  When more than one pick of a gameweek is flagged, the gameweek's
    step raises nothing: the element of the flagged pick that comes last in
    list order becomes [captain], and it is that player's fixture history
    the step sums. *)
Theorem last_flagged_pick_is_captain (api : Api)
    (start_gw_month end_gw_month manager_id : Z) (captain : option Z)
    (sc : Captain.t) (gw : Z) :
  (1 < List.length
         (flagged (Picks.picks (manager_picks api manager_id gw))))%nat ->
  exists front p,
    flagged (Picks.picks (manager_picks api manager_id gw))
    = (front ++ [p])%list /\
    captain_gameweek api start_gw_month end_gw_month manager_id (captain, sc) gw
    = Ok (Some (Pick.element p),
          entry_step start_gw_month end_gw_month gw
            (fold_left (captain_fixture_step start_gw_month end_gw_month)
               (element_summary api (Pick.element p)) sc)
            (Picks.entry_history (manager_picks api manager_id gw))).
Proof.
  intros Hlen.
  destruct (exists_last
              (l := flagged (Picks.picks (manager_picks api manager_id gw))))
    as (front & p & Hfl).
  { intros Hnil. rewrite Hnil in Hlen. simpl in Hlen. lia. }
  exists front, p. split; [exact Hfl|].
  unfold captain_gameweek. rewrite find_captain_last.
  unfold captain_of. rewrite Hfl, rev_app_distr. reflexivity.
Qed.

Lemma last_flagged_pick_is_captain_witness :
  exists front p,
    flagged two_captains = (front ++ [p])%list /\
    captain_gameweek
      {| bootstrap_elements := []; league_standings := [];
         manager_history := fun _ => [];
         manager_picks := fun _ _ => squad two_captains 0 0;
         element_summary := element_summary sample_api |}
      1 1 7 (None, Captain.init) 1
    = Ok (Some (Pick.element p),
          entry_step 1 1 1
            (fold_left (captain_fixture_step 1 1)
               (element_summary sample_api (Pick.element p)) Captain.init)
            (Picks.entry_history (squad two_captains 0 0))).
Proof.
  apply (last_flagged_pick_is_captain
           {| bootstrap_elements := []; league_standings := [];
              manager_history := fun _ => [];
              manager_picks := fun _ _ => squad two_captains 0 0;
              element_summary := element_summary sample_api |}
           1 1 7 None Captain.init 1).
  simpl. lia.
Defined.

(** C8 (the code departs from it).  In [sample_no_captain_gw2] no pick of
    gameweek 2 is flagged, yet the report is produced: gameweek 2 reuses
    player 3, the captain left over from gameweek 1, and counts his 40 points
    a second time. *)
Theorem unflagged_gameweek_reuses_previous_captain :
  captain_of (Picks.picks (manager_picks sample_no_captain_gw2 7 2)) = None /\
  fetch_captain_bench_transfer sample_no_captain_gw2 2 2 2
  = Ok [("AlexFC", {| Captain.points_on_bench_month := 2;
                      Captain.points_on_bench_total := 5;
                      Captain.number_of_transfers_month := 0;
                      Captain.number_of_transfers_total := 1;
                      Captain.captain_points_month := 50;
                      Captain.captain_points_total := 80 |})].
Proof. split; reflexivity. Qed.

(** C7 (the code departs from it).  In [sample_two_managers] Bo has no
    history entry at all, yet the report for the range [1..1] is produced
    and gives Bo the squad value read for Alex, the manager before him. *)
Theorem missing_sample_reports_previous_manager_value :
  manager_history sample_two_managers 8 = [] /\
  fetch_coach_of_the_month_and_team_value (F := Centi) sample_two_managers 1 1
  = Ok [("Alex", @Coach.Build_t Centi 10 10000 0);
        ("Bo", @Coach.Build_t Centi 0 10000 0)].
Proof. split; reflexivity. Qed.

(** ** Positional report *)

Lemma for_each_traverse {S X Y} (body : S -> X -> result S)
    (f : X -> result Y) (g : S -> Y -> S) :
  (forall s x, body s x = (y <- f x ;; Ok (g s y))) ->
  forall xs s,
    for_each body xs s = (ys <- traverse f xs ;; Ok (fold_left g ys s)).
Proof.
  intros Hbody. induction xs as [|x xs IH]; intros s; simpl; [reflexivity|].
  rewrite Hbody. destruct (f x) as [y|e]; simpl; [|reflexivity].
  rewrite IH. destruct (traverse f xs); reflexivity.
Qed.

Section PositionalFacts.
Context {F : PyFloat}.
Variable api : Api.
Variables start_gw_month end_gw_month : Z.
Variables captain_points_included bench_included : bool.
Variable player_collection : dict Z Player.

Abbreviation resolve :=
  (resolve_pick api captain_points_included bench_included player_collection).
Abbreviation update :=
  (apply_row start_gw_month end_gw_month captain_points_included
     bench_included).

(** One pass of the loop body is: resolve the pick, then update. *)
Lemma process_pick_row gw sc pick :
  process_pick api start_gw_month end_gw_month captain_points_included
    bench_included player_collection gw sc pick
  = (row <- resolve gw pick ;; Ok (update sc row)).
Proof.
  unfold process_pick, resolve_pick.
  destruct (dict_item Z.eqb (Pick.element pick) player_collection)
    as [player|e]; simpl; [|reflexivity].
  destruct (py_index (element_summary api (Pick.element pick)) (gw - 1))
    as [fixture|e]; simpl; [|reflexivity].
  unfold bench_step, apply_row, benched, counted, row_points, row_total_points,
    row_goals, row_assists, final_multiplier, effective_multiplier, add_stats,
    add_in_window, float_add_in_window.
  rewrite in_range_window.
  destruct sc as [[] [] [] [] [] [] [] [] []].
  destruct (captain_multiplier captain_points_included (Pick.multiplier pick)
            =? 0) eqn:Hm.
  - pose proof (proj1 (Z.eqb_eq _ _) Hm) as Hm0.
    destruct bench_included;
      destruct (in_window start_gw_month end_gw_month gw) eqn:Hw; simpl;
      rewrite ?Hm0, ?Hw; simpl;
      repeat (match goal with
              | |- context [py_float ?s] =>
                  destruct (py_float s); simpl; rewrite ?Hm0, ?Hw; simpl
              end);
      try reflexivity; destruct (position player); reflexivity.
  - destruct (in_window start_gw_month end_gw_month gw) eqn:Hw; simpl;
      rewrite ?Hm, ?Hw; simpl;
      repeat (match goal with
              | |- context [py_float ?s] =>
                  destruct (py_float s); simpl; rewrite ?Hm, ?Hw; simpl
              end);
      try reflexivity; destruct (position player); reflexivity.
Qed.
Abbreviation in_month_row :=
  (fun r : Row => in_window start_gw_month end_gw_month (row_gw r)).
Abbreviation plus := (acc_plus start_gw_month end_gw_month).
Abbreviation fplus := (float_acc_plus start_gw_month end_gw_month).
Abbreviation is_benched := (benched captain_points_included).
Abbreviation is_counted := (counted captain_points_included bench_included).
Abbreviation points_of := (row_points captain_points_included bench_included).

Lemma acc_plus_nil amount a : plus amount [] a = a.
Proof. destruct a. unfold acc_plus. simpl. f_equal; lia. Qed.

Lemma acc_plus_app amount xs ys a :
  plus amount ys (plus amount xs a) = plus amount (xs ++ ys) a.
Proof.
  unfold acc_plus. simpl.
  rewrite filter_app, !map_app, !sum_Z_app. f_equal; lia.
Qed.

Lemma float_acc_plus_app amount xs ys a :
  fplus amount ys (fplus amount xs a) = fplus amount (xs ++ ys) a.
Proof.
  unfold float_acc_plus. simpl.
  now rewrite filter_app, !map_app, !fold_left_app.
Qed.

(** The accumulators after one resolved pick. *)
Lemma apply_row_fields sc row :
  (forall p, at_position p (update sc row)
             = plus points_of (filter (at_row_position p) [row])
                 (at_position p sc)) /\
  Positional.bench (update sc row)
  = plus row_total_points (filter is_benched [row]) (Positional.bench sc) /\
  Positional.goals (update sc row)
  = plus row_goals (filter is_counted [row]) (Positional.goals sc) /\
  Positional.assists (update sc row)
  = plus row_assists (filter is_counted [row]) (Positional.assists sc) /\
  Positional.expected_goals (update sc row)
  = fplus row_xg (filter is_counted [row]) (Positional.expected_goals sc) /\
  Positional.expected_assists (update sc row)
  = fplus row_xa (filter is_counted [row]) (Positional.expected_assists sc).
Proof.
  unfold apply_row, acc_plus, float_acc_plus, add_in_window,
    float_add_in_window, at_row_position.
  destruct sc as [[] [] [] [] [] [] [] [] []].
  destruct (is_benched row) eqn:Hb, (is_counted row) eqn:Hc,
    (in_window start_gw_month end_gw_month (row_gw row)) eqn:Hw,
    (row_position row) eqn:Hp;
    (split; [intros p; destruct p |]);
    simpl; rewrite ?Hb, ?Hc, ?Hp; simpl; rewrite ?Hw; simpl;
    repeat split; try reflexivity; f_equal; lia.
Qed.

(** The accumulators after a list of resolved picks. *)
Lemma fold_apply_fields rows :
  forall sc,
    (forall p, at_position p (fold_left update rows sc)
               = plus points_of (filter (at_row_position p) rows)
                   (at_position p sc)) /\
    Positional.bench (fold_left update rows sc)
    = plus row_total_points (filter is_benched rows) (Positional.bench sc) /\
    Positional.goals (fold_left update rows sc)
    = plus row_goals (filter is_counted rows) (Positional.goals sc) /\
    Positional.assists (fold_left update rows sc)
    = plus row_assists (filter is_counted rows) (Positional.assists sc) /\
    Positional.expected_goals (fold_left update rows sc)
    = fplus row_xg (filter is_counted rows) (Positional.expected_goals sc) /\
    Positional.expected_assists (fold_left update rows sc)
    = fplus row_xa (filter is_counted rows) (Positional.expected_assists sc).
Proof.
  induction rows as [|row rows IH]; intros sc.
  - simpl. repeat split; [intros p|..]; rewrite ?acc_plus_nil;
      try reflexivity; unfold float_acc_plus; simpl;
      match goal with |- ?x = _ => destruct x; reflexivity end.
  - cbn [fold_left].
    destruct (IH (update sc row)) as (Hp & Hb & Hg & Ha & Hxg & Hxa).
    destruct (apply_row_fields sc row) as (Hp1 & Hb1 & Hg1 & Ha1 & Hxg1 & Hxa1).
    change (row :: rows) with ([row] ++ rows)%list.
    rewrite !filter_app.
    repeat split.
    + intros p. rewrite Hp, Hp1, filter_app. apply acc_plus_app.
    + rewrite Hb, Hb1. apply acc_plus_app.
    + rewrite Hg, Hg1. apply acc_plus_app.
    + rewrite Ha, Ha1. apply acc_plus_app.
    + rewrite Hxg, Hxg1. apply float_acc_plus_app.
    + rewrite Hxa, Hxa1. apply float_acc_plus_app.
Qed.

Lemma fold_left_concat {A B} (g : A -> B -> A) (xss : list (list B)) :
  forall a,
    fold_left g (List.concat xss) a
    = fold_left (fun a xs => fold_left g xs a) xss a.
Proof.
  induction xss as [|xs xss IH]; intros a; simpl; [reflexivity|].
  now rewrite fold_left_app, IH.
Qed.

Lemma position_gameweek_rows manager_id sc gw :
  position_gameweek api start_gw_month end_gw_month captain_points_included
    bench_included player_collection manager_id sc gw
  = (rows <- gameweek_rows api captain_points_included bench_included
               player_collection manager_id gw ;;
     Ok (fold_left update rows sc)).
Proof.
  unfold position_gameweek, gameweek_rows.
  apply for_each_traverse. intros s x. apply process_pick_row.
Qed.

Lemma position_gameweeks_rows end_gw_total manager_id :
  position_gameweeks api start_gw_month end_gw_month end_gw_total
    captain_points_included bench_included player_collection manager_id
  = (rows <- manager_rows api captain_points_included bench_included
               player_collection manager_id (py_range 1 (end_gw_total + 1)) ;;
     Ok (fold_left update rows Positional.init)).
Proof.
  unfold position_gameweeks, manager_rows.
  rewrite (for_each_traverse _ _ (fun sc rows => fold_left update rows sc)
             (position_gameweek_rows manager_id)).
  destruct (traverse _ _) as [rowss|e]; simpl; [|reflexivity].
  now rewrite fold_left_concat.
Qed.

(** A manager's report in terms of the resolved picks: every total/month
    pair is a window sum over them. *)
Lemma position_manager_sums end_gw_total manager_id u sc :
  position_manager api start_gw_month end_gw_month end_gw_total
    captain_points_included bench_included player_collection tt manager_id
  = Ok (u, sc) ->
  exists rows,
    manager_rows api captain_points_included bench_included player_collection
      manager_id (py_range 1 (end_gw_total + 1)) = Ok rows /\
    (forall p,
       window_sums start_gw_month end_gw_month row_gw points_of
         (filter (at_row_position p) rows)
         (total (at_position p sc)) (month (at_position p sc))) /\
    window_sums start_gw_month end_gw_month row_gw row_total_points
      (filter is_benched rows)
      (total (Positional.bench sc)) (month (Positional.bench sc)) /\
    window_sums start_gw_month end_gw_month row_gw row_goals
      (filter is_counted rows)
      (total (Positional.goals sc)) (month (Positional.goals sc)) /\
    window_sums start_gw_month end_gw_month row_gw row_assists
      (filter is_counted rows)
      (total (Positional.assists sc)) (month (Positional.assists sc)) /\
    window_float_sums start_gw_month end_gw_month row_gw row_xg
      (filter is_counted rows) (Positional.expected_goals sc) /\
    window_float_sums start_gw_month end_gw_month row_gw row_xa
      (filter is_counted rows) (Positional.expected_assists sc).
Proof.
  unfold position_manager. rewrite position_gameweeks_rows. intros H.
  bind_inv H. bind_inv Ha. rename a0 into rows.
  inversion Ha; subst; clear Ha. inversion H; subst; clear H.
  exists rows. split; [assumption|].
  destruct (fold_apply_fields rows Positional.init)
    as (Hp & Hb & Hg & Has & Hxg & Hxa).
  set (sc := fold_left update rows Positional.init) in *.
  assert (Hround_p : forall p,
            at_position p (round_expected sc) = at_position p sc).
  { intros p. destruct sc, p; reflexivity. }
  unfold window_sums, window_float_sums.
  repeat split.
  - rewrite Hround_p, Hp. destruct p; simpl; lia.
  - rewrite Hround_p, Hp. destruct p; simpl; lia.
  - replace (Positional.bench (round_expected sc)) with (Positional.bench sc)
      by (destruct sc; reflexivity).
    rewrite Hb. simpl. lia.
  - replace (Positional.bench (round_expected sc)) with (Positional.bench sc)
      by (destruct sc; reflexivity).
    rewrite Hb. simpl. lia.
  - replace (Positional.goals (round_expected sc)) with (Positional.goals sc)
      by (destruct sc; reflexivity).
    rewrite Hg. simpl. lia.
  - replace (Positional.goals (round_expected sc)) with (Positional.goals sc)
      by (destruct sc; reflexivity).
    rewrite Hg. simpl. lia.
  - replace (Positional.assists (round_expected sc))
      with (Positional.assists sc) by (destruct sc; reflexivity).
    rewrite Has. simpl. lia.
  - replace (Positional.assists (round_expected sc))
      with (Positional.assists sc) by (destruct sc; reflexivity).
    rewrite Has. simpl. lia.
  - replace (total (Positional.expected_goals (round_expected sc)))
      with (round_2 (total (Positional.expected_goals sc)))
      by (destruct sc; reflexivity).
    now rewrite Hxg.
  - replace (month (Positional.expected_goals (round_expected sc)))
      with (round_2 (month (Positional.expected_goals sc)))
      by (destruct sc; reflexivity).
    now rewrite Hxg.
  - replace (total (Positional.expected_assists (round_expected sc)))
      with (round_2 (total (Positional.expected_assists sc)))
      by (destruct sc; reflexivity).
    now rewrite Hxa.
  - replace (month (Positional.expected_assists (round_expected sc)))
      with (round_2 (month (Positional.expected_assists sc)))
      by (destruct sc; reflexivity).
    now rewrite Hxa.
Qed.
End PositionalFacts.

(** ** Month accumulators are window sums of the totals' contributions *)

Section CaptainEntries.
Variable api : Api.
Variables start_gw_month end_gw_month : Z.

(** Bench points and transfers are summed from each gameweek's own entry,
    whichever captain the gameweek ends up with. *)
Lemma captain_gameweeks_entries manager_id gws :
  forall captain sc captain' sc',
    for_each (captain_gameweek api start_gw_month end_gw_month manager_id)
      gws (captain, sc) = Ok (captain', sc') ->
    Captain.points_on_bench_total sc'
    = Captain.points_on_bench_total sc
      + sum_Z (map bench_of (entries api manager_id gws)) /\
    Captain.points_on_bench_month sc'
    = Captain.points_on_bench_month sc
      + sum_Z (map bench_of
                 (month_entries start_gw_month end_gw_month
                    (entries api manager_id gws))) /\
    Captain.number_of_transfers_total sc'
    = Captain.number_of_transfers_total sc
      + sum_Z (map transfers_of (entries api manager_id gws)) /\
    Captain.number_of_transfers_month sc'
    = Captain.number_of_transfers_month sc
      + sum_Z (map transfers_of
                 (month_entries start_gw_month end_gw_month
                    (entries api manager_id gws))).
Proof.
  induction gws as [|gw gws IH]; intros captain sc captain' sc' H.
  - simpl in H. inversion H; subst. simpl. lia.
  - cbn [for_each] in H. bind_inv H. destruct a as [c1 sc1].
    destruct (IH _ _ _ _ H) as (H1 & H2 & H3 & H4).
    unfold captain_gameweek in Ha. bind_inv Ha.
    inversion Ha; subst; clear Ha.
    rewrite captain_fixture_fold in H1, H2, H3, H4.
    unfold entry_step in H1, H2, H3, H4. simpl in H1, H2, H3, H4.
    rewrite in_range_window in H2, H4.
    unfold entries, month_entries, bench_of, transfers_of in *. simpl.
    destruct (in_window start_gw_month end_gw_month gw); simpl; lia.
Qed.
End CaptainEntries.

Lemma captain_entry_window_sums (api : Api)
    (start_gw_month end_gw_month end_gw_total : Z)
    (scores : dict string Captain.t) (team_name : string) (r : Captain.t) :
  fetch_captain_bench_transfer api start_gw_month end_gw_month end_gw_total
  = Ok scores ->
  dict_get String.eqb team_name scores = Some r ->
  captain_report_window_sums api start_gw_month end_gw_month end_gw_total
    team_name r.
Proof.
  rename start_gw_month into s, end_gw_month into e, end_gw_total into t.
  intros Hrun Hget.
  unfold fetch_captain_bench_transfer in Hrun.
  bind_inv Hrun. destruct a as [l sc]. inversion Hrun; subst.
  destruct (manager_loop_entry _ _ _ _ _ _ _ _ Ha Hget)
    as (mid & m & li & lo & Hin & Hk & Hb).
  exists mid, m. split; [assumption|]. split; [assumption|].
  unfold captain_manager in Hb.
  destruct (captain_gameweeks_entries _ _ _ _ _ _ _ _ _ Hb)
    as (H1 & H2 & H3 & H4).
  simpl in H1, H2, H3, H4. unfold window_sums.
  split; [split; [exact H1 | exact H2]|].
  split; [split; [exact H3 | exact H4]|].
  intros cap Hcap.
  destruct (captain_gameweeks_flagged api s e mid cap
              (py_range 1 (t + 1))) with (captain := li)
              (sc := Captain.init) as (c' & Hc').
  { intros gw Hgw. apply py_range_In in Hgw. apply Hcap. lia. }
  rewrite Hc' in Hb. inversion Hb; subst. split; reflexivity.
Qed.

Lemma positional_entry_window_sums (F : PyFloat) (api : Api)
    (start_gw_month end_gw_month end_gw_total : Z)
    (captain_points_included bench_included : bool)
    (scores : dict string Positional.t) (team_name : string)
    (sc : Positional.t) :
  position_bench_goals_assists_xg_xa api start_gw_month end_gw_month
    end_gw_total captain_points_included bench_included = Ok scores ->
  dict_get String.eqb team_name scores = Some sc ->
  positional_report_window_sums api start_gw_month end_gw_month
    end_gw_total captain_points_included bench_included team_name sc.
Proof.
  intros Hrun Hget.
  unfold position_bench_goals_assists_xg_xa in Hrun.
  bind_inv Hrun. rename a into pc. bind_inv Hrun. destruct a as [u scs].
  inversion Hrun; subst.
  destruct (manager_loop_entry _ _ _ _ _ _ _ _ Ha0 Hget)
    as (mid & m & li & lo & Hin & Hk & Hb).
  destruct li.
  destruct (position_manager_sums _ _ _ _ _ _ _ _ _ _ Hb) as (rows & Hrows).
  exists mid, m, pc, rows. split; [assumption|]. split; [assumption|].
  split; [assumption|]. exact Hrows.
Qed.

(** *** The captain pair for every entry *)

Section HeldCaptainFacts.
Variable api : Api.
Variables start_gw_month end_gw_month : Z.

(** A run of the gameweek loop leaves in [captain] what the pick loops
    leave, holds a player in every gameweek, and adds to the captain points
    the fixture histories of the players held, by fixture round on the month
    side. *)
Lemma captain_gameweeks_held manager_id gws :
  forall captain sc captain' sc',
    for_each (captain_gameweek api start_gw_month end_gw_month manager_id)
      gws (captain, sc) = Ok (captain', sc') ->
    captain' = held_after_gameweeks api manager_id captain gws /\
    exists captains,
      held_captains api manager_id captain gws = map Some captains /\
      Captain.captain_points_total sc'
      = Captain.captain_points_total sc
        + fixture_points (flat_map (element_summary api) captains) /\
      Captain.captain_points_month sc'
      = Captain.captain_points_month sc
        + month_fixture_points start_gw_month end_gw_month
            (flat_map (element_summary api) captains).
Proof.
  induction gws as [|gw gws IH]; intros captain sc captain' sc' H.
  - simpl in H. inversion H; subst. split; [reflexivity|].
    exists []. split; [reflexivity|].
    unfold month_fixture_points, fixture_points. simpl. lia.
  - cbn [for_each] in H. bind_inv H. destruct a as [c1 sc1].
    destruct (IH _ _ _ _ H) as (Hc & captains & Hheld & Ht & Hm).
    unfold captain_gameweek in Ha.
    destruct (find_captain (Picks.picks (manager_picks api manager_id gw))
                captain) as [c|] eqn:Hfind; [|discriminate].
    simpl in Ha. inversion Ha; subst c1 sc1; clear Ha.
    split; [simpl; rewrite Hfind; exact Hc|].
    exists (c :: captains). split; [simpl; rewrite Hfind, Hheld; reflexivity|].
    rewrite captain_fixture_fold in Ht, Hm.
    unfold entry_step in Ht, Hm. simpl in Ht, Hm.
    unfold month_fixture_points, fixture_points in *. simpl.
    rewrite filter_app, !map_app, !sum_Z_app. lia.
Qed.

(** The managers of a roster pass [captain] on to each other. *)
Lemma captain_loop_held end_gw_total ms :
  forall captain scores,
    manager_loop team
      (captain_manager api start_gw_month end_gw_month end_gw_total) ms None
    = Ok (captain, scores) ->
    captain = held_on_entry api end_gw_total ms.
Proof.
  unfold manager_loop, held_on_entry.
  induction ms as [|[mid m] ms IH] using rev_ind; intros captain scores Hrun.
  - simpl in Hrun. now inversion Hrun.
  - rewrite for_each_app in Hrun. bind_inv Hrun. destruct a as [c1 sc1].
    simpl in Hrun. bind_inv Hrun. inversion Hrun; subst; clear Hrun.
    bind_inv Ha0. destruct a as [c2 rep].
    inversion Ha0; subst; clear Ha0.
    rewrite fold_left_app. simpl. rewrite <- (IH _ _ Ha).
    unfold captain_manager in Ha1.
    apply captain_gameweeks_held in Ha1. apply Ha1.
Qed.
End HeldCaptainFacts.

Lemma captain_entry_month_sums (api : Api)
    (start_gw_month end_gw_month end_gw_total : Z)
    (scores : dict string Captain.t) (team_name : string) (r : Captain.t) :
  fetch_captain_bench_transfer api start_gw_month end_gw_month end_gw_total
  = Ok scores ->
  dict_get String.eqb team_name scores = Some r ->
  captain_report_month_sums api start_gw_month end_gw_month end_gw_total
    team_name r.
Proof.
  rename start_gw_month into s, end_gw_month into e, end_gw_total into t.
  intros Hrun Hget.
  unfold fetch_captain_bench_transfer in Hrun.
  bind_inv Hrun. destruct a as [l sc]. inversion Hrun; subst.
  destruct (manager_loop_entry_of_last _ _ _ _ _ _ _ _ Ha Hget)
    as (pre & mid & m & post & li & sci & lo & Hms & Hk & Hpost & Hpre & Hb).
  apply captain_loop_held in Hpre. subst li.
  unfold captain_manager in Hb.
  destruct (captain_gameweeks_entries _ _ _ _ _ _ _ _ _ Hb)
    as (H1 & H2 & H3 & H4).
  destruct (captain_gameweeks_held _ _ _ _ _ _ _ _ _ Hb)
    as (_ & captains & Hheld & Ht & Hm).
  simpl in H1, H2, H3, H4, Ht, Hm.
  exists pre, mid, m, post, captains.
  split; [exact Hms|]. split; [exact Hk|]. split; [exact Hpost|].
  split; [exact Hheld|]. unfold window_sums.
  split; [split; [exact H1 | exact H2]|].
  split; [split; [exact H3 | exact H4]|].
  split; [exact Ht | exact Hm].
Qed.

(** C5.  In both reports with month/total pairs, each pair of every entry is
    a window sum: the total adds up a list of contributions and the month
    adds up exactly those whose gameweek -- for captain points, whose fixture
    round -- lies in [[start_gw_month, end_gw_month]].  Captain report: bench
    points and transfers per gameweek entry, captain points per fixture of
    the player the variable [captain] holds in each gameweek, whether a pick
    of the gameweek is flagged or not.  Positional report: points per
    position, bench points, goals, assists, and expected goals and assists
    as float sums in iteration order under the closing [round(_, 2)], per
    resolved pick. *)
Theorem month_accumulators_are_window_sums :
  (forall (api : Api) (start_gw_month end_gw_month end_gw_total : Z)
          (scores : dict string Captain.t) (team_name : string)
          (r : Captain.t),
      fetch_captain_bench_transfer api start_gw_month end_gw_month
        end_gw_total = Ok scores ->
      dict_get String.eqb team_name scores = Some r ->
      captain_report_month_sums api start_gw_month end_gw_month
        end_gw_total team_name r)
  /\
  (forall (F : PyFloat) (api : Api)
          (start_gw_month end_gw_month end_gw_total : Z)
          (captain_points_included bench_included : bool)
          (scores : dict string Positional.t) (team_name : string)
          (sc : Positional.t),
      position_bench_goals_assists_xg_xa api start_gw_month end_gw_month
        end_gw_total captain_points_included bench_included = Ok scores ->
      dict_get String.eqb team_name scores = Some sc ->
      positional_report_window_sums api start_gw_month end_gw_month
        end_gw_total captain_points_included bench_included team_name sc).
Proof.
  split.
  - exact captain_entry_month_sums.
  - exact positional_entry_window_sums.
Qed.

Lemma month_accumulators_are_window_sums_witness :
  captain_report_month_sums sample_no_captain_gw2 2 2 2 "AlexFC"
    sample_captain_report
  /\
  positional_report_window_sums sample_api 2 2 2 true false "AlexFC"
    sample_positional_report.
Proof.
  destruct month_accumulators_are_window_sums as [Hcaptain Hpositional].
  split.
  - apply (Hcaptain sample_no_captain_gw2 2 2 2
             [("AlexFC", sample_captain_report)]); reflexivity.
  - apply (Hpositional Centi sample_api 2 2 2 true false
             [("AlexFC", sample_positional_report)]); reflexivity.
Defined.

(** ** Bench cross-check *)

Section CrossCheck.
Context {F : PyFloat}.
Variable captain_points_included : bool.

Lemma raw_benched_effective row :
  benched captain_points_included row = raw_benched row.
Proof.
  unfold benched, raw_benched, effective_multiplier, captain_multiplier.
  destruct (Z.eqb_spec (Pick.multiplier (row_pick row)) 2) as [->|Hne];
    [|reflexivity].
  destruct captain_points_included; reflexivity.
Qed.

Lemma final_multiplier_without_bench pick :
  final_multiplier captain_points_included false pick
  = effective_multiplier captain_points_included pick.
Proof.
  unfold final_multiplier.
  destruct (Z.eqb_spec (effective_multiplier captain_points_included pick) 0)
    as [->|]; reflexivity.
Qed.

(** Splitting a sum by position loses nothing. *)
Lemma sum_by_position (amount : Row -> Z) rows :
  sum_Z (map amount (filter (at_row_position goalkeeper) rows))
  + sum_Z (map amount (filter (at_row_position defender) rows))
  + sum_Z (map amount (filter (at_row_position midfielder) rows))
  + sum_Z (map amount (filter (at_row_position forward) rows))
  = sum_Z (map amount rows).
Proof.
  induction rows as [|row rows IH]; [reflexivity|].
  unfold at_row_position in *. simpl.
  destruct (row_position row); simpl; lia.
Qed.

(** Rows that contribute nothing can be left out of a sum. *)
Lemma sum_Z_filter_zero (amount : Row -> Z) (keep : Row -> bool) rows :
  (forall row, keep row = false -> amount row = 0) ->
  sum_Z (map amount rows) = sum_Z (map amount (filter keep rows)).
Proof.
  intros Hzero. induction rows as [|row rows IH]; [reflexivity|].
  simpl. destruct (keep row) eqn:Hk; simpl; [lia|].
  rewrite (Hzero row Hk). lia.
Qed.
End CrossCheck.

(** C6 (as amended).  In the positional report computed with
    [bench_included = false], every manager of the roster whose team name no
    later manager of the roster carries finds under that team name an entry
    whose four positional totals plus [bench.total] equal the sum of points
    times effective multiplier over their non-bench picks plus the sum of
    points over their benched picks. *)
Theorem positional_plus_bench_cross_check (F : PyFloat) (api : Api)
    (start_gw_month end_gw_month end_gw_total : Z)
    (captain_points_included : bool)
    (earlier later : list (Z * Manager)) (manager_id : Z)
    (manager : Manager) (scores : dict string Positional.t) :
  fetch_manager_information api
  = (earlier ++ (manager_id, manager) :: later)%list ->
  Forall (fun im => team (snd im) <> team manager) later ->
  position_bench_goals_assists_xg_xa api start_gw_month end_gw_month
    end_gw_total captain_points_included false = Ok scores ->
  exists player_collection rows sc,
    update_player_collection api = Ok player_collection /\
    manager_rows api captain_points_included false player_collection
      manager_id (py_range 1 (end_gw_total + 1)) = Ok rows /\
    dict_get String.eqb (team manager) scores = Some sc /\
    positional_plus_bench sc
    = sum_Z (map (fun r => row_total_points r
                           * effective_multiplier captain_points_included
                               (row_pick r))
               (filter non_bench rows))
      + sum_Z (map row_total_points (filter raw_benched rows)).
Proof.
  intros Hroster Hlater Hrun.
  unfold position_bench_goals_assists_xg_xa in Hrun. rewrite Hroster in Hrun.
  bind_inv Hrun. rename a into pc. bind_inv Hrun. destruct a as [u scs].
  inversion Hrun; subst.
  destruct (manager_loop_own_entry _ _ _ _ _ _ _ _ _ Ha0 Hlater)
    as ([] & sci & lo & sc & _ & Hb & Hget).
  destruct (position_manager_sums _ _ _ _ _ _ _ _ _ _ Hb)
    as (rows & Hrows & Hp & Hbench & _).
  exists pc, rows, sc. repeat (split; [assumption|]).
  unfold positional_plus_bench.
  change (Positional.goalkeeper sc) with (at_position goalkeeper sc).
  change (Positional.defender sc) with (at_position defender sc).
  change (Positional.midfielder sc) with (at_position midfielder sc).
  change (Positional.forward sc) with (at_position forward sc).
  rewrite (proj1 (Hp goalkeeper)), (proj1 (Hp defender)),
    (proj1 (Hp midfielder)), (proj1 (Hp forward)), (proj1 Hbench).
  rewrite sum_by_position.
  rewrite (sum_Z_filter_zero _ non_bench).
  - f_equal.
    + f_equal. apply map_ext. intros row. unfold row_points.
      now rewrite final_multiplier_without_bench.
    + f_equal. f_equal. apply filter_ext. intros row.
      apply raw_benched_effective.
  - intros row Hrow. unfold row_points.
    rewrite final_multiplier_without_bench.
    unfold non_bench in Hrow. apply negb_false_iff in Hrow.
    rewrite <- (raw_benched_effective captain_points_included) in Hrow.
    unfold benched in Hrow.
    apply Z.eqb_eq in Hrow. rewrite Hrow. lia.
Qed.

Lemma positional_plus_bench_cross_check_witness :
  exists player_collection rows sc,
    update_player_collection sample_api = Ok player_collection /\
    manager_rows (F := Centi) sample_api true false player_collection 7
      (py_range 1 (1 + 1)) = Ok rows /\
    dict_get String.eqb "AlexFC" [("AlexFC", sample_positional_gw1)]
    = Some sc /\
    positional_plus_bench sc
    = sum_Z (map (fun r => row_total_points r
                           * effective_multiplier true (row_pick r))
               (filter non_bench rows))
      + sum_Z (map row_total_points (filter raw_benched rows)).
Proof.
  apply (positional_plus_bench_cross_check Centi sample_api 1 1 1 true
           [] [] 7 {| name := "Alex"; team := "AlexFC" |}
           [("AlexFC", sample_positional_gw1)]);
    [reflexivity | constructor | reflexivity].
Defined.


(** C6 as worded fails on [sample_api] over gameweek 1: the captain scores
    2 * 15, the goalkeeper 6 and the benched midfielder 3, so the positional
    totals plus [bench.total] are 39 while points times multiplier over the
    non-bench picks is 36.  With the benched points added on the right it
    still fails for every manager on [sample_shared_names]: both teams are
    called AlexFC, and the single entry holds manager 8's 12 + 15 + 3 = 30
    against manager 7's 39. *)
Lemma bench_cross_check_counterexample :
  position_bench_goals_assists_xg_xa (F := Centi) sample_api 1 1 1 true false
  = Ok [("AlexFC", sample_positional_gw1)] /\
  dict_get String.eqb "AlexFC" [("AlexFC", sample_positional_gw1)]
  = Some sample_positional_gw1 /\
  ~ bench_cross_check_as_claimed sample_api 1 true "AlexFC"
      sample_positional_gw1 /\
  position_bench_goals_assists_xg_xa (F := Centi) sample_shared_names 1 1 1
    true false
  = Ok [("AlexFC", shared_names_positional_gw1)] /\
  ~ bench_cross_check_of_every_manager sample_shared_names 1 true
      [("AlexFC", shared_names_positional_gw1)].
Proof.
  split; [reflexivity|]. split; [reflexivity|].
  split; [|split; [reflexivity|]].
  - intros (mid & m & pc & rows & Hin & _ & Hpc & Hrows & Hsum).
    destruct Hin as [Hin|[]]. inversion Hin; subst mid m; clear Hin.
    assert (Hplayers : update_player_collection sample_api
                       = Ok sample_players) by reflexivity.
    rewrite Hplayers in Hpc. inversion Hpc; subst pc; clear Hpc.
    assert (Hright :
      match manager_rows (F := Centi) sample_api true false sample_players 7
              (py_range 1 (1 + 1)) with
      | Ok rows =>
          sum_Z (map (fun r => row_total_points r
                               * Pick.multiplier (row_pick r))
                   (filter non_bench rows))
      | Raise _ => 0
      end = 36) by reflexivity.
    rewrite Hrows in Hright.
    assert (Hleft : positional_plus_bench sample_positional_gw1 = 39)
      by reflexivity.
    rewrite Hleft, Hright in Hsum. discriminate Hsum.
  - intros Hclaim.
    destruct (Hclaim 7 {| name := "Alex"; team := "AlexFC" |}
                (or_introl eq_refl))
      as (pc & rows & sc & Hpc & Hrows & Hget & Hsum).
    assert (Hplayers : update_player_collection sample_shared_names
                       = Ok sample_players) by reflexivity.
    rewrite Hplayers in Hpc. inversion Hpc; subst pc; clear Hpc.
    assert (Hright :
      match manager_rows (F := Centi) sample_shared_names true false
              sample_players 7 (py_range 1 (1 + 1)) with
      | Ok rows =>
          sum_Z (map (fun r => row_total_points r
                               * effective_multiplier true (row_pick r))
                   (filter non_bench rows))
          + sum_Z (map row_total_points (filter raw_benched rows))
      | Raise _ => 0
      end = 39) by reflexivity.
    rewrite Hrows in Hright.
    assert (Hentry : dict_get String.eqb "AlexFC"
                       [("AlexFC", shared_names_positional_gw1)]
                     = Some shared_names_positional_gw1) by reflexivity.
    change (team {| name := "Alex"; team := "AlexFC" |}) with "AlexFC" in Hget.
    rewrite Hentry in Hget. inversion Hget; subst sc; clear Hget.
    assert (Hleft : positional_plus_bench shared_names_positional_gw1 = 30)
      by reflexivity.
    rewrite Hleft, Hright in Hsum. discriminate Hsum.
Qed.

(** ** Misaligned fixture histories *)

Lemma for_each_raise {S X} (body : S -> X -> result S) xs x :
  In x xs ->
  (forall s, exists e, body s x = Raise e) ->
  forall s, exists e, for_each body xs s = Raise e.
Proof.
  intros Hin Hx. induction xs as [|y xs IH]; intros s; [contradiction|].
  simpl. destruct Hin as [->|Hin].
  - destruct (Hx s) as (e & He). rewrite He. exists e. reflexivity.
  - destruct (body s y) as [s'|e]; simpl; [now apply IH | now exists e].
Qed.

Lemma py_index_out_of_range {A} (xs : list A) i :
  0 <= i -> Z.of_nat (List.length xs) <= i -> py_index xs i = Raise IndexError.
Proof.
  intros H0 Hlen. unfold py_index.
  destruct (Z.ltb_spec i 0); [lia|].
  destruct (Z.ltb_spec i 0); [lia|].
  destruct (nth_error xs (Z.to_nat i)) eqn:E; [|reflexivity].
  assert (nth_error xs (Z.to_nat i) <> None) as Hn by congruence.
  apply nth_error_Some in Hn. lia.
Qed.

Section Misaligned.
Context {F : PyFloat}.
Variable api : Api.
Variables start_gw_month end_gw_month end_gw_total : Z.
Variables captain_points_included bench_included : bool.

Lemma misaligned_pick_index_error player_collection gw sc pick player :
  dict_get Z.eqb (Pick.element pick) player_collection = Some player ->
  1 <= gw ->
  misaligned api gw pick ->
  process_pick api start_gw_month end_gw_month captain_points_included
    bench_included player_collection gw sc pick
  = Raise IndexError.
Proof.
  intros Hplayer Hgw Hmis. unfold process_pick, dict_item.
  rewrite Hplayer. simpl.
  rewrite py_index_out_of_range; [reflexivity | lia | exact Hmis].
Qed.

Lemma misaligned_pick_raises player_collection gw pick :
  1 <= gw ->
  misaligned api gw pick ->
  forall sc, exists e,
    process_pick api start_gw_month end_gw_month captain_points_included
      bench_included player_collection gw sc pick
    = Raise e.
Proof.
  intros Hgw Hmis sc.
  destruct (dict_get Z.eqb (Pick.element pick) player_collection)
    as [player|] eqn:Hplayer.
  - exists IndexError. now apply misaligned_pick_index_error with player.
  - exists KeyError. unfold process_pick, dict_item. now rewrite Hplayer.
Qed.

Lemma misaligned_run_raises :
  has_misaligned_pick api end_gw_total ->
  exists e,
    position_bench_goals_assists_xg_xa api start_gw_month end_gw_month
      end_gw_total captain_points_included bench_included
    = Raise e.
Proof.
  intros (mid & m & gw & pick & Hin & Hgw & Hpick & Hmis).
  unfold position_bench_goals_assists_xg_xa.
  destruct (update_player_collection api) as [pc|e]; simpl;
    [|now exists e].
  assert (Hmanager : forall u, exists e,
            position_manager api start_gw_month end_gw_month end_gw_total
              captain_points_included bench_included pc u mid = Raise e).
  { intros u. unfold position_manager, position_gameweeks.
    destruct (for_each_raise
                (position_gameweek api start_gw_month end_gw_month
                   captain_points_included bench_included pc mid)
                (py_range 1 (end_gw_total + 1)) gw) with (s := Positional.init)
      as (e & He).
    - apply py_range_In. lia.
    - intros sc. unfold position_gameweek.
      apply for_each_raise with pick; [exact Hpick|].
      apply misaligned_pick_raises; [lia | exact Hmis].
    - exists e. now rewrite He. }
  unfold manager_loop.
  destruct (for_each_raise
              (fun '(locals, scores) '(manager_id, manager) =>
                 '(locals', report) <-
                   position_manager api start_gw_month end_gw_month
                     end_gw_total captain_points_included bench_included pc
                     locals manager_id ;;
                 Ok (locals', dict_set String.eqb (team manager) report scores))
              (fetch_manager_information api) (mid, m))
    with (s := (tt, @nil (string * Positional.t))) as (e & He).
  - exact Hin.
  - intros [u scores]. destruct (Hmanager u) as (e & He).
    exists e. now rewrite He.
  - exists e. now rewrite He.
Qed.
End Misaligned.

(** C9 (as amended).  In the positional report, when index [gw-1] is out of
    range for a picked player's fixture history, processing that pick raises
    the generic [IndexError] as soon as the player's position has resolved,
    and the report computation ends in an exception, never in a report; the
    script has no error of its own for a misaligned history. *)
Theorem misaligned_history_raises_index_error (F : PyFloat) (api : Api)
    (start_gw_month end_gw_month end_gw_total : Z)
    (captain_points_included bench_included : bool) :
  (forall player_collection gw sc pick player,
      dict_get Z.eqb (Pick.element pick) player_collection = Some player ->
      1 <= gw ->
      misaligned api gw pick ->
      process_pick api start_gw_month end_gw_month captain_points_included
        bench_included player_collection gw sc pick
      = Raise IndexError) /\
  (has_misaligned_pick api end_gw_total ->
   exists e,
     position_bench_goals_assists_xg_xa api start_gw_month end_gw_month
       end_gw_total captain_points_included bench_included
     = Raise e).
Proof.
  split.
  - intros pc gw sc pick player. apply misaligned_pick_index_error.
  - apply misaligned_run_raises.
Qed.

Lemma sample_misaligned_pick : has_misaligned_pick sample_api 3.
Proof.
  exists 7, {| name := "Alex"; team := "AlexFC" |}, 3, (pick 3 2 true).
  split; [now left|]. split; [lia|]. split; [now left|].
  unfold misaligned. simpl. lia.
Qed.

Lemma misaligned_history_raises_index_error_witness :
  process_pick (F := Centi) sample_api 1 1 true false
    [(3, {| p_first_name := "Flo"; p_second_name := "Forward";
            position := forward |})]
    3 Positional.init (pick 3 2 true)
  = Raise IndexError /\
  exists e,
    position_bench_goals_assists_xg_xa (F := Centi) sample_api 1 1 3 true false
    = Raise e.
Proof.
  destruct (misaligned_history_raises_index_error Centi sample_api 1 1 3
              true false) as [Hpick Hrun].
  split.
  - apply Hpick with (player := {| p_first_name := "Flo";
                                   p_second_name := "Forward";
                                   position := forward |});
      [reflexivity | lia | unfold misaligned; simpl; lia].
  - apply Hrun. exact sample_misaligned_pick.
Defined.

(** C9 as worded fails on [sample_api] over gameweeks 1..3: player 3 has two
    fixtures, so index 2 is out of range in gameweek 3, and what the report
    raises is the generic [IndexError]. *)
Lemma misaligned_history_counterexample :
  ~ misaligned_history_as_claimed (F := Centi) sample_api 1 1 3 true false.
Proof.
  intros Hclaim.
  destruct (Hclaim sample_misaligned_pick) as (e & He & Hne).
  assert (Hraise :
    position_bench_goals_assists_xg_xa (F := Centi) sample_api 1 1 3 true
      false = Raise IndexError) by reflexivity.
  rewrite Hraise in He. inversion He; subst. now apply Hne.
Qed.

(** ** A benched pick *)

Section BenchedPick.
Context {F : PyFloat}.
Variable api : Api.
Variables start_gw_month end_gw_month : Z.
Variables captain_points_included bench_included : bool.
Variable player_collection : dict Z Player.

Lemma at_position_upd_bench f p sc :
  at_position p (upd_bench f sc) = at_position p sc.
Proof. destruct sc, p; reflexivity. Qed.

(** What [process_pick] returns for a benched pick whose lookups succeed. *)
Lemma process_benched_pick gw sc pick player fixture :
  dict_get Z.eqb (Pick.element pick) player_collection = Some player ->
  py_index (element_summary api (Pick.element pick)) (gw - 1) = Ok fixture ->
  effective_multiplier captain_points_included pick = 0 ->
  let add := add_in_window start_gw_month end_gw_month gw in
  let fadd := float_add_in_window start_gw_month end_gw_month gw in
  let sc_bench := upd_bench (add (Fixture.total_points fixture)) sc in
  process_pick api start_gw_month end_gw_month captain_points_included
    bench_included player_collection gw sc pick
  = if bench_included then
      xg <- py_float (Fixture.expected_goals fixture) ;;
      xa <- py_float (Fixture.expected_assists fixture) ;;
      Ok (upd_expected_assists (fadd xa)
            (upd_expected_goals (fadd xg)
               (upd_assists (add (Fixture.assists fixture))
                  (upd_goals (add (Fixture.goals_scored fixture))
                     (upd_position (position player)
                        (add (Fixture.total_points fixture * 1))
                        sc_bench)))))
    else Ok sc_bench.
Proof.
  intros Hplayer Hfixture Heff. simpl.
  rewrite process_pick_row. unfold resolve_pick, dict_item.
  rewrite Hplayer, Hfixture. simpl.
  unfold final_multiplier. rewrite Heff. simpl.
  destruct bench_included; simpl.
  - destruct (py_float (Fixture.expected_goals fixture)) as [xg|]; simpl;
      [|reflexivity].
    destruct (py_float (Fixture.expected_assists fixture)) as [xa|]; simpl;
      [|reflexivity].
    unfold apply_row, benched, counted, row_points, row_total_points,
      row_goals, row_assists, final_multiplier.
    simpl. rewrite Heff. reflexivity.
  - unfold apply_row, benched, counted, row_points, row_total_points,
      final_multiplier. simpl. rewrite Heff. simpl.
    rewrite Z.mul_0_r. f_equal.
    unfold add_in_window.
    destruct sc as [[] [] [] [] [] [] [] [] []].
    destruct (position player),
      (in_window start_gw_month end_gw_month gw); simpl;
      rewrite ?Z.add_0_r; reflexivity.
Qed.
End BenchedPick.

(** C3.  For a pick whose effective multiplier is 0 and whose lookups
    succeed, the loop body returns accumulators in which the fixture points
    are added to [bench.total], and to [bench.month] when the gameweek is in
    the month window, whatever [bench_included] is.  With
    [bench_included = false] every positional and statistics accumulator is
    as it was; with [bench_included = true], the expected goals and assists
    parsing to [xg] and [xa], the pick counts with multiplier 1 for its
    position and adds its goals, assists, [xg] and [xa], on the total side
    and, in the window, on the month side. *)
Theorem benched_pick_contribution (F : PyFloat) (api : Api)
    (start_gw_month end_gw_month : Z)
    (captain_points_included bench_included : bool)
    (player_collection : dict Z Player) (gw : Z) (sc : Positional.t)
    (pick : Pick.t) (player : Player) (fixture : Fixture.t)
    (xg xa : float) :
  dict_get Z.eqb (Pick.element pick) player_collection = Some player ->
  py_index (element_summary api (Pick.element pick)) (gw - 1) = Ok fixture ->
  effective_multiplier captain_points_included pick = 0 ->
  (bench_included = true ->
   float_of_str (Fixture.expected_goals fixture) = Some xg /\
   float_of_str (Fixture.expected_assists fixture) = Some xa) ->
  let add := add_in_window start_gw_month end_gw_month gw in
  let fadd := float_add_in_window start_gw_month end_gw_month gw in
  exists sc',
    process_pick api start_gw_month end_gw_month captain_points_included
      bench_included player_collection gw sc pick = Ok sc' /\
    Positional.bench sc'
    = add (Fixture.total_points fixture) (Positional.bench sc) /\
    (bench_included = false ->
     (forall p, at_position p sc' = at_position p sc) /\
     Positional.goals sc' = Positional.goals sc /\
     Positional.assists sc' = Positional.assists sc /\
     Positional.expected_goals sc' = Positional.expected_goals sc /\
     Positional.expected_assists sc' = Positional.expected_assists sc) /\
    (bench_included = true ->
     at_position (position player) sc'
     = add (Fixture.total_points fixture * 1)
         (at_position (position player) sc) /\
     (forall p, p <> position player ->
                at_position p sc' = at_position p sc) /\
     Positional.goals sc'
     = add (Fixture.goals_scored fixture) (Positional.goals sc) /\
     Positional.assists sc'
     = add (Fixture.assists fixture) (Positional.assists sc) /\
     Positional.expected_goals sc'
     = fadd xg (Positional.expected_goals sc) /\
     Positional.expected_assists sc'
     = fadd xa (Positional.expected_assists sc)).
Proof.
  intros Hplayer Hfixture Heff Hparse add fadd.
  rewrite (process_benched_pick api start_gw_month end_gw_month
             captain_points_included bench_included player_collection
             gw sc pick player fixture Hplayer Hfixture Heff).
  fold add. fold fadd.
  destruct bench_included.
  - destruct (Hparse eq_refl) as [Hxg Hxa]. unfold py_float.
    rewrite Hxg, Hxa. simpl. eexists. split; [reflexivity|].
    destruct sc as [gk df md fw b g a exg exa].
    split; [destruct (position player); reflexivity|].
    split; [discriminate|]. intros _.
    split; [destruct (position player); reflexivity|].
    split; [intros p Hp; destruct p, (position player);
            try reflexivity; contradiction|].
    repeat split; destruct (position player); reflexivity.
  - eexists. split; [reflexivity|].
    destruct sc as [gk df md fw b g a exg exa].
    split; [reflexivity|]. split; [|discriminate].
    intros _. split; [intros p; destruct p; reflexivity|].
    repeat split.
Qed.

Lemma benched_pick_contribution_witness :
  exists sc',
    process_pick (F := Centi) sample_api 1 1 true true sample_players 1
      Positional.init (pick 2 0 false) = Ok sc' /\
    Positional.bench sc' = {| total := 3; month := 3 |} /\
    Positional.midfielder sc' = {| total := 3; month := 3 |} /\
    Positional.assists sc' = {| total := 1; month := 1 |} /\
    Positional.expected_goals sc' = {| total := centi 10; month := centi 10 |}.
Proof.
  destruct (benched_pick_contribution Centi sample_api 1 1 true true
              sample_players 1 Positional.init (pick 2 0 false)
              {| p_first_name := "Max"; p_second_name := "Mid";
                 position := midfielder |}
              (fixture 1 3 0 1 "0.10" "0.30") (centi 10) (centi 30)
              eq_refl eq_refl eq_refl (fun _ => conj eq_refl eq_refl))
    as (sc' & Hrun & Hbench & _ & Hcounted).
  destruct (Hcounted eq_refl) as (Hposition & _ & _ & Hassists & Hxg & _).
  exists sc'. split; [exact Hrun|]. split; [exact Hbench|].
  split; [exact Hposition|]. split; [exact Hassists | exact Hxg].
Defined.

(** ** Min/max report *)

Lemma sorted_events_split p x q :
  StronglySorted Z.lt (map History.event (p ++ x :: q)) ->
  (forall y, In y p -> History.event y < History.event x) /\
  (forall y, In y q -> History.event x < History.event y).
Proof.
  induction p as [|a p IH]; simpl; intros Hs.
  - apply StronglySorted_inv in Hs. destruct Hs as [_ Hall].
    split; [contradiction|]. intros y Hy.
    rewrite Forall_forall in Hall. apply Hall. now apply in_map.
  - apply StronglySorted_inv in Hs. destruct Hs as [Hs Hall].
    destruct (IH Hs) as [Hp Hq]. split; [|exact Hq].
    intros y [<-|Hy]; [|now apply Hp].
    rewrite Forall_forall in Hall. apply Hall. apply in_map.
    apply in_or_app. right. now left.
Qed.

Lemma find_snoc {A} (f : A -> bool) p x :
  find f (p ++ [x])
  = match find f p with
    | Some y => Some y
    | None => if f x then Some x else None
    end.
Proof.
  induction p as [|a p IH]; simpl; [reflexivity|].
  destruct (f a); [reflexivity | exact IH].
Qed.

Lemma find_all_false {A} (f : A -> bool) p :
  (forall y, In y p -> f y = false) -> find f p = None.
Proof.
  induction p as [|a p IH]; simpl; intros H; [reflexivity|].
  rewrite (H a) by now left. apply IH. intros y Hy. apply H. now right.
Qed.

Lemma filter_all_false {A} (f : A -> bool) p :
  (forall y, In y p -> f y = false) -> filter f p = [].
Proof.
  induction p as [|a p IH]; simpl; intros H; [reflexivity|].
  rewrite (H a) by now left. apply IH. intros y Hy. apply H. now right.
Qed.

Lemma find_present {A} (f : A -> bool) p y :
  In y p -> f y = true -> exists z, find f p = Some z.
Proof.
  induction p as [|a p IH]; simpl; intros Hin Hf; [contradiction|].
  destruct (f a) eqn:Ha; [now exists a|].
  destruct Hin as [->|Hin]; [congruence | now apply IH].
Qed.

Section MinMaxFacts.
Variables start_gw_month end_gw_month : Z.

Abbreviation step := (least_most_gameweek start_gw_month end_gw_month).
Abbreviation after := (bounds_after start_gw_month end_gw_month).
Abbreviation in_month := (in_window start_gw_month end_gw_month).
Abbreviation is_later := (fun h => History.event h >? 1).
Abbreviation is_month := (fun h => in_month (History.event h)).
Abbreviation is_first := (fun h => History.event h =? 1).
Abbreviation is_month_first := (fun h => History.event h =? start_gw_month).

(** The bounds after one more entry, in terms of the bounds before it. *)
Lemma bounds_after_snoc p x :
  after (p ++ [x])
  = let later := (filter is_later p
                  ++ (if History.event x >? 1 then [x] else []))%list in
    let later_month :=
      (filter is_month (filter is_later p)
       ++ (if (History.event x >? 1) && in_month (History.event x)
           then [x] else []))%list in
    let tps := map History.total_points in
    let first := match find is_first p with
                 | Some y => Some y
                 | None => if History.event x =? 1 then Some x else None
                 end in
    let month_first :=
      match find is_month_first p with
      | Some y => Some y
      | None => if History.event x =? start_gw_month then Some x else None
      end in
    {| MinMax.min_points_total :=
         option_map (fun h => fold_left Z.min (tps later)
                                (History.total_points h)) first;
       MinMax.max_points_total :=
         option_map (fun h => fold_left Z.max (tps later)
                                (History.total_points h)) first;
       MinMax.min_points_month :=
         option_map (fun h => fold_left Z.min (tps later_month)
                                (History.total_points h)) month_first;
       MinMax.max_points_month :=
         option_map (fun h => fold_left Z.max (tps later_month)
                                (History.total_points h)) month_first |}.
Proof.
  unfold bounds_after. rewrite !find_snoc, !filter_app. simpl.
  destruct (History.event x >? 1); simpl; [|rewrite !app_nil_r; reflexivity].
  destruct (in_month (History.event x)); reflexivity.
Qed.
Lemma min_cell tp av :
  (if tp <? av then Some tp else Some av) = Some (Z.min av tp).
Proof. destruct (Z.ltb_spec tp av); f_equal; lia. Qed.

Lemma max_cell tp bv :
  (if tp >? bv then Some tp else Some bv) = Some (Z.max bv tp).
Proof. rewrite Z.gtb_ltb. destruct (Z.ltb_spec bv tp); f_equal; lia. Qed.

Lemma fold_min_snoc xs a x :
  fold_left Z.min (xs ++ [x]) a = Z.min (fold_left Z.min xs a) x.
Proof. now rewrite fold_left_app. Qed.

Lemma fold_max_snoc xs a x :
  fold_left Z.max (xs ++ [x]) a = Z.max (fold_left Z.max xs a) x.
Proof. now rewrite fold_left_app. Qed.

(** One pass of the loop body on explicit cells. *)
Lemma step_cells a b c d x :
  step (MinMax.Build_t a b c d) x
  = let tp := History.total_points x in
    let ev := History.event x in
    let a1 := if ev =? 1 then Some tp else a in
    let b1 := if ev =? 1 then Some tp else b in
    let c1 := if ev =? start_gw_month then Some tp else c in
    let d1 := if ev =? start_gw_month then Some tp else d in
    if ev >? 1 then
      match a1, b1 with
      | Some av, Some bv =>
          if in_month ev then
            match c1, d1 with
            | Some cv, Some dv =>
                Ok (MinMax.Build_t (Some (Z.min av tp)) (Some (Z.max bv tp))
                      (Some (Z.min cv tp)) (Some (Z.max dv tp)))
            | _, _ => Raise TypeError
            end
          else Ok (MinMax.Build_t (Some (Z.min av tp)) (Some (Z.max bv tp))
                     c1 d1)
      | _, _ => Raise TypeError
      end
    else Ok (MinMax.Build_t a1 b1 c1 d1).
Proof.
  unfold least_most_gameweek. rewrite in_range_window. cbv zeta.
  destruct (History.event x =? 1), (History.event x =? start_gw_month),
    (History.event x >? 1), (in_month (History.event x)),
    a as [av|], b as [bv|], c as [cv|], d as [dv|];
    simpl; try reflexivity;
    repeat (match goal with
            | |- context [?u <? ?v] => destruct (Z.ltb_spec u v); simpl
            | |- context [?u >? ?v] =>
                rewrite (Z.gtb_ltb u v); destruct (Z.ltb_spec v u); simpl
            end);
    try reflexivity; repeat f_equal; lia.
Qed.

(** On a history in increasing event order that has the two initialising
    entries, each pass of the loop body succeeds and moves the bounds from
    those of the entries seen so far to those including the new entry. *)
Lemma least_most_step_sorted p x q :
  StronglySorted Z.lt (map History.event (p ++ x :: q)) ->
  has_event 1 (p ++ x :: q) ->
  has_event start_gw_month (p ++ x :: q) ->
  step (after p) x = Ok (after (p ++ [x])).
Proof.
  intros Hs H1 Hm. destruct (sorted_events_split _ _ _ Hs) as [Hp Hq].
  rewrite bounds_after_snoc.
  assert (Hlater : History.event x <= 1 -> filter is_later p = []).
  { intros Hle. apply filter_all_false. intros y Hy. specialize (Hp y Hy).
    rewrite Z.gtb_ltb. destruct (Z.ltb_spec 1 (History.event y)); [lia|easy]. }
  assert (Hfirst_none : History.event x <= 1 -> find is_first p = None).
  { intros Hle. apply find_all_false. intros y Hy. specialize (Hp y Hy).
    destruct (Z.eqb_spec (History.event y) 1); [lia|easy]. }
  assert (Hfirst_some : 1 < History.event x ->
                        exists f, find is_first p = Some f).
  { intros Hgt. destruct H1 as (h & Hin & Hev). apply in_app_or in Hin.
    destruct Hin as [Hin|[<-|Hin]].
    - apply find_present with h; [assumption|]. now apply Z.eqb_eq.
    - lia.
    - specialize (Hq h Hin). lia. }
  assert (Hmonth_none : History.event x <= start_gw_month ->
                        find is_month_first p = None).
  { intros Hle. apply find_all_false. intros y Hy. specialize (Hp y Hy).
    destruct (Z.eqb_spec (History.event y) start_gw_month); [lia|easy]. }
  assert (Hlm_none : History.event x <= start_gw_month ->
                     filter is_month (filter is_later p) = []).
  { intros Hle. apply filter_all_false. intros y Hy.
    apply filter_In in Hy. destruct Hy as [Hy _]. specialize (Hp y Hy).
    unfold in_window.
    destruct (Z.leb_spec start_gw_month (History.event y)); [lia|easy]. }
  assert (Hmonth_some : start_gw_month < History.event x ->
                        exists g, find is_month_first p = Some g).
  { intros Hgt. destruct Hm as (h & Hin & Hev). apply in_app_or in Hin.
    destruct Hin as [Hin|[<-|Hin]].
    - apply find_present with h; [assumption|]. now apply Z.eqb_eq.
    - lia.
    - specialize (Hq h Hin). lia. }
  unfold bounds_after at 1. cbv zeta. rewrite step_cells. cbv zeta.
  rewrite !Z.gtb_ltb.
  destruct (Z.ltb_spec 1 (History.event x)) as [Hgt|Hle].
  - destruct (Hfirst_some Hgt) as (f & Hf). rewrite Hf.
    destruct (Z.eqb_spec (History.event x) 1) as [E1|N1]; [lia|].
    cbn [option_map andb].
    destruct (Z.eqb_spec (History.event x) start_gw_month) as [Es|Ns].
    + rewrite Hmonth_none, Hlm_none by lia.
      destruct (in_month (History.event x)); cbn [option_map app map];
        rewrite ?app_nil_r, ?map_app, ?fold_left_app; cbn [map fold_left];
        repeat f_equal; lia.
    + destruct (in_month (History.event x)) eqn:Hw.
      * assert (start_gw_month < History.event x) as Hlt.
        { unfold in_window in Hw. apply andb_prop in Hw.
          destruct Hw as [Hw _]. apply Z.leb_le in Hw. lia. }
        destruct (Hmonth_some Hlt) as (g & Hg). rewrite Hg.
        cbn [option_map]. rewrite !map_app, !fold_left_app.
        reflexivity.
      * destruct (find is_month_first p); cbn [option_map];
          rewrite ?app_nil_r, ?map_app, ?fold_left_app; reflexivity.
  - rewrite Hlater, Hfirst_none by lia. cbn [andb app map fold_left].
    destruct (Z.eqb_spec (History.event x) start_gw_month) as [Es|Ns].
    + rewrite Hmonth_none by lia.
      destruct (Z.eqb_spec (History.event x) 1); reflexivity.
    + destruct (find is_month_first p), (Z.eqb_spec (History.event x) 1);
        reflexivity.
Qed.
Lemma least_most_run_sorted q :
  forall p,
    StronglySorted Z.lt (map History.event (p ++ q)) ->
    has_event 1 (p ++ q) ->
    has_event start_gw_month (p ++ q) ->
    for_each step q (after p) = Ok (after (p ++ q)).
Proof.
  induction q as [|x q IH]; intros p Hs H1 Hm.
  - simpl. now rewrite app_nil_r.
  - cbn [for_each]. rewrite (least_most_step_sorted p x q Hs H1 Hm).
    cbn [bind].
    replace (p ++ x :: q)%list with ((p ++ [x]) ++ q)%list in *
      by (now rewrite <- app_assoc).
    now apply IH.
Qed.

(** On an ordered history with both initialising entries the loop yields
    the two-phase bounds. *)
Lemma least_most_history_sorted history :
  increasing_events history ->
  has_event 1 history ->
  has_event start_gw_month history ->
  exists ms,
    min_max_two_phase start_gw_month end_gw_month history = Some ms /\
    least_most_history start_gw_month end_gw_month history = Ok ms.
Proof.
  intros Hs H1 Hm. exists (after history). split.
  - destruct H1 as (h1 & Hin1 & Hev1). destruct Hm as (hm & Hinm & Hevm).
    destruct (find_present is_first history h1 Hin1) as (f & Hf);
      [now apply Z.eqb_eq|].
    destruct (find_present is_month_first history hm Hinm) as (g & Hg);
      [now apply Z.eqb_eq|].
    unfold min_max_two_phase, bounds_after. rewrite Hf, Hg. reflexivity.
  - unfold least_most_history.
    change MinMax.init with (after []).
    now apply (least_most_run_sorted history []).
Qed.
End MinMaxFacts.

(** C4 (as amended).  For every manager whose history is listed in strictly
    increasing event order and contains an entry with event 1 and an entry
    with event [start_gw_month], the loop succeeds with the total bounds
    initialised from the event-1 entry and the month bounds from the
    event-[start_gw_month] entry, every entry with event > 1 having updated
    the total min/max and, when its event lies in
    [[start_gw_month, end_gw_month]], the month min/max.  The history
    [gw1=10, gw2=25, gw3=5] with window [2..3] yields 5, 25, 5, 25. *)
Theorem least_and_most_on_ordered_history :
  (forall (api : Api) (start_gw_month end_gw_month manager_id : Z),
      increasing_events (manager_history api manager_id) ->
      has_event 1 (manager_history api manager_id) ->
      has_event start_gw_month (manager_history api manager_id) ->
      exists ms,
        min_max_two_phase start_gw_month end_gw_month
          (manager_history api manager_id) = Some ms /\
        least_most_manager api start_gw_month end_gw_month tt manager_id
        = Ok (tt, ms)) /\
  least_most_history 2 3
    [gameweek 1 10 1000 10; gameweek 2 25 1005 25; gameweek 3 5 1010 5]
  = Ok {| MinMax.min_points_total := Some 5;
          MinMax.max_points_total := Some 25;
          MinMax.min_points_month := Some 5;
          MinMax.max_points_month := Some 25 |}.
Proof.
  split; [|reflexivity].
  intros api s e mid Hs H1 Hm.
  destruct (least_most_history_sorted s e _ Hs H1 Hm) as (ms & Hspec & Hrun).
  exists ms. split; [exact Hspec|].
  unfold least_most_manager. now rewrite Hrun.
Qed.

Lemma least_and_most_on_ordered_history_witness :
  exists ms,
    min_max_two_phase 2 3 (manager_history sample_api 7) = Some ms /\
    least_most_manager sample_api 2 3 tt 7 = Ok (tt, ms).
Proof.
  apply (proj1 least_and_most_on_ordered_history sample_api 2 3 7).
  - unfold increasing_events. simpl.
    repeat (constructor; [|repeat constructor; lia]). constructor.
  - exists (gameweek 1 10 1000 10). split; [now left | reflexivity].
  - exists (gameweek 2 25 1005 25). split; [right; now left | reflexivity].
Defined.

(** C4 as worded fails on [history_out_of_order]: it has entries with event
    1 and event 2, but gameweek 2 comes first and is compared with bounds
    that are still [None], which raises [TypeError]. *)
Lemma least_and_most_counterexample :
  ~ min_max_as_claimed 2 3 history_out_of_order.
Proof.
  intros Hclaim. destruct Hclaim as (ms & _ & Hrun).
  - exists (gameweek 1 10 1000 10). split; [right; now left | reflexivity].
  - exists (gameweek 2 25 1005 25). split; [now left | reflexivity].
  - vm_compute in Hrun. discriminate Hrun.
Qed.

(** * Further properties *)

(** ** Dictionaries *)

Section DictFacts.
Variables K V : Type.
Variable eqb : K -> K -> bool.
Hypothesis eqb_spec : forall x y, reflect (x = y) (eqb x y).

Lemma dict_get_set k k' (v : V) (d : dict K V) :
  dict_get eqb k (dict_set eqb k' v d)
  = if eqb k k' then Some v else dict_get eqb k d.
Proof.
  induction d as [|[k0 v0] d IH]; simpl.
  - reflexivity.
  - destruct (eqb_spec k' k0) as [->|Hne]; simpl.
    + destruct (eqb_spec k k0); reflexivity.
    + rewrite IH. destruct (eqb_spec k k0) as [->|]; [|reflexivity].
      destruct (eqb_spec k0 k'); [congruence | reflexivity].
Qed.

Lemma dict_keys_set_In k0 k (v : V) (d : dict K V) :
  In k0 (map fst (dict_set eqb k v d)) <-> k0 = k \/ In k0 (map fst d).
Proof.
  induction d as [|[k1 v1] d IH]; simpl.
  - intuition.
  - destruct (eqb_spec k k1) as [->|Hne]; simpl.
    + intuition.
    + rewrite IH. intuition.
Qed.

Lemma dict_keys_set_NoDup k (v : V) (d : dict K V) :
  NoDup (map fst d) -> NoDup (map fst (dict_set eqb k v d)).
Proof.
  induction d as [|[k1 v1] d IH]; simpl; intros Hnd.
  - constructor; [intros [] | constructor].
  - inversion Hnd as [|? ? Hnotin Hnd']; subst.
    destruct (eqb_spec k k1) as [->|Hne]; simpl.
    + constructor; assumption.
    + constructor; [|now apply IH].
      rewrite dict_keys_set_In. intros [Heq|Hin]; [congruence | contradiction].
Qed.

Lemma dict_get_In k (d : dict K V) :
  dict_get eqb k d <> None <-> In k (map fst d).
Proof.
  induction d as [|[k1 v1] d IH]; simpl.
  - intuition.
  - destruct (eqb_spec k k1) as [->|Hne].
    + split; [now left | discriminate].
    + rewrite IH. split; [now right | intros [?|?]; [congruence | assumption]].
Qed.
End DictFacts.

(** ** [update_player_collection] *)

Lemma el_type_conversion_known t :
  (exists pos, el_type_conversion t = Ok pos) <-> 1 <= t <= 4.
Proof.
  unfold el_type_conversion.
  destruct (Z.eqb_spec t 1), (Z.eqb_spec t 2), (Z.eqb_spec t 3),
    (Z.eqb_spec t 4); split; intros H; try lia; eauto;
    destruct H as (pos & H); discriminate.
Qed.

Lemma el_type_conversion_error t e :
  el_type_conversion t = Raise e -> e = KeyError.
Proof.
  unfold el_type_conversion.
  destruct (t =? 1), (t =? 2), (t =? 3), (t =? 4); intros H;
    try discriminate; now inversion H.
Qed.

(** The loop of [update_player_collection] from any collection built so
    far. *)
Lemma player_loop_lookup elements :
  forall acc pc element_id,
    for_each
      (fun player_collection el =>
         pos <- el_type_conversion (Element.element_type el) ;;
         Ok (dict_set Z.eqb (Element.id el)
               {| p_first_name := Element.first_name el;
                  p_second_name := Element.second_name el;
                  position := pos |} player_collection))
      elements acc = Ok pc ->
    dict_get Z.eqb element_id pc
    = match last_element element_id elements with
      | Some el => player_of el
      | None => dict_get Z.eqb element_id acc
      end.
Proof.
  unfold last_element.
  induction elements as [|el elements IH]; intros acc pc element_id Hrun.
  - simpl in Hrun. inversion Hrun; subst. reflexivity.
  - cbn [for_each] in Hrun. bind_inv Hrun. bind_inv Ha.
    inversion Ha; subst; clear Ha.
    rewrite (IH _ _ element_id Hrun). simpl rev. rewrite find_snoc.
    destruct (find _ (rev elements)); [reflexivity|].
    rewrite (dict_get_set _ _ _ Z.eqb_spec). rewrite Z.eqb_sym.
    destruct (Element.id el =? element_id); [|reflexivity].
    unfold player_of. now rewrite Ha0.
Qed.

Lemma player_loop_succeeds elements :
  Forall known_type elements ->
  forall acc, exists pc,
    for_each
      (fun player_collection el =>
         pos <- el_type_conversion (Element.element_type el) ;;
         Ok (dict_set Z.eqb (Element.id el)
               {| p_first_name := Element.first_name el;
                  p_second_name := Element.second_name el;
                  position := pos |} player_collection))
      elements acc = Ok pc.
Proof.
  induction 1 as [|el elements Hel _ IH]; intros acc; simpl; [eauto|].
  apply el_type_conversion_known in Hel. destruct Hel as (pos & ->).
  simpl. apply IH.
Qed.

Lemma player_loop_fails elements :
  forall acc e,
    for_each
      (fun player_collection el =>
         pos <- el_type_conversion (Element.element_type el) ;;
         Ok (dict_set Z.eqb (Element.id el)
               {| p_first_name := Element.first_name el;
                  p_second_name := Element.second_name el;
                  position := pos |} player_collection))
      elements acc = Raise e ->
    e = KeyError /\ ~ Forall known_type elements.
Proof.
  induction elements as [|el elements IH]; intros acc e Hrun;
    [discriminate|].
  cbn [for_each] in Hrun.
  destruct (el_type_conversion (Element.element_type el)) as [pos|e']
    eqn:Hconv; simpl in Hrun.
  - destruct (IH _ _ Hrun) as [-> Hnot]. split; [reflexivity|].
    intros Hall. inversion Hall; subst. contradiction.
  - inversion Hrun; subst.
    split; [now apply el_type_conversion_error in Hconv|].
    intros Hall. inversion Hall as [|? ? Hel _]; subst.
    apply el_type_conversion_known in Hel. destruct Hel as (pos & Hpos).
    congruence.
Qed.

Lemma player_loop_known elements :
  forall acc pc,
    for_each
      (fun player_collection el =>
         pos <- el_type_conversion (Element.element_type el) ;;
         Ok (dict_set Z.eqb (Element.id el)
               {| p_first_name := Element.first_name el;
                  p_second_name := Element.second_name el;
                  position := pos |} player_collection))
      elements acc = Ok pc ->
    Forall known_type elements.
Proof.
  induction elements as [|el elements IH]; intros acc pc Hrun;
    [constructor|].
  cbn [for_each] in Hrun. bind_inv Hrun. bind_inv Ha.
  constructor; [|now apply IH in Hrun].
  apply el_type_conversion_known. eauto.
Qed.

(** X1.  [update_player_collection] succeeds exactly when every bootstrap
    element has an [element_type] from 1 to 4; otherwise the exception is
    [KeyError]. *)
Theorem player_collection_fails_on_unknown_type (api : Api) :
  ((exists pc, update_player_collection api = Ok pc) <->
   Forall known_type (bootstrap_elements api)) /\
  (forall e, update_player_collection api = Raise e -> e = KeyError).
Proof.
  unfold update_player_collection. split; [split|].
  - intros (pc & Hrun). now apply player_loop_known in Hrun.
  - intros Hall. apply player_loop_succeeds. exact Hall.
  - intros e Hrun. now apply player_loop_fails in Hrun.
Qed.

(** X2.  When the player collection is built, looking an id up gives the
    record of the last bootstrap element carrying that id (a later element
    overwrites an earlier one), and nothing for an id no element carries; no
    id is stored twice. *)
Theorem player_collection_lookup (api : Api) (pc : dict Z Player) :
  update_player_collection api = Ok pc ->
  NoDup (map fst pc) /\
  forall element_id,
    dict_get Z.eqb element_id pc
    = match last_element element_id (bootstrap_elements api) with
      | Some el => player_of el
      | None => None
      end.
Proof.
  intros Hrun. split.
  - unfold update_player_collection in Hrun. revert Hrun.
    assert (Hnil : NoDup (map fst (@nil (Z * Player)))) by constructor.
    revert Hnil. generalize (@nil (Z * Player)).
    induction (bootstrap_elements api) as [|el els IH]; intros acc Hacc Hrun.
    + simpl in Hrun. now inversion Hrun; subst.
    + cbn [for_each] in Hrun. bind_inv Hrun. bind_inv Ha.
      inversion Ha; subst. apply (IH _ (dict_keys_set_NoDup _ _ _ Z.eqb_spec
                                         _ _ _ Hacc) Hrun).
  - intros element_id.
    apply (player_loop_lookup _ _ _ element_id Hrun).
Qed.

Lemma player_collection_lookup_witness :
  NoDup (map fst sample_players) /\
  forall element_id,
    dict_get Z.eqb element_id sample_players
    = match last_element element_id (bootstrap_elements sample_api) with
      | Some el => player_of el
      | None => None
      end.
Proof.
  apply (player_collection_lookup sample_api sample_players). reflexivity.
Defined.

(** ** [fetch_manager_information] *)

Lemma roster_fold standings :
  forall acc,
    NoDup (map fst acc) ->
    NoDup (map fst
             (fold_left
                (fun tango_managers manager =>
                   dict_set Z.eqb (Standing.entry manager)
                     {| name := Standing.player_name manager;
                        team := Standing.entry_name manager |} tango_managers)
                standings acc)) /\
    forall manager_id,
      dict_get Z.eqb manager_id
        (fold_left
           (fun tango_managers manager =>
              dict_set Z.eqb (Standing.entry manager)
                {| name := Standing.player_name manager;
                   team := Standing.entry_name manager |} tango_managers)
           standings acc)
      = match last_standing manager_id standings with
        | Some st => Some (manager_of st)
        | None => dict_get Z.eqb manager_id acc
        end.
Proof.
  unfold last_standing.
  induction standings as [|st standings IH]; intros acc Hacc.
  - split; [exact Hacc | reflexivity].
  - cbn [fold_left].
    destruct (IH _ (dict_keys_set_NoDup _ _ _ Z.eqb_spec
                      (Standing.entry st)
                      {| name := Standing.player_name st;
                         team := Standing.entry_name st |} _ Hacc))
      as [Hnd Hget].
    split; [exact Hnd|]. intros manager_id. rewrite Hget.
    simpl rev. rewrite find_snoc.
    destruct (find _ (rev standings)); [reflexivity|].
    rewrite (dict_get_set _ _ _ Z.eqb_spec). rewrite Z.eqb_sym.
    destruct (Standing.entry st =? manager_id); reflexivity.
Qed.

(** X3.  The roster holds every manager id once, whatever the standings
    repeat, and maps an id to the names on the last standings row with that
    entry; an id on no row is absent. *)
Theorem roster_lookup (api : Api) :
  NoDup (map fst (fetch_manager_information api)) /\
  forall manager_id,
    dict_get Z.eqb manager_id (fetch_manager_information api)
    = option_map manager_of
        (last_standing manager_id (league_standings api)).
Proof.
  unfold fetch_manager_information.
  destruct (roster_fold (league_standings api) []) as [Hnd Hget];
    [constructor|].
  split; [exact Hnd|]. intros manager_id. rewrite Hget.
  destruct (last_standing manager_id (league_standings api)); reflexivity.
Qed.

(** ** Keys of the reports *)

Lemma manager_loop_keys {L R} (key : Manager -> string)
    (body : L -> Z -> result (L * R)) ms :
  forall l0 (sc0 : dict string R) l scores,
    for_each
      (fun '(locals, scores) '(manager_id, manager) =>
         '(locals', report) <- body locals manager_id ;;
         Ok (locals', dict_set String.eqb (key manager) report scores))
      ms (l0, sc0) = Ok (l, scores) ->
    NoDup (map fst sc0) ->
    NoDup (map fst scores) /\
    forall k,
      In k (map fst scores) <->
      In k (map fst sc0) \/
      exists manager_id manager, In (manager_id, manager) ms /\ key manager = k.
Proof.
  induction ms as [|[mid m] ms IH]; intros l0 sc0 l scores Hrun Hnd.
  - simpl in Hrun. inversion Hrun; subst. split; [exact Hnd|].
    intros k. split; [now left|]. intros [H|(? & ? & [] & _)]. exact H.
  - cbn [for_each] in Hrun. bind_inv Hrun. bind_inv Ha.
    destruct a0 as [l1 rep]. inversion Ha; subst; clear Ha.
    destruct (IH _ _ _ _ Hrun
                (dict_keys_set_NoDup _ _ _ String.eqb_spec (key m) rep _ Hnd))
      as [Hnd' Hkeys].
    split; [exact Hnd'|]. intros k. rewrite Hkeys.
    rewrite (dict_keys_set_In _ _ _ String.eqb_spec). split.
    + intros [[->|Hin]|(mid' & m' & Hin & Hk)].
      * right. exists mid, m. split; [now left | reflexivity].
      * now left.
      * right. exists mid', m'. split; [now right | exact Hk].
    + intros [Hin|(mid' & m' & [Heq|Hin] & Hk)].
      * left. now right.
      * inversion Heq; subst. left. now left.
      * right. exists mid', m'. split; assumption.
Qed.

Lemma manager_loop_keys_of_roster {L R} (key : Manager -> string)
    (body : L -> Z -> result (L * R)) (api : Api) l0 l scores :
  manager_loop key body (fetch_manager_information api) l0 = Ok (l, scores) ->
  keys_of_roster key api scores.
Proof.
  intros Hrun. unfold manager_loop in Hrun.
  destruct (manager_loop_keys key body _ _ _ _ _ Hrun) as [Hnd Hkeys];
    [constructor|].
  split; [exact Hnd|]. intros k.
  rewrite (dict_get_In _ _ _ String.eqb_spec), Hkeys.
  split; [intros [[]|H]; exact H | intros H; now right].
Qed.

(** X4.  Each report that is produced has exactly one entry per distinct key
    of the roster: the manager name for the season/month report, the team
    name for the three others.  Managers who share a key share one entry. *)
Theorem report_keys_are_roster_keys (F : PyFloat) (api : Api) :
  (forall start_gw end_gw scores,
      fetch_coach_of_the_month_and_team_value api start_gw end_gw = Ok scores ->
      keys_of_roster name api scores) /\
  (forall start_gw_month end_gw_month end_gw_total scores,
      fetch_captain_bench_transfer api start_gw_month end_gw_month
        end_gw_total = Ok scores ->
      keys_of_roster team api scores) /\
  (forall start_gw_month end_gw_month end_gw_total captain_points_included
          bench_included scores,
      position_bench_goals_assists_xg_xa api start_gw_month end_gw_month
        end_gw_total captain_points_included bench_included = Ok scores ->
      keys_of_roster team api scores) /\
  (forall start_gw_month end_gw_month scores,
      least_and_most_points api start_gw_month end_gw_month = Ok scores ->
      keys_of_roster team api scores).
Proof.
  split; [|split; [|split]].
  - intros start_gw end_gw scores H.
    unfold fetch_coach_of_the_month_and_team_value in H. bind_inv H.
    destruct a as [l sc]. inversion H; subst.
    apply (manager_loop_keys_of_roster _ _ _ _ _ _ Ha).
  - intros s e t scores H.
    unfold fetch_captain_bench_transfer in H. bind_inv H.
    destruct a as [l sc]. inversion H; subst.
    apply (manager_loop_keys_of_roster _ _ _ _ _ _ Ha).
  - intros s e t cpi bi scores H.
    unfold position_bench_goals_assists_xg_xa in H. bind_inv H. bind_inv H.
    destruct a0 as [l sc]. inversion H; subst.
    apply (manager_loop_keys_of_roster _ _ _ _ _ _ Ha0).
  - intros s e scores H.
    unfold least_and_most_points in H. bind_inv H.
    destruct a as [l sc]. inversion H; subst.
    apply (manager_loop_keys_of_roster _ _ _ _ _ _ Ha).
Qed.

Lemma report_keys_are_roster_keys_witness :
  keys_of_roster name sample_api [("Alex", @Coach.Build_t Centi 35 10050 50)]
  /\ keys_of_roster team sample_api [("AlexFC", sample_captain_report)]
  /\ keys_of_roster team sample_api [("AlexFC", sample_positional_report)]
  /\ keys_of_roster team sample_api
       [("AlexFC", MinMax.Build_t (Some 5) (Some 25) (Some 5) (Some 25))].
Proof.
  destruct (report_keys_are_roster_keys Centi sample_api)
    as (Hcoach & Hcaptain & Hpositional & Hminmax).
  split; [apply (Hcoach 1 2); reflexivity|].
  split; [apply (Hcaptain 2 2 2); reflexivity|].
  split; [apply (Hpositional 2 2 2 true false); reflexivity|].
  apply (Hminmax 2 3); reflexivity.
Defined.

(** ** Season/month report: squad values and failures *)

Section CoachValues.
Context {F : PyFloat}.
Variables start_gw end_gw : Z.

End CoachValues.

Lemma for_each_Raise {S X} (body : S -> X -> result S) xs :
  forall s e,
    for_each body xs s = Raise e ->
    exists s' x, In x xs /\ body s' x = Raise e.
Proof.
  induction xs as [|x xs IH]; intros s e Hrun; [discriminate|].
  cbn [for_each] in Hrun. destruct (body s x) as [s1|e1] eqn:Hx.
  - simpl in Hrun. destruct (IH _ _ Hrun) as (s' & y & Hin & Hy).
    exists s', y. split; [now right | exact Hy].
  - simpl in Hrun. inversion Hrun; subst. exists s, x. split; [now left|].
    exact Hx.
Qed.

Lemma manager_loop_Raise {L R} (key : Manager -> string)
    (body : L -> Z -> result (L * R)) ms l0 e :
  manager_loop key body ms l0 = Raise e ->
  exists l manager_id manager,
    In (manager_id, manager) ms /\ body l manager_id = Raise e.
Proof.
  unfold manager_loop. intros Hrun.
  destruct (for_each_Raise _ _ _ _ Hrun) as ([l sc] & [mid m] & Hin & Hx).
  exists l, mid, m. split; [exact Hin|].
  destruct (body l mid) as [[l' r]|e'] eqn:Hb; simpl in Hx; [discriminate|].
  now inversion Hx.
Qed.



Section CoachFailures.
Context {F : PyFloat}.
Variable api : Api.
Variables start_gw end_gw : Z.

Lemma coach_gameweek_errors st h e :
  coach_gameweek start_gw end_gw st h = Raise e -> e = OverflowError.
Proof.
  unfold coach_gameweek, value_over_10. destruct st as [tp loc].
  destruct (in_range _ _ _); [|discriminate].
  destruct (History.event h =? start_gw), (History.event h =? end_gw);
    destruct (truediv_10 (History.value h)); simpl; intros H;
    try discriminate; now inversion H.
Qed.

Lemma coach_manager_errors loc manager_id e :
  coach_manager api start_gw end_gw loc manager_id = Raise e ->
  e = OverflowError \/ e = UnboundLocalError "end_value"
  \/ e = UnboundLocalError "start_value".
Proof.
  unfold coach_manager. intros H.
  destruct (for_each _ _ _) as [[tp loc1]|e1] eqn:Hloop; simpl in H.
  - unfold read_local in H.
    destruct (Coach.end_value loc1); simpl in H;
      [|inversion H; auto].
    destruct (Coach.start_value loc1); simpl in H;
      [discriminate | inversion H; auto].
  - inversion H; subst. left.
    destruct (for_each_Raise _ _ _ _ Hloop) as (s' & h & _ & Hh).
    now apply coach_gameweek_errors in Hh.
Qed.

Lemma coach_empty_window history :
  end_gw < start_gw ->
  forall st, for_each (coach_gameweek start_gw end_gw) history st = Ok st.
Proof.
  intros Hlt. induction history as [|h history IH]; intros st; [reflexivity|].
  cbn [for_each]. unfold coach_gameweek at 1. destruct st as [tp loc].
  rewrite in_range_window. unfold in_window.
  destruct (Z.leb_spec start_gw (History.event h)),
    (Z.leb_spec (History.event h) end_gw); try lia; simpl; apply IH.
Qed.
End CoachFailures.

(** X6.  The season/month report can only end in [OverflowError] (a squad
    value too large for a float) or in [UnboundLocalError] on [end_value] or
    [start_value]; and when the range is empty ([end_gw < start_gw]) and the
    roster is not, it always ends in [UnboundLocalError] on [end_value]. *)
Theorem coach_report_failures (F : PyFloat) (api : Api) (start_gw end_gw : Z) :
  (forall e,
      fetch_coach_of_the_month_and_team_value api start_gw end_gw = Raise e ->
      e = OverflowError \/ e = UnboundLocalError "end_value"
      \/ e = UnboundLocalError "start_value") /\
  (end_gw < start_gw ->
   fetch_manager_information api <> [] ->
   fetch_coach_of_the_month_and_team_value api start_gw end_gw
   = Raise (UnboundLocalError "end_value")).
Proof.
  unfold fetch_coach_of_the_month_and_team_value. split.
  - intros e Hrun.
    destruct (manager_loop _ _ _ _) as [[l sc]|e1] eqn:Hloop; simpl in Hrun;
      [discriminate|]. inversion Hrun; subst.
    destruct (manager_loop_Raise _ _ _ _ _ Hloop) as (l & mid & m & _ & Hb).
    now apply coach_manager_errors in Hb.
  - intros Hlt Hroster.
    destruct (fetch_manager_information api) as [|[mid m] ms];
      [contradiction|].
    unfold manager_loop. cbn [for_each]. unfold coach_manager at 1.
    rewrite coach_empty_window by exact Hlt. reflexivity.
Qed.

Lemma coach_report_failures_witness :
  (UnboundLocalError "end_value" = OverflowError
   \/ UnboundLocalError "end_value" = UnboundLocalError "end_value"
   \/ UnboundLocalError "end_value" = UnboundLocalError "start_value") /\
  fetch_coach_of_the_month_and_team_value (F := Centi) sample_api 2 1
  = Raise (UnboundLocalError "end_value").
Proof.
  destruct (coach_report_failures Centi sample_api 2 1) as [Honly Hempty].
  split.
  - apply Honly. reflexivity.
  - apply Hempty; [lia | discriminate].
Defined.

(** ** Captain report: when it fails and what an unflagged gameweek does *)

Lemma py_range_cons a b : a < b -> py_range a b = a :: py_range (a + 1) b.
Proof.
  intros Hlt. unfold py_range.
  replace (Z.to_nat (b - a)) with (S (Z.to_nat (b - (a + 1)))) by lia.
  cbn [seq map]. f_equal; [lia|].
  rewrite <- seq_shift, map_map. apply map_ext. intros i. lia.
Qed.

Lemma py_range_empty a b : b <= a -> py_range a b = [].
Proof.
  intros Hle. unfold py_range.
  replace (Z.to_nat (b - a)) with 0%nat by lia. reflexivity.
Qed.

Lemma filter_all_true {A} (f : A -> bool) xs :
  (forall x, In x xs -> f x = true) -> filter f xs = xs.
Proof.
  induction xs as [|x xs IH]; intros H; [reflexivity|]. simpl.
  rewrite (H x) by now left. f_equal. apply IH. intros y Hy. apply H.
  now right.
Qed.

(** A manager loop whose body cannot fail on the locals it meets. *)
Lemma manager_loop_succeeds {L R} (key : Manager -> string)
    (body : L -> Z -> result (L * R)) (P : L -> Prop) ms :
  (forall l manager_id,
      P l -> exists l' r, body l manager_id = Ok (l', r) /\ P l') ->
  forall l0 (sc0 : dict string R),
    P l0 ->
    exists l scores,
      for_each
        (fun '(locals, scores) '(manager_id, manager) =>
           '(locals', report) <- body locals manager_id ;;
           Ok (locals', dict_set String.eqb (key manager) report scores))
        ms (l0, sc0) = Ok (l, scores).
Proof.
  intros Hbody. induction ms as [|[mid m] ms IH]; intros l0 sc0 Hl0.
  - exists l0, sc0. reflexivity.
  - cbn [for_each]. destruct (Hbody l0 mid Hl0) as (l1 & r & Hb & Hl1).
    rewrite Hb. simpl. apply IH. exact Hl1.
Qed.

Lemma manager_loop_total {L R} (key : Manager -> string)
    (body : L -> Z -> result (L * R)) (P : L -> Prop) ms l0 :
  (forall l manager_id,
      P l -> exists l' r, body l manager_id = Ok (l', r) /\ P l') ->
  P l0 ->
  exists l scores, manager_loop key body ms l0 = Ok (l, scores).
Proof.
  intros Hbody Hl0. unfold manager_loop.
  now apply manager_loop_succeeds with P.
Qed.

Lemma manager_loop_after_first {L R} (key : Manager -> string)
    (body : L -> Z -> result (L * R)) (P : L -> Prop) mid m ms l0 l1 r :
  (forall l manager_id,
      P l -> exists l' r, body l manager_id = Ok (l', r) /\ P l') ->
  body l0 mid = Ok (l1, r) ->
  P l1 ->
  exists l scores, manager_loop key body ((mid, m) :: ms) l0 = Ok (l, scores).
Proof.
  intros Hbody Hfirst Hl1. unfold manager_loop. cbn [for_each].
  rewrite Hfirst. cbn [bind].
  now apply manager_loop_succeeds with P.
Qed.

Lemma manager_loop_first_fails {L R} (key : Manager -> string)
    (body : L -> Z -> result (L * R)) mid m ms l0 e :
  body l0 mid = Raise e ->
  manager_loop key body ((mid, m) :: ms) l0 = Raise e.
Proof.
  intros Hfirst. unfold manager_loop. cbn [for_each]. now rewrite Hfirst.
Qed.

Section CaptainFailures.
Variable api : Api.
Variables start_gw_month end_gw_month : Z.

Lemma captain_gameweek_resolved manager_id captain sc gw :
  captain_gameweek api start_gw_month end_gw_month manager_id (captain, sc) gw
  = match find_captain (Picks.picks (manager_picks api manager_id gw)) captain
    with
    | Some c =>
        Ok (Some c,
            entry_step start_gw_month end_gw_month gw
              (fold_left (captain_fixture_step start_gw_month end_gw_month)
                 (element_summary api c) sc)
              (Picks.entry_history (manager_picks api manager_id gw)))
    | None => Raise (UnboundLocalError "captain")
    end.
Proof.
  unfold captain_gameweek.
  destruct (find_captain _ captain); reflexivity.
Qed.

Lemma captain_gameweeks_from_some manager_id gws :
  forall c sc,
  exists c' sc',
    for_each (captain_gameweek api start_gw_month end_gw_month manager_id)
      gws (Some c, sc) = Ok (Some c', sc').
Proof.
  induction gws as [|gw gws IH]; intros c sc; [now exists c, sc|].
  cbn [for_each]. rewrite captain_gameweek_resolved, find_captain_last.
  destruct (captain_of _) as [c1|]; simpl; apply IH.
Qed.

Lemma captain_month_empty_window manager_id gws :
  end_gw_month < start_gw_month ->
  forall captain sc captain' sc',
    for_each (captain_gameweek api start_gw_month end_gw_month manager_id)
      gws (captain, sc) = Ok (captain', sc') ->
    Captain.captain_points_month sc' = Captain.captain_points_month sc.
Proof.
  intros Hlt.
  induction gws as [|gw gws IH]; intros captain sc captain' sc' Hrun.
  - simpl in Hrun. now inversion Hrun.
  - cbn [for_each] in Hrun. bind_inv Hrun. destruct a as [c1 sc1].
    rewrite (IH _ _ _ _ Hrun).
    rewrite captain_gameweek_resolved in Ha.
    destruct (find_captain _ captain) as [c|]; [|discriminate].
    inversion Ha; subst. rewrite captain_fixture_fold. simpl.
    unfold month_fixture_points.
    rewrite filter_all_false; [unfold fixture_points; simpl; lia|].
    intros f _. unfold in_window.
    destruct (Z.leb_spec start_gw_month (Fixture.round f)),
      (Z.leb_spec (Fixture.round f) end_gw_month); try reflexivity; lia.
Qed.
End CaptainFailures.

(** X7.  The captain report fails in one situation only: the roster is not
    empty, at least one gameweek is iterated and no pick of the first
    manager's first gameweek is flagged; the exception is then
    [UnboundLocalError] on [captain].  In every other case a report comes
    out, whatever later gameweeks and managers flag. *)
Theorem captain_report_fails_only_at_the_start (api : Api)
    (start_gw_month end_gw_month end_gw_total : Z) :
  match first_picks api with
  | None =>
      fetch_captain_bench_transfer api start_gw_month end_gw_month
        end_gw_total = Ok []
  | Some picks =>
      if end_gw_total <? 1 then
        exists scores,
          fetch_captain_bench_transfer api start_gw_month end_gw_month
            end_gw_total = Ok scores
      else
        match captain_of picks with
        | Some _ =>
            exists scores,
              fetch_captain_bench_transfer api start_gw_month end_gw_month
                end_gw_total = Ok scores
        | None =>
            fetch_captain_bench_transfer api start_gw_month end_gw_month
              end_gw_total = Raise (UnboundLocalError "captain")
        end
  end.
Proof.
  unfold first_picks, fetch_captain_bench_transfer.
  destruct (fetch_manager_information api) as [|[mid m] ms]; [reflexivity|].
  assert (Hsome : forall l manager_id,
            (exists c0, l = Some c0) ->
            exists l' r,
              captain_manager api start_gw_month end_gw_month end_gw_total
                l manager_id = Ok (l', r) /\ exists c1, l' = Some c1).
  { intros l manager_id (c0 & ->). unfold captain_manager.
    destruct (captain_gameweeks_from_some api start_gw_month
                end_gw_month manager_id (py_range 1 (end_gw_total + 1))
                c0 Captain.init) as (c1 & sc1 & H1).
    exists (Some c1), sc1. split; [exact H1 | now exists c1]. }
  destruct (Z.ltb_spec end_gw_total 1) as [Hlt|Hge].
  - destruct (manager_loop_total team
                (captain_manager api start_gw_month end_gw_month end_gw_total)
                (fun _ => True) ((mid, m) :: ms) None) as (l & scores & Hrun).
    + intros l manager_id _. unfold captain_manager.
      rewrite py_range_empty by lia. simpl. eauto.
    + exact I.
    + exists scores. now rewrite Hrun.
  - assert (Hfirst :
      captain_manager api start_gw_month end_gw_month end_gw_total None mid
      = match captain_of (Picks.picks (manager_picks api mid 1)) with
        | Some c =>
            for_each
              (captain_gameweek api start_gw_month end_gw_month mid)
              (py_range (1 + 1) (end_gw_total + 1))
              (Some c,
               entry_step start_gw_month end_gw_month 1
                 (fold_left
                    (captain_fixture_step start_gw_month end_gw_month)
                    (element_summary api c) Captain.init)
                 (Picks.entry_history (manager_picks api mid 1)))
        | None => Raise (UnboundLocalError "captain")
        end).
    { unfold captain_manager. rewrite py_range_cons by lia. cbn [for_each].
      rewrite captain_gameweek_resolved, find_captain_last.
      destruct (captain_of _); reflexivity. }
    destruct (captain_of (Picks.picks (manager_picks api mid 1)))
      as [c|] eqn:Hcap.
    + destruct (captain_gameweeks_from_some api start_gw_month end_gw_month
                  mid (py_range (1 + 1) (end_gw_total + 1)) c
                  (entry_step start_gw_month end_gw_month 1
                     (fold_left
                        (captain_fixture_step start_gw_month end_gw_month)
                        (element_summary api c) Captain.init)
                     (Picks.entry_history (manager_picks api mid 1))))
        as (c' & sc' & Hrest).
      rewrite Hrest in Hfirst.
      destruct (manager_loop_after_first team
                  (captain_manager api start_gw_month end_gw_month
                     end_gw_total)
                  (fun l => exists c0, l = Some c0) mid m ms None (Some c')
                  sc' Hsome Hfirst) as (l & scores & Hrun);
        [now exists c'|].
      exists scores. now rewrite Hrun.
    + rewrite (manager_loop_first_fails team _ mid m ms None _ Hfirst).
      reflexivity.
Qed.

(** X8.  A gameweek in which no pick is flagged is processed with the
    captain the variable already holds, exactly as if that player were the
    gameweek's captain; it fails, with [UnboundLocalError] on [captain],
    only when the variable holds nothing yet. *)
Theorem unflagged_gameweek_keeps_captain (api : Api)
    (start_gw_month end_gw_month manager_id : Z) (captain : option Z)
    (sc : Captain.t) (gw : Z) :
  captain_of (Picks.picks (manager_picks api manager_id gw)) = None ->
  captain_gameweek api start_gw_month end_gw_month manager_id (captain, sc) gw
  = match captain with
    | Some c =>
        Ok (Some c,
            entry_step start_gw_month end_gw_month gw
              (fold_left (captain_fixture_step start_gw_month end_gw_month)
                 (element_summary api c) sc)
              (Picks.entry_history (manager_picks api manager_id gw)))
    | None => Raise (UnboundLocalError "captain")
    end.
Proof.
  intros Hcap. rewrite captain_gameweek_resolved, find_captain_last, Hcap.
  reflexivity.
Qed.

Lemma unflagged_gameweek_keeps_captain_witness :
  captain_gameweek sample_no_captain_gw2 2 2 7 (Some 3, Captain.init) 2
  = Ok (Some 3,
        entry_step 2 2 2
          (fold_left (captain_fixture_step 2 2)
             (element_summary sample_no_captain_gw2 3) Captain.init)
          (Picks.entry_history (manager_picks sample_no_captain_gw2 7 2))).
Proof.
  apply (unflagged_gameweek_keeps_captain sample_no_captain_gw2 2 2 7
           (Some 3) Captain.init 2).
  reflexivity.
Defined.

(** X9.  In a captain report that is produced, an empty month window
    ([end_gw_month < start_gw_month]) leaves the three month figures at 0,
    and a window that covers every iterated gameweek
    ([start_gw_month <= 1] and [end_gw_total <= end_gw_month]) makes the
    month bench points and transfers equal to the totals. *)
Theorem captain_month_window_edges (api : Api)
    (start_gw_month end_gw_month end_gw_total : Z)
    (scores : dict string Captain.t) (team_name : string) (r : Captain.t) :
  fetch_captain_bench_transfer api start_gw_month end_gw_month end_gw_total
  = Ok scores ->
  dict_get String.eqb team_name scores = Some r ->
  (end_gw_month < start_gw_month ->
   Captain.points_on_bench_month r = 0 /\
   Captain.number_of_transfers_month r = 0 /\
   Captain.captain_points_month r = 0) /\
  (start_gw_month <= 1 -> end_gw_total <= end_gw_month ->
   Captain.points_on_bench_month r = Captain.points_on_bench_total r /\
   Captain.number_of_transfers_month r = Captain.number_of_transfers_total r).
Proof.
  intros Hrun Hget.
  destruct (captain_entry_window_sums _ _ _ _ _ _ _ Hrun Hget)
    as (mid & m & _ & _ & [Hbt Hbm] & [Htt Htm] & _).
  split.
  - intros Hlt.
    assert (Hnone : filter (fun c : Z * EntryHistory.t =>
                              in_window start_gw_month end_gw_month (fst c))
                      (entries api mid (py_range 1 (end_gw_total + 1))) = []).
    { apply filter_all_false. intros x _. unfold in_window.
      destruct (Z.leb_spec start_gw_month (fst x)),
        (Z.leb_spec (fst x) end_gw_month); try reflexivity; lia. }
    rewrite Hnone in Hbm, Htm. split; [exact Hbm|]. split; [exact Htm|].
    unfold fetch_captain_bench_transfer in Hrun.
    bind_inv Hrun. destruct a as [l sc]. inversion Hrun; subst.
    destruct (manager_loop_entry _ _ _ _ _ _ _ _ Ha Hget)
      as (mid' & m' & li & lo & _ & _ & Hb).
    apply (captain_month_empty_window _ _ _ _ _ Hlt) in Hb. exact Hb.
  - intros Hs He.
    assert (Hall : filter (fun c : Z * EntryHistory.t =>
                             in_window start_gw_month end_gw_month (fst c))
                     (entries api mid (py_range 1 (end_gw_total + 1)))
                   = entries api mid (py_range 1 (end_gw_total + 1))).
    { apply filter_all_true. intros x Hx. unfold entries in Hx.
      apply in_map_iff in Hx. destruct Hx as (gw & <- & Hgw).
      apply py_range_In in Hgw. simpl. unfold in_window.
      destruct (Z.leb_spec start_gw_month gw), (Z.leb_spec gw end_gw_month);
        try reflexivity; lia. }
    rewrite Hall in Hbm, Htm. split; congruence.
Qed.

Lemma captain_month_window_edges_witness :
  Captain.points_on_bench_month (Captain.Build_t 5 5 1 1 80 80)
  = Captain.points_on_bench_total (Captain.Build_t 5 5 1 1 80 80) /\
  Captain.number_of_transfers_month (Captain.Build_t 5 5 1 1 80 80)
  = Captain.number_of_transfers_total (Captain.Build_t 5 5 1 1 80 80).
Proof.
  apply (proj2 (captain_month_window_edges sample_api 1 2 2
                  [("AlexFC", Captain.Build_t 5 5 1 1 80 80)] "AlexFC"
                  (Captain.Build_t 5 5 1 1 80 80) eq_refl eq_refl)); lia.
Defined.

(** ** Positional report: the captain flag and the failures *)

Lemma for_each_ext_In {S X} (f g : S -> X -> result S) xs :
  (forall x, In x xs -> forall s, f s x = g s x) ->
  forall s, for_each f xs s = for_each g xs s.
Proof.
  induction xs as [|x xs IH]; intros Hext s; [reflexivity|].
  cbn [for_each]. rewrite (Hext x) by now left.
  destruct (g s x); simpl; [|reflexivity].
  apply IH. intros y Hy. apply Hext. now right.
Qed.

Lemma for_each_map {S X Y} (body : S -> Y -> result S) (f : X -> Y) xs :
  forall s,
    for_each body (map f xs) s = for_each (fun s x => body s (f x)) xs s.
Proof.
  induction xs as [|x xs IH]; intros s; [reflexivity|].
  simpl. destruct (body s (f x)); simpl; [apply IH | reflexivity].
Qed.

Lemma manager_loop_ext_In {L R} (key : Manager -> string)
    (f g : L -> Z -> result (L * R)) ms l0 :
  (forall manager_id manager,
      In (manager_id, manager) ms ->
      forall l, f l manager_id = g l manager_id) ->
  manager_loop key f ms l0 = manager_loop key g ms l0.
Proof.
  intros Hext. unfold manager_loop. apply for_each_ext_In.
  intros [mid m] Hin [l sc]. now rewrite (Hext mid m Hin).
Qed.

Section CaptainFlag.
Context {F : PyFloat}.
Variable api : Api.
Variables start_gw_month end_gw_month end_gw_total : Z.
Variable bench_included : bool.
Variable player_collection : dict Z Player.

Lemma process_pick_demote gw sc pick :
  process_pick api start_gw_month end_gw_month false bench_included
    player_collection gw sc pick
  = process_pick (demote_captains api) start_gw_month end_gw_month true
      bench_included player_collection gw sc (demote pick).
Proof.
  unfold process_pick, demote, captain_multiplier.
  destruct (Z.eqb_spec (Pick.multiplier pick) 2) as [E|N]; simpl.
  - reflexivity.
  - destruct (Z.eqb_spec (Pick.multiplier pick) 2); [contradiction|].
    reflexivity.
Qed.

Lemma process_pick_no_captain gw sc pick :
  Pick.multiplier pick <> 2 ->
  process_pick api start_gw_month end_gw_month true bench_included
    player_collection gw sc pick
  = process_pick api start_gw_month end_gw_month false bench_included
      player_collection gw sc pick.
Proof.
  intros Hne. unfold process_pick, captain_multiplier.
  destruct (Z.eqb_spec (Pick.multiplier pick) 2); [contradiction|].
  reflexivity.
Qed.

Lemma position_manager_demote u manager_id :
  position_manager api start_gw_month end_gw_month end_gw_total false
    bench_included player_collection u manager_id
  = position_manager (demote_captains api) start_gw_month end_gw_month
      end_gw_total true bench_included player_collection u manager_id.
Proof.
  unfold position_manager, position_gameweeks. f_equal.
  apply for_each_ext_In. intros gw _ sc. unfold position_gameweek.
  cbn [demote_captains manager_picks Picks.picks].
  rewrite for_each_map. apply for_each_ext_In. intros pick _ sc'.
  apply process_pick_demote.
Qed.

Lemma position_manager_no_captain u manager_id :
  (forall gw pick,
      1 <= gw <= end_gw_total ->
      In pick (Picks.picks (manager_picks api manager_id gw)) ->
      Pick.multiplier pick <> 2) ->
  position_manager api start_gw_month end_gw_month end_gw_total true
    bench_included player_collection u manager_id
  = position_manager api start_gw_month end_gw_month end_gw_total false
      bench_included player_collection u manager_id.
Proof.
  intros Hno. unfold position_manager, position_gameweeks. f_equal.
  apply for_each_ext_In. intros gw Hgw sc. apply py_range_In in Hgw.
  unfold position_gameweek. apply for_each_ext_In. intros pick Hpick sc'.
  apply process_pick_no_captain. apply (Hno gw pick); [lia | exact Hpick].
Qed.
End CaptainFlag.

(** X10.  Switching [captain_points_included] off gives exactly the report
    that switching it on gives for the same data with every multiplier 2
    replaced by 1: only a multiplier of exactly 2 loses its bonus, a triple
    captain's 3 stays 3. *)
Theorem captain_flag_off_is_demoted_squads (F : PyFloat) (api : Api)
    (start_gw_month end_gw_month end_gw_total : Z) (bench_included : bool) :
  position_bench_goals_assists_xg_xa api start_gw_month end_gw_month
    end_gw_total false bench_included
  = position_bench_goals_assists_xg_xa (demote_captains api) start_gw_month
      end_gw_month end_gw_total true bench_included.
Proof.
  unfold position_bench_goals_assists_xg_xa.
  change (fetch_manager_information (demote_captains api))
    with (fetch_manager_information api).
  change (update_player_collection (demote_captains api))
    with (update_player_collection api).
  destruct (update_player_collection api) as [pc|e]; simpl; [|reflexivity].
  rewrite (manager_loop_ext_In team
             (position_manager api start_gw_month end_gw_month end_gw_total
                false bench_included pc)
             (position_manager (demote_captains api) start_gw_month
                end_gw_month end_gw_total true bench_included pc)).
  - reflexivity.
  - intros mid m _ u. apply position_manager_demote.
Qed.

(** X11.  When no pick of any roster manager in the iterated gameweeks has
    multiplier 2, the positional report does not depend on
    [captain_points_included]. *)
Theorem captain_flag_irrelevant_without_captains (F : PyFloat) (api : Api)
    (start_gw_month end_gw_month end_gw_total : Z) (bench_included : bool) :
  (forall manager_id manager gw pick,
      In (manager_id, manager) (fetch_manager_information api) ->
      1 <= gw <= end_gw_total ->
      In pick (Picks.picks (manager_picks api manager_id gw)) ->
      Pick.multiplier pick <> 2) ->
  position_bench_goals_assists_xg_xa api start_gw_month end_gw_month
    end_gw_total true bench_included
  = position_bench_goals_assists_xg_xa api start_gw_month end_gw_month
      end_gw_total false bench_included.
Proof.
  intros Hno. unfold position_bench_goals_assists_xg_xa.
  destruct (update_player_collection api) as [pc|e]; simpl; [|reflexivity].
  rewrite (manager_loop_ext_In team
             (position_manager api start_gw_month end_gw_month end_gw_total
                true bench_included pc)
             (position_manager api start_gw_month end_gw_month end_gw_total
                false bench_included pc)).
  - reflexivity.
  - intros mid m Hin u. apply position_manager_no_captain.
    intros gw pick Hgw Hpick. apply (Hno mid m gw pick); assumption.
Qed.

Lemma captain_flag_irrelevant_without_captains_witness :
  position_bench_goals_assists_xg_xa (F := Centi)
    (demote_captains sample_api) 1 1 2 true false
  = position_bench_goals_assists_xg_xa (F := Centi)
      (demote_captains sample_api) 1 1 2 false false.
Proof.
  apply (captain_flag_irrelevant_without_captains Centi
           (demote_captains sample_api) 1 1 2 false).
  intros mid m gw p _ _ Hin. simpl in Hin.
  destruct (gw =? 1); simpl in Hin;
    destruct Hin as [<-|[<-|[<-|[]]]]; discriminate.
Defined.

Section PositionalFailures.
Context {F : PyFloat}.
Variable api : Api.
Variables start_gw_month end_gw_month end_gw_total : Z.
Variables captain_points_included bench_included : bool.

Lemma py_index_errors {A} (xs : list A) i e :
  py_index xs i = Raise e -> e = IndexError.
Proof.
  unfold py_index. destruct (_ <? 0); [intros H; now inversion H|].
  destruct (nth_error _ _); intros H; [discriminate | now inversion H].
Qed.

Lemma process_pick_errors player_collection gw sc pick e :
  process_pick api start_gw_month end_gw_month captain_points_included
    bench_included player_collection gw sc pick = Raise e ->
  e = KeyError \/ e = IndexError \/ e = ValueError.
Proof.
  rewrite process_pick_row. unfold resolve_pick, dict_item, py_float.
  destruct (dict_get _ _ _); simpl; [|intros H; inversion H; auto].
  destruct (py_index _ _) eqn:Hidx; simpl;
    [|intros H; inversion H; subst; apply py_index_errors in Hidx; auto].
  destruct (final_multiplier _ _ _ =? 0); simpl; [discriminate|].
  destruct (float_of_str (Fixture.expected_goals a)); simpl;
    [|intros H; inversion H; auto].
  destruct (float_of_str (Fixture.expected_assists a)); simpl;
    [discriminate | intros H; inversion H; auto].
Qed.

Lemma position_manager_errors player_collection u manager_id e :
  position_manager api start_gw_month end_gw_month end_gw_total
    captain_points_included bench_included player_collection u manager_id
  = Raise e ->
  e = KeyError \/ e = IndexError \/ e = ValueError.
Proof.
  unfold position_manager, position_gameweeks. intros H.
  destruct (for_each _ _ _) as [sc|e1] eqn:Hloop; simpl in H;
    [discriminate|]. inversion H; subst.
  destruct (for_each_Raise _ _ _ _ Hloop) as (sc & gw & _ & Hgw).
  unfold position_gameweek in Hgw.
  destruct (for_each_Raise _ _ _ _ Hgw) as (sc' & pick & _ & Hpick).
  now apply process_pick_errors in Hpick.
Qed.

(** A pick that fails whatever the accumulators are makes the report fail. *)
Lemma failing_pick_fails_report manager_id manager gw pick :
  In (manager_id, manager) (fetch_manager_information api) ->
  1 <= gw <= end_gw_total ->
  In pick (Picks.picks (manager_picks api manager_id gw)) ->
  (forall pc sc,
      update_player_collection api = Ok pc ->
      exists e,
        process_pick api start_gw_month end_gw_month captain_points_included
          bench_included pc gw sc pick = Raise e) ->
  exists e,
    position_bench_goals_assists_xg_xa api start_gw_month end_gw_month
      end_gw_total captain_points_included bench_included
    = Raise e.
Proof.
  intros Hin Hgw Hpick Hfails.
  unfold position_bench_goals_assists_xg_xa.
  destruct (update_player_collection api) as [pc|e] eqn:Hpc; simpl;
    [|now exists e].
  assert (Hmanager : forall u, exists e,
            position_manager api start_gw_month end_gw_month end_gw_total
              captain_points_included bench_included pc u manager_id
            = Raise e).
  { intros u. unfold position_manager, position_gameweeks.
    destruct (for_each_raise
                (position_gameweek api start_gw_month end_gw_month
                   captain_points_included bench_included pc manager_id)
                (py_range 1 (end_gw_total + 1)) gw) with (s := Positional.init)
      as (e & He).
    - apply py_range_In. lia.
    - intros sc. unfold position_gameweek.
      apply for_each_raise with pick; [exact Hpick|].
      intros sc'. now apply Hfails.
    - exists e. now rewrite He. }
  unfold manager_loop.
  destruct (for_each_raise
              (fun '(locals, scores) '(manager_id, manager) =>
                 '(locals', report) <-
                   position_manager api start_gw_month end_gw_month
                     end_gw_total captain_points_included bench_included pc
                     locals manager_id ;;
                 Ok (locals', dict_set String.eqb (team manager) report scores))
              (fetch_manager_information api) (manager_id, manager))
    with (s := (tt, @nil (string * Positional.t))) as (e & He).
  - exact Hin.
  - intros [u scores]. destruct (Hmanager u) as (e & He).
    exists e. now rewrite He.
  - exists e. now rewrite He.
Qed.
End PositionalFailures.

(** X12.  The positional report can only end in [KeyError], [IndexError] or
    [ValueError].  It ends in [KeyError] before any manager is looked at
    when some bootstrap element has an unknown [element_type], and it never
    produces a report when a roster manager picked, in an iterated gameweek,
    an element that the bootstrap list does not contain. *)
Theorem positional_report_failures (F : PyFloat) (api : Api)
    (start_gw_month end_gw_month end_gw_total : Z)
    (captain_points_included bench_included : bool) :
  (forall e,
      position_bench_goals_assists_xg_xa api start_gw_month end_gw_month
        end_gw_total captain_points_included bench_included = Raise e ->
      e = KeyError \/ e = IndexError \/ e = ValueError) /\
  (~ Forall known_type (bootstrap_elements api) ->
   position_bench_goals_assists_xg_xa api start_gw_month end_gw_month
     end_gw_total captain_points_included bench_included = Raise KeyError) /\
  (forall manager_id manager gw pick,
      In (manager_id, manager) (fetch_manager_information api) ->
      1 <= gw <= end_gw_total ->
      In pick (Picks.picks (manager_picks api manager_id gw)) ->
      last_element (Pick.element pick) (bootstrap_elements api) = None ->
      exists e,
        position_bench_goals_assists_xg_xa api start_gw_month end_gw_month
          end_gw_total captain_points_included bench_included = Raise e).
Proof.
  split; [|split].
  - intros e Hrun. unfold position_bench_goals_assists_xg_xa in Hrun.
    destruct (update_player_collection api) as [pc|e1] eqn:Hpc;
      simpl in Hrun.
    + destruct (manager_loop _ _ _ _) as [[u sc]|e2] eqn:Hloop;
        simpl in Hrun; [discriminate|]. inversion Hrun; subst.
      destruct (manager_loop_Raise _ _ _ _ _ Hloop) as (u & mid & m & _ & Hb).
      now apply position_manager_errors in Hb.
    + inversion Hrun; subst. left.
      unfold update_player_collection in Hpc.
      now apply player_loop_fails in Hpc.
  - intros Hnot. unfold position_bench_goals_assists_xg_xa.
    destruct (update_player_collection api) as [pc|e1] eqn:Hpc; simpl.
    + exfalso. apply Hnot. unfold update_player_collection in Hpc.
      now apply player_loop_known in Hpc.
    + f_equal. unfold update_player_collection in Hpc.
      now apply player_loop_fails in Hpc.
  - intros mid m gw pick Hin Hgw Hpick Hmissing.
    apply (failing_pick_fails_report api _ _ _ _ _ mid m gw pick Hin Hgw Hpick).
    intros pc sc Hpc. exists KeyError.
    unfold process_pick, dict_item. unfold update_player_collection in Hpc.
    rewrite (player_loop_lookup _ _ _ (Pick.element pick) Hpc), Hmissing.
    reflexivity.
Qed.

Lemma positional_report_failures_witness :
  (IndexError = KeyError \/ IndexError = IndexError
   \/ IndexError = ValueError) /\
  position_bench_goals_assists_xg_xa (F := Centi) sample_unknown_type
    1 1 1 true false = Raise KeyError /\
  exists e,
    position_bench_goals_assists_xg_xa (F := Centi) sample_unknown_type
      1 1 1 true false = Raise e.
Proof.
  split; [|split].
  - apply (proj1 (positional_report_failures Centi sample_api 1 1 3
                    true false)).
    reflexivity.
  - apply (proj1 (proj2 (positional_report_failures Centi sample_unknown_type
                           1 1 1 true false))).
    intros Hall. inversion Hall as [|? ? Hel _]; subst.
    unfold known_type in Hel. simpl in Hel. lia.
  - apply (proj2 (proj2 (positional_report_failures Centi sample_unknown_type
                           1 1 1 true false))
             7 {| name := "Alex"; team := "AlexFC" |} 1 (pick 3 2 true));
      [now left | lia | now left | reflexivity].
Defined.

(** ** Min/max report: failures and bounds *)

Section MinMaxFailures.
Variables start_gw_month end_gw_month : Z.

Lemma least_most_gameweek_errors ms x e :
  least_most_gameweek start_gw_month end_gw_month ms x = Raise e ->
  e = TypeError.
Proof.
  destruct ms as [a b c d]. rewrite step_cells. cbv zeta.
  destruct (History.event x >? 1); [|discriminate].
  destruct (if History.event x =? 1 then _ else a);
    [|intros H; now inversion H].
  destruct (if History.event x =? 1 then _ else b);
    [|intros H; now inversion H].
  destruct (in_window _ _ _); [|discriminate].
  destruct (if History.event x =? start_gw_month then _ else c);
    [|intros H; now inversion H].
  destruct (if History.event x =? start_gw_month then _ else d);
    [discriminate | intros H; now inversion H].
Qed.

Lemma least_most_history_errors history e :
  least_most_history start_gw_month end_gw_month history = Raise e ->
  e = TypeError.
Proof.
  unfold least_most_history. intros H.
  destruct (for_each_Raise _ _ _ _ H) as (ms & x & _ & Hx).
  now apply least_most_gameweek_errors in Hx.
Qed.

Lemma least_most_history_late h rest :
  1 < History.event h ->
  least_most_history start_gw_month end_gw_month (h :: rest)
  = Raise TypeError.
Proof.
  intros Hlate. unfold least_most_history. cbn [for_each].
  unfold MinMax.init. rewrite step_cells. cbv zeta.
  rewrite Z.gtb_ltb.
  destruct (Z.ltb_spec 1 (History.event h)); [|lia].
  destruct (Z.eqb_spec (History.event h) 1); [lia|]. reflexivity.
Qed.

(** The bounds from a state on, over entries none of which has event > 1. *)
Lemma least_most_early_entries history :
  Forall (fun h => History.event h <= 1) history ->
  forall a c,
    for_each (least_most_gameweek start_gw_month end_gw_month) history
      (MinMax.Build_t a a c c)
    = Ok (MinMax.Build_t
            (match last_with_event 1 history with
             | Some h => Some (History.total_points h)
             | None => a
             end)
            (match last_with_event 1 history with
             | Some h => Some (History.total_points h)
             | None => a
             end)
            (match last_with_event start_gw_month history with
             | Some h => Some (History.total_points h)
             | None => c
             end)
            (match last_with_event start_gw_month history with
             | Some h => Some (History.total_points h)
             | None => c
             end)).
Proof.
  unfold last_with_event.
  induction 1 as [|h history Hh _ IH]; intros a c; [reflexivity|].
  cbn [for_each]. rewrite step_cells. cbv zeta. rewrite Z.gtb_ltb.
  destruct (Z.ltb_spec 1 (History.event h)); [lia|]. cbn [bind].
  rewrite IH. simpl rev. rewrite !find_snoc.
  destruct (find _ (rev history)), (find _ (rev history));
    destruct (History.event h =? 1), (History.event h =? start_gw_month);
    reflexivity.
Qed.
End MinMaxFailures.

(** X13.  The min/max report can only end in [TypeError], and it does so
    whenever some roster manager's history begins with an entry whose event
    is greater than 1 (a manager who joined after gameweek 1): its
    [total_points] is compared with bounds that are still [None]. *)
Theorem min_max_report_fails_for_late_joiner (api : Api)
    (start_gw_month end_gw_month : Z) :
  (forall e,
      least_and_most_points api start_gw_month end_gw_month = Raise e ->
      e = TypeError) /\
  (forall manager_id manager h rest,
      In (manager_id, manager) (fetch_manager_information api) ->
      manager_history api manager_id = h :: rest ->
      1 < History.event h ->
      least_and_most_points api start_gw_month end_gw_month
      = Raise TypeError).
Proof.
  assert (Honly : forall e,
            least_and_most_points api start_gw_month end_gw_month = Raise e ->
            e = TypeError).
  { intros e Hrun. unfold least_and_most_points in Hrun.
    destruct (manager_loop _ _ _ _) as [[u sc]|e1] eqn:Hloop; simpl in Hrun;
      [discriminate|]. inversion Hrun; subst.
    destruct (manager_loop_Raise _ _ _ _ _ Hloop) as (u & mid & m & _ & Hb).
    unfold least_most_manager in Hb.
    destruct (least_most_history _ _ _) eqn:Hh; simpl in Hb;
      [discriminate|]. inversion Hb; subst.
    now apply least_most_history_errors in Hh. }
  split; [exact Honly|].
  intros mid m h rest Hin Hhist Hlate.
  assert (Hraise : exists e,
            least_and_most_points api start_gw_month end_gw_month = Raise e).
  { unfold least_and_most_points, manager_loop.
    destruct (for_each_raise
                (fun '(locals, scores) '(manager_id, manager) =>
                   '(locals', report) <-
                     least_most_manager api start_gw_month end_gw_month
                       locals manager_id ;;
                   Ok (locals',
                       dict_set String.eqb (team manager) report scores))
                (fetch_manager_information api) (mid, m))
      with (s := (tt, @nil (string * MinMax.t))) as (e & He).
    - exact Hin.
    - intros [u sc]. exists TypeError. unfold least_most_manager.
      rewrite Hhist, least_most_history_late by exact Hlate. reflexivity.
    - exists e. now rewrite He. }
  destruct Hraise as (e & He). rewrite He. f_equal. now apply Honly.
Qed.

Lemma min_max_report_fails_for_late_joiner_witness :
  TypeError = TypeError /\
  least_and_most_points sample_late_joiner 2 3 = Raise TypeError.
Proof.
  destruct (min_max_report_fails_for_late_joiner sample_late_joiner 2 3)
    as [Honly Hlate].
  split.
  - apply Honly. reflexivity.
  - apply (Hlate 7 {| name := "Alex"; team := "AlexFC" |}
             (gameweek 2 25 1005 25) [gameweek 3 5 1010 5]);
      [now left | reflexivity | simpl; lia].
Defined.

(** X15.  A history in which no entry has an event greater than 1 (the
    empty history included) never fails: the total bounds are both the
    [total_points] of the last entry with event 1 and the month bounds both
    those of the last entry with event [start_gw_month], each left at
    [None] when there is no such entry. *)
Theorem min_max_without_later_entries (start_gw_month end_gw_month : Z)
    (history : list History.t) :
  Forall (fun h => History.event h <= 1) history ->
  least_most_history start_gw_month end_gw_month history
  = Ok {| MinMax.min_points_total :=
            option_map History.total_points (last_with_event 1 history);
          MinMax.max_points_total :=
            option_map History.total_points (last_with_event 1 history);
          MinMax.min_points_month :=
            option_map History.total_points
              (last_with_event start_gw_month history);
          MinMax.max_points_month :=
            option_map History.total_points
              (last_with_event start_gw_month history) |}.
Proof.
  intros Hall. unfold least_most_history, MinMax.init.
  rewrite (least_most_early_entries start_gw_month end_gw_month history Hall).
  destruct (last_with_event 1 history),
    (last_with_event start_gw_month history); reflexivity.
Qed.

Lemma min_max_without_later_entries_witness :
  least_most_history 1 1 [gameweek 1 10 1000 10]
  = Ok {| MinMax.min_points_total := Some 10;
          MinMax.max_points_total := Some 10;
          MinMax.min_points_month := Some 10;
          MinMax.max_points_month := Some 10 |}.
Proof.
  apply (min_max_without_later_entries 1 1 [gameweek 1 10 1000 10]).
  repeat constructor. simpl. lia.
Defined.

Lemma fold_min_lower xs :
  forall a,
    fold_left Z.min xs a <= a /\
    (forall x, In x xs -> fold_left Z.min xs a <= x) /\
    (fold_left Z.min xs a = a \/ In (fold_left Z.min xs a) xs).
Proof.
  induction xs as [|y xs IH]; intros a; simpl.
  - split; [lia|]. split; [contradiction | now left].
  - destruct (IH (Z.min a y)) as (Hle & Hin & Hatt).
    split; [lia|]. split.
    + intros x [<-|Hx]; [lia | now apply Hin].
    + destruct Hatt as [Heq|Hmem]; [|right; now right].
      rewrite Heq. destruct (Z.min_spec a y) as [[_ ->]|[_ ->]];
        [now left | right; now left].
Qed.

Lemma fold_max_upper xs :
  forall a,
    a <= fold_left Z.max xs a /\
    (forall x, In x xs -> x <= fold_left Z.max xs a) /\
    (fold_left Z.max xs a = a \/ In (fold_left Z.max xs a) xs).
Proof.
  induction xs as [|y xs IH]; intros a; simpl.
  - split; [lia|]. split; [contradiction | now left].
  - destruct (IH (Z.max a y)) as (Hle & Hin & Hatt).
    split; [lia|]. split.
    + intros x [<-|Hx]; [lia | now apply Hin].
    + destruct Hatt as [Heq|Hmem]; [|right; now right].
      rewrite Heq. destruct (Z.max_spec a y) as [[_ ->]|[_ ->]];
        [right; now left | now left].
Qed.

Lemma sorted_events_unique history h1 h2 :
  increasing_events history ->
  In h1 history -> In h2 history ->
  History.event h1 = History.event h2 -> h1 = h2.
Proof.
  unfold increasing_events.
  induction history as [|a history IH]; simpl; intros Hs H1 H2 Hev;
    [contradiction|].
  apply StronglySorted_inv in Hs. destruct Hs as [Hs Hall].
  rewrite Forall_forall in Hall.
  destruct H1 as [<-|H1], H2 as [<-|H2].
  - reflexivity.
  - specialize (Hall _ (in_map History.event _ _ H2)). lia.
  - specialize (Hall _ (in_map History.event _ _ H1)). lia.
  - now apply IH.
Qed.

(** X14.  For a history in strictly increasing event order with entries at
    event 1 and at [start_gw_month >= 1], the four bounds are numbers with
    [min_points_total <= min_points_month <= max_points_month
    <= max_points_total]; every entry from event 1 on has its
    [total_points] between the total bounds, and both total bounds are the
    [total_points] of such an entry. *)
Theorem min_max_bounds_enclose (start_gw_month end_gw_month : Z)
    (history : list History.t) :
  increasing_events history ->
  has_event 1 history ->
  has_event start_gw_month history ->
  1 <= start_gw_month ->
  exists lo hi mlo mhi,
    least_most_history start_gw_month end_gw_month history
    = Ok {| MinMax.min_points_total := Some lo;
            MinMax.max_points_total := Some hi;
            MinMax.min_points_month := Some mlo;
            MinMax.max_points_month := Some mhi |} /\
    lo <= mlo /\ mlo <= mhi /\ mhi <= hi /\
    (forall h, In h history -> 1 <= History.event h ->
               lo <= History.total_points h <= hi) /\
    (exists h, In h history /\ 1 <= History.event h /\
               History.total_points h = lo) /\
    (exists h, In h history /\ 1 <= History.event h /\
               History.total_points h = hi).
Proof.
  intros Hs H1 Hm Hstart.
  destruct (least_most_history_sorted start_gw_month end_gw_month history
              Hs H1 Hm) as (ms & Hspec & Hrun).
  unfold min_max_two_phase in Hspec.
  destruct (find (fun h => History.event h =? 1) history) as [f|] eqn:Hf;
    [|discriminate].
  destruct (find (fun h => History.event h =? start_gw_month) history)
    as [g|] eqn:Hg; [|discriminate].
  apply find_some in Hf. destruct Hf as [Hfin Hfev]. apply Z.eqb_eq in Hfev.
  apply find_some in Hg. destruct Hg as [Hgin Hgev]. apply Z.eqb_eq in Hgev.
  set (later := filter (fun h => History.event h >? 1) history) in *.
  set (later_month :=
         filter (fun h => in_window start_gw_month end_gw_month
                            (History.event h)) later) in *.
  destruct (fold_min_lower (map History.total_points later)
              (History.total_points f)) as (Hlo1 & Hlo2 & Hlo3).
  destruct (fold_max_upper (map History.total_points later)
              (History.total_points f)) as (Hhi1 & Hhi2 & Hhi3).
  destruct (fold_min_lower (map History.total_points later_month)
              (History.total_points g)) as (Hmlo1 & _ & Hmlo3).
  destruct (fold_max_upper (map History.total_points later_month)
              (History.total_points g)) as (Hmhi1 & _ & Hmhi3).
  set (lo := fold_left Z.min (map History.total_points later)
               (History.total_points f)) in *.
  set (hi := fold_left Z.max (map History.total_points later)
               (History.total_points f)) in *.
  set (mlo := fold_left Z.min (map History.total_points later_month)
                (History.total_points g)) in *.
  set (mhi := fold_left Z.max (map History.total_points later_month)
                (History.total_points g)) in *.
  assert (Hbetween : forall h, In h history -> 1 <= History.event h ->
                               lo <= History.total_points h <= hi).
  { intros h Hin Hev.
    destruct (Z.eq_dec (History.event h) 1) as [E|N].
    - assert (h = f) as -> by
          (apply (sorted_events_unique history); congruence).
      lia.
    - assert (In (History.total_points h)
                (map History.total_points later)) as Hmem.
      { apply in_map. apply filter_In. split; [exact Hin|].
        rewrite Z.gtb_ltb. apply Z.ltb_lt. lia. }
      split; [now apply Hlo2 | now apply Hhi2]. }
  assert (Hmonth_in : forall x,
            In x (map History.total_points later_month) ->
            lo <= x <= hi).
  { intros x Hx. apply in_map_iff in Hx. destruct Hx as (h & <- & Hh).
    apply filter_In in Hh. destruct Hh as [Hh _].
    apply filter_In in Hh. destruct Hh as [Hh Hev].
    rewrite Z.gtb_ltb in Hev. apply Z.ltb_lt in Hev.
    apply Hbetween; [exact Hh | lia]. }
  assert (Hg_between : lo <= History.total_points g <= hi)
    by (apply Hbetween; [exact Hgin | lia]).
  exists lo, hi, mlo, mhi. inversion Hspec; subst ms; clear Hspec.
  split; [exact Hrun|].
  split; [destruct Hmlo3 as [->|Hmem]; [lia | now apply Hmonth_in]|].
  split; [lia|].
  split; [destruct Hmhi3 as [->|Hmem]; [lia | now apply Hmonth_in]|].
  split; [exact Hbetween|].
  split.
  - destruct Hlo3 as [Heq|Hmem].
    + exists f. split; [exact Hfin|]. split; [lia | now rewrite Heq].
    + apply in_map_iff in Hmem. destruct Hmem as (h & Htp & Hh).
      apply filter_In in Hh. destruct Hh as [Hh Hev].
      rewrite Z.gtb_ltb in Hev. apply Z.ltb_lt in Hev.
      exists h. split; [exact Hh|]. split; [lia | exact Htp].
  - destruct Hhi3 as [Heq|Hmem].
    + exists f. split; [exact Hfin|]. split; [lia | now rewrite Heq].
    + apply in_map_iff in Hmem. destruct Hmem as (h & Htp & Hh).
      apply filter_In in Hh. destruct Hh as [Hh Hev].
      rewrite Z.gtb_ltb in Hev. apply Z.ltb_lt in Hev.
      exists h. split; [exact Hh|]. split; [lia | exact Htp].
Qed.

Lemma min_max_bounds_enclose_witness :
  exists lo hi mlo mhi,
    least_most_history 2 3 (manager_history sample_api 7)
    = Ok {| MinMax.min_points_total := Some lo;
            MinMax.max_points_total := Some hi;
            MinMax.min_points_month := Some mlo;
            MinMax.max_points_month := Some mhi |} /\
    lo <= mlo /\ mlo <= mhi /\ mhi <= hi /\
    (forall h, In h (manager_history sample_api 7) -> 1 <= History.event h ->
               lo <= History.total_points h <= hi) /\
    (exists h, In h (manager_history sample_api 7) /\ 1 <= History.event h /\
               History.total_points h = lo) /\
    (exists h, In h (manager_history sample_api 7) /\ 1 <= History.event h /\
               History.total_points h = hi).
Proof.
  apply (min_max_bounds_enclose 2 3 (manager_history sample_api 7)).
  - unfold increasing_events. simpl.
    repeat (constructor; [|repeat constructor; lia]). constructor.
  - exists (gameweek 1 10 1000 10). split; [now left | reflexivity].
  - exists (gameweek 2 25 1005 25). split; [right; now left | reflexivity].
  - lia.
Defined.

Lemma player_collection_fails_on_unknown_type_witness :
  (exists pc, update_player_collection sample_api = Ok pc) /\
  KeyError = KeyError.
Proof.
  split.
  - apply (proj1 (player_collection_fails_on_unknown_type sample_api)).
    repeat constructor; unfold known_type; simpl; lia.
  - apply (proj2 (player_collection_fails_on_unknown_type
                    sample_unknown_type) KeyError).
    reflexivity.
Defined.

(** ** The entry point *)

(** X16.  A run of the script writes its documents in the fixed order of
    [file_names] and stops at the first exception: what is written is a
    prefix of that list, all four are written exactly when no exception
    occurred, and a bootstrap list the player collection cannot be built
    from ends the run before anything is written. *)
Theorem main_stops_at_first_failure (F : PyFloat) (api : Api) :
  (forall e,
      update_player_collection api = Raise e -> main api = ([], Some e)) /\
  (forall written exn,
      main api = (written, exn) ->
      exists k,
        (k <= 4)%nat /\
        map fst written = firstn k file_names /\
        (exn = None <-> k = 4%nat)).
Proof.
  unfold main. split.
  - intros e Hupc. now rewrite Hupc.
  - intros written exn Hmain.
    destruct (update_player_collection api) as [pc|e0].
    + unfold functions, run_functions in Hmain.
      destruct (fetch_coach_of_the_month_and_team_value api
                  gw_start_of_month gw_end_of_month) as [r1|e1];
        cbn [bind] in Hmain;
        [|inversion Hmain; subst; exists 0%nat;
          repeat split; try lia; try reflexivity; discriminate].
      destruct (fetch_captain_bench_transfer api gw_start_of_month
                  gw_end_of_month gw_end_total) as [r2|e2];
        cbn [bind] in Hmain;
        [|inversion Hmain; subst; exists 1%nat;
          repeat split; try lia; try reflexivity; discriminate].
      destruct (position_bench_goals_assists_xg_xa api gw_start_of_month
                  gw_end_of_month gw_end_total true false) as [r3|e3];
        cbn [bind] in Hmain;
        [|inversion Hmain; subst; exists 2%nat;
          repeat split; try lia; try reflexivity; discriminate].
      destruct (least_and_most_points api gw_start_of_month
                  gw_end_of_month) as [r4|e4];
        cbn [bind] in Hmain;
        inversion Hmain; subst;
        [exists 4%nat | exists 3%nat];
        repeat split; try lia; try reflexivity; discriminate.
    + inversion Hmain; subst. exists 0%nat.
      repeat split; try lia; try reflexivity; discriminate.
Qed.

Lemma main_stops_at_first_failure_witness :
  main (F := Centi) sample_unknown_type = ([], Some KeyError) /\
  exists k,
    (k <= 4)%nat /\
    map fst (fst (main (F := Centi) sample_api)) = firstn k file_names /\
    (snd (main (F := Centi) sample_api) = None <-> k = 4%nat).
Proof.
  split.
  - apply (proj1 (main_stops_at_first_failure Centi sample_unknown_type)).
    reflexivity.
  - apply (proj2 (main_stops_at_first_failure Centi sample_api)).
    apply surjective_pairing.
Defined.

(** ** Further cross-checks and edge cases *)

Lemma final_multiplier_with_bench {F : PyFloat} captain_points_included
    (row : Row) :
  row_points captain_points_included true row
  = if raw_benched row
    then row_total_points row
    else row_total_points row
         * effective_multiplier captain_points_included (row_pick row).
Proof.
  rewrite <- (raw_benched_effective captain_points_included).
  unfold row_points, final_multiplier, benched.
  destruct (effective_multiplier captain_points_included (row_pick row) =? 0);
    [lia | reflexivity].
Qed.

Lemma sum_Z_split {A} (amount : A -> Z) (keep : A -> bool) rows :
  sum_Z (map amount rows)
  = sum_Z (map amount (filter keep rows))
    + sum_Z (map amount (filter (fun r => negb (keep r)) rows)).
Proof.
  induction rows as [|row rows IH]; [reflexivity|].
  simpl. destruct (keep row); simpl; lia.
Qed.

(** X17.  In the positional report computed with [bench_included = true],
    for every entry the four positional totals add up to the points times
    effective multiplier of the manager's non-bench picks plus
    [bench.total]: the benched picks enter the positional totals with
    multiplier 1. *)
Theorem positional_totals_with_bench (F : PyFloat) (api : Api)
    (start_gw_month end_gw_month end_gw_total : Z)
    (captain_points_included : bool) (scores : dict string Positional.t)
    (team_name : string) (sc : Positional.t) :
  position_bench_goals_assists_xg_xa api start_gw_month end_gw_month
    end_gw_total captain_points_included true = Ok scores ->
  dict_get String.eqb team_name scores = Some sc ->
  exists manager_id manager player_collection rows,
    In (manager_id, manager) (fetch_manager_information api) /\
    team manager = team_name /\
    update_player_collection api = Ok player_collection /\
    manager_rows api captain_points_included true player_collection
      manager_id (py_range 1 (end_gw_total + 1)) = Ok rows /\
    total (Positional.goalkeeper sc) + total (Positional.defender sc)
    + total (Positional.midfielder sc) + total (Positional.forward sc)
    = sum_Z (map (fun r => row_total_points r
                           * effective_multiplier captain_points_included
                               (row_pick r))
               (filter non_bench rows))
      + total (Positional.bench sc).
Proof.
  intros Hrun Hget.
  destruct (positional_entry_window_sums _ _ _ _ _ _ _ _ _ _ Hrun Hget)
    as (mid & m & pc & rows & Hin & Hteam & Hpc & Hrows & Hp & Hb & _).
  exists mid, m, pc, rows. repeat (split; [assumption|]).
  change (Positional.goalkeeper sc) with (at_position goalkeeper sc).
  change (Positional.defender sc) with (at_position defender sc).
  change (Positional.midfielder sc) with (at_position midfielder sc).
  change (Positional.forward sc) with (at_position forward sc).
  rewrite (proj1 (Hp goalkeeper)), (proj1 (Hp defender)),
    (proj1 (Hp midfielder)), (proj1 (Hp forward)), (proj1 Hb).
  rewrite sum_by_position.
  rewrite (sum_Z_split _ non_bench). f_equal.
  - f_equal. apply map_ext_in. intros row Hrow.
    apply filter_In in Hrow. destruct Hrow as [_ Hnb].
    rewrite final_multiplier_with_bench. unfold non_bench in Hnb.
    destruct (raw_benched row); [discriminate | reflexivity].
  - assert (Hsame : forall rs : list Row,
              filter (fun r => negb (non_bench r)) rs
              = filter (benched captain_points_included) rs).
    { intros rs. apply filter_ext. intros row.
      rewrite raw_benched_effective. unfold non_bench.
      now rewrite negb_involutive. }
    rewrite Hsame. f_equal. apply map_ext_in. intros row Hrow.
    apply filter_In in Hrow. destruct Hrow as [_ Hbn].
    rewrite final_multiplier_with_bench.
    rewrite raw_benched_effective in Hbn. now rewrite Hbn.
Qed.

(** X18.  When no gameweek is iterated ([end_gw_total < 1]) the captain
    report never fails and every entry of it is all zeros. *)
Theorem captain_report_without_gameweeks (api : Api)
    (start_gw_month end_gw_month end_gw_total : Z) :
  end_gw_total < 1 ->
  exists scores,
    fetch_captain_bench_transfer api start_gw_month end_gw_month end_gw_total
    = Ok scores /\
    forall team_name r,
      dict_get String.eqb team_name scores = Some r -> r = Captain.init.
Proof.
  intros Hlt. unfold fetch_captain_bench_transfer.
  assert (Hbody : forall l manager_id,
            captain_manager api start_gw_month end_gw_month end_gw_total
              l manager_id = Ok (l, Captain.init)).
  { intros l manager_id. unfold captain_manager.
    now rewrite py_range_empty by lia. }
  destruct (manager_loop_total team
              (captain_manager api start_gw_month end_gw_month end_gw_total)
              (fun _ => True) (fetch_manager_information api) None)
    as (l & scores & Hrun); [|exact I|].
  { intros l0 manager_id _. exists l0, Captain.init.
    split; [apply Hbody | exact I]. }
  exists scores. rewrite Hrun. split; [reflexivity|].
  intros team_name r Hget.
  destruct (manager_loop_entry _ _ _ _ _ _ _ _ Hrun Hget)
    as (mid & m & li & lo & _ & _ & Hb).
  rewrite Hbody in Hb. now inversion Hb.
Qed.

Lemma captain_report_without_gameweeks_witness :
  exists scores,
    fetch_captain_bench_transfer sample_api 1 1 0 = Ok scores /\
    forall team_name r,
      dict_get String.eqb team_name scores = Some r -> r = Captain.init.
Proof.
  apply (captain_report_without_gameweeks sample_api 1 1 0). lia.
Defined.

(** The entry a manager loop leaves under a manager's key when no later
    manager has the same key. *)
Lemma manager_loop_last_wins {R} (key : Manager -> string)
    (body : unit -> Z -> result (unit * R)) pre mid m post u scores :
  manager_loop key body (pre ++ (mid, m) :: post)%list tt = Ok (u, scores) ->
  Forall (fun im => key (snd im) <> key m) post ->
  exists r, body tt mid = Ok (tt, r) /\
            dict_get String.eqb (key m) scores = Some r.
Proof.
  unfold manager_loop. rewrite for_each_app. intros Hrun Hpost.
  bind_inv Hrun. destruct a as [[] sc1]. cbn [for_each] in Hrun.
  bind_inv Hrun. bind_inv Ha0. destruct a0 as [[] r].
  inversion Ha0; subst; clear Ha0.
  exists r. split; [exact Ha1|].
  assert (Hget : dict_get String.eqb (key m)
                   (dict_set String.eqb (key m) r sc1) = Some r)
    by apply dict_get_set_eq.
  revert Hrun Hget. generalize (dict_set String.eqb (key m) r sc1).
  generalize tt at 1. clear Ha Ha1.
  induction post as [|[mid' m'] post IH]; intros u0 sc Hrun Hget.
  - simpl in Hrun. inversion Hrun; subst. exact Hget.
  - inversion Hpost as [|? ? Hne Hpost']; subst. simpl in Hne.
    cbn [for_each] in Hrun. bind_inv Hrun. bind_inv Ha.
    destruct a0 as [u1 r1]. inversion Ha; subst; clear Ha.
    apply (IH Hpost' _ _ Hrun).
    rewrite dict_get_set_neq by congruence. exact Hget.
Qed.

(** X19.  In the positional and the min/max report, a manager whose team
    name no later manager of the roster carries finds under that name the
    report computed from his own data. *)
Theorem own_report_under_team_name (F : PyFloat) (api : Api)
    (pre post : list (Z * Manager)) (manager_id : Z) (manager : Manager) :
  fetch_manager_information api = (pre ++ (manager_id, manager) :: post)%list ->
  Forall (fun im => team (snd im) <> team manager) post ->
  (forall start_gw_month end_gw_month end_gw_total captain_points_included
          bench_included scores,
      position_bench_goals_assists_xg_xa api start_gw_month end_gw_month
        end_gw_total captain_points_included bench_included = Ok scores ->
      exists player_collection sc,
        update_player_collection api = Ok player_collection /\
        position_manager api start_gw_month end_gw_month end_gw_total
          captain_points_included bench_included player_collection tt
          manager_id = Ok (tt, sc) /\
        dict_get String.eqb (team manager) scores = Some sc) /\
  (forall start_gw_month end_gw_month scores,
      least_and_most_points api start_gw_month end_gw_month = Ok scores ->
      exists ms,
        least_most_history start_gw_month end_gw_month
          (manager_history api manager_id) = Ok ms /\
        dict_get String.eqb (team manager) scores = Some ms).
Proof.
  intros Hroster Hpost. split.
  - intros s e t cpi bi scores Hrun.
    unfold position_bench_goals_assists_xg_xa in Hrun. rewrite Hroster in Hrun.
    bind_inv Hrun. rename a into pc. bind_inv Hrun. destruct a as [u scs].
    inversion Hrun; subst.
    destruct (manager_loop_last_wins team _ _ _ _ _ _ _ Ha0 Hpost)
      as (r & Hbody & Hget).
    exists pc, r. repeat split; assumption.
  - intros s e scores Hrun.
    unfold least_and_most_points in Hrun. rewrite Hroster in Hrun.
    bind_inv Hrun. destruct a as [u scs]. inversion Hrun; subst.
    destruct (manager_loop_last_wins team _ _ _ _ _ _ _ Ha Hpost)
      as (r & Hbody & Hget).
    unfold least_most_manager in Hbody. bind_inv Hbody.
    inversion Hbody; subst. exists r. split; assumption.
Qed.

Lemma positional_totals_with_bench_witness :
  exists manager_id manager player_collection rows,
    In (manager_id, manager) (fetch_manager_information sample_api) /\
    team manager = "AlexFC" /\
    update_player_collection sample_api = Ok player_collection /\
    manager_rows (F := Centi) sample_api false true player_collection
      manager_id (py_range 1 (2 + 1)) = Ok rows /\
    8 + 0 + 4 + 40
    = sum_Z (map (fun r => row_total_points r
                           * effective_multiplier false (row_pick r))
               (filter non_bench rows))
      + 4.
Proof.
  apply (positional_totals_with_bench Centi sample_api 2 2 2 false
           [("AlexFC", sample_positional_with_bench)] "AlexFC"
           sample_positional_with_bench); reflexivity.
Defined.

Lemma own_report_under_team_name_witness :
  (exists player_collection sc,
      update_player_collection sample_api = Ok player_collection /\
      position_manager (F := Centi) sample_api 2 2 2 true false
        player_collection tt 7 = Ok (tt, sc) /\
      dict_get String.eqb "AlexFC" [("AlexFC", sample_positional_report)]
      = Some sc) /\
  (exists ms,
      least_most_history 2 3 (manager_history sample_api 7) = Ok ms /\
      dict_get String.eqb "AlexFC"
        [("AlexFC", MinMax.Build_t (Some 5) (Some 25) (Some 5) (Some 25))]
      = Some ms).
Proof.
  destruct (own_report_under_team_name Centi sample_api [] [] 7
              {| name := "Alex"; team := "AlexFC" |} eq_refl
              (Forall_nil _)) as [Hpositional Hminmax].
  split.
  - apply (Hpositional 2 2 2 true false). reflexivity.
  - apply (Hminmax 2 3). reflexivity.
Defined.
